(** * photonai_icu: the resampling transformers

    A shallow embedding of the two [ResamplerTransformer] classes of
    [photonai_icu] (package [resampler], called variant 1, and package
    [transformer], called variant 2) together with the part of the dataframe
    engine their [transform] methods drive: index levels, [reset_index],
    [groupby], [resample], [agg], [drop], the boolean-mask assignment through
    [loc] and [fillna].

    Numbers are idealised as rationals; the floating point [NaN], [pd.NA] and
    [None] inside a table are one missing marker, the [None] of a [Cell].
    Timestamps are whole seconds since the epoch. *)

From Stdlib Require Import List String ZArith QArith Qcanon Bool Lia Sorted.
Import ListNotations.

Local Open Scope string_scope.
Local Open Scope list_scope.
Local Open Scope Z_scope.

(** ** Effects: the log, the engine calls, exceptions *)

Inductive Exn : Type :=
| ValueError (msg : string)
| KeyError (msg : string)
| TypeError (msg : string)
| AttributeError (msg : string).

(** What a run leaves behind besides its result: the messages handed to
    [logger.error] and the dataframe methods it called, in program order. *)
Inductive Event : Type :=
| LoggerError (msg : string)
| PandasCall (op : string).

Record Run (A : Type) : Type := mkRun {
  trace : list Event;
  outcome : Exn + A
}.
Arguments mkRun {A} _ _.
Arguments trace {A} _.
Arguments outcome {A} _.

Definition ret {A} (a : A) : Run A := mkRun [] (inr a).

Definition raise {A} (e : Exn) : Run A := mkRun [] (inl e).

Definition emit (ev : Event) : Run unit := mkRun [ev] (inr tt).

Definition bind {A B} (m : Run A) (f : A -> Run B) : Run B :=
  match outcome m with
  | inl e => mkRun (trace m) (inl e)
  | inr a => mkRun (trace m ++ trace (f a)) (outcome (f a))
  end.

Notation "x <- m ;; k" := (bind m (fun x => k))
  (at level 61, m at next level, right associativity).
Notation "m ;;; k" := (bind m (fun _ => k))
  (at level 61, right associativity).

(** A call of an engine method: it is recorded, then it returns or raises. *)
Definition call {A} (op : string) (r : Exn + A) : Run A :=
  emit (PandasCall op) ;;; mkRun [] r.

Definition is_pandas_call (ev : Event) : bool :=
  match ev with
  | PandasCall _ => true
  | LoggerError _ => false
  end.

(** ** The dataframe engine *)

Module Pandas.

Definition Cell : Type := option Q.

Definition NA : Cell := None.

Inductive LevelData : Type :=
| Datetimes (ts : list Z)
| Labels (ks : list Cell).

Record Level : Type := mkLevel {
  level_name : option string;
  level_data : LevelData
}.

Record DataFrame : Type := mkFrame {
  index : list Level;
  columns : list (string * list Cell)
}.

Definition level_length (l : Level) : nat :=
  match level_data l with
  | Datetimes ts => List.length ts
  | Labels ks => List.length ks
  end.

Definition nrows (df : DataFrame) : nat :=
  match index df with
  | [] => 0%nat
  | l :: _ => level_length l
  end.

Definition column_names (df : DataFrame) : list string :=
  map fst (columns df).

Definition index_names (df : DataFrame) : list (option string) :=
  map level_name (index df).

(** Every level and every column of a frame has one entry per row, level
    names are pairwise distinct and so are column labels. *)
Record well_formed (df : DataFrame) : Prop := {
  wf_index : index df <> [];
  wf_levels : Forall (fun l => level_length l = nrows df) (index df);
  wf_columns : Forall (fun c => List.length (snd c) = nrows df) (columns df);
  wf_index_names : NoDup (index_names df);
  wf_column_names : NoDup (column_names df)
}.

(** *** Index inspection *)

Definition is_datetime64_any_dtype (d : LevelData) : bool :=
  match d with
  | Datetimes _ => true
  | Labels _ => false
  end.

(** [is_datetime64_any_dtype(X.index)]: a [MultiIndex] has dtype [object],
    so only a single datetime level qualifies. *)
Definition index_is_datetime64 (ix : list Level) : bool :=
  match ix with
  | [l] => is_datetime64_any_dtype (level_data l)
  | _ => false
  end.

Definition name_eqb (a b : option string) : bool :=
  match a, b with
  | Some x, Some y => String.eqb x y
  | None, None => true
  | _, _ => false
  end.

Definition show_name (name : option string) : string :=
  match name with
  | Some s => s
  | None => "None"
  end.

Definition levels_named (ix : list Level) (name : option string)
  : list Level :=
  filter (fun l => name_eqb (level_name l) name) ix.

(** What an index says about a level it does not have: a flat index
    compares the name with its own, a [MultiIndex] searches its names. *)
Definition level_not_found (ix : list Level) (name : option string) : Exn :=
  match ix with
  | [l] =>
      KeyError
        (String.append "Requested level ("
           (String.append (show_name name)
              (String.append ") does not match index name ("
                 (String.append (show_name (level_name l)) ")"))))
  | _ =>
      KeyError
        (String.append "Level " (String.append (show_name name) " not found"))
  end.

Definition name_occurs_multiple_times (name : option string) : Exn :=
  ValueError
    (String.append "The name "
       (String.append (show_name name)
          " occurs multiple times, use a level number")).

(** [index.get_level_values(name)]: the level of that name; a name carried
    by two levels is refused, and so is one carried by none. *)
Definition get_level_values (ix : list Level) (name : option string)
  : Exn + LevelData :=
  match levels_named ix name with
  | [] => inl (level_not_found ix name)
  | [l] => inr (level_data l)
  | _ => inl (name_occurs_multiple_times name)
  end.

Definition level_is_datetime64 (ix : list Level) (name : option string)
  : Exn + bool :=
  match get_level_values ix name with
  | inl e => inl e
  | inr d => inr (is_datetime64_any_dtype d)
  end.

(** *** reset_index *)

Definition level_cells (d : LevelData) : list Cell :=
  match d with
  | Datetimes ts => map (fun t => Some (inject_Z t)) ts
  | Labels ks => ks
  end.

Fixpoint remove_level (ix : list Level) (name : string) : list Level :=
  match ix with
  | [] => []
  | l :: rest =>
      if name_eqb (level_name l) (Some name) then rest
      else l :: remove_level rest name
  end.

Definition range_index (n : nat) : Level :=
  mkLevel None (Labels (map (fun i => Some (inject_Z (Z.of_nat i))) (seq 0 n))).

Definition has_column (df : DataFrame) (name : string) : bool :=
  existsb (String.eqb name) (column_names df).

(** [df.reset_index(name)]: the level moves to the front of the columns; a
    frame left without a level gets the default integer index. *)
Definition reset_index (df : DataFrame) (name : string) : Exn + DataFrame :=
  match get_level_values (index df) (Some name) with
  | inl e => inl e
  | inr d =>
      if has_column df name
      then inl (ValueError
                  (String.append "cannot insert "
                     (String.append name ", already exists")))
      else inr (mkFrame
                  (match remove_level (index df) name with
                   | [] => [range_index (nrows df)]
                   | ix => ix
                   end)
                  ((name, level_cells d) :: columns df))
  end.

(** *** groupby *)

Fixpoint getitem (cols : list (string * list Cell)) (name : string)
  : option (list Cell) :=
  match cols with
  | [] => None
  | (n, vs) :: rest => if String.eqb n name then Some vs else getitem rest name
  end.

Record GroupBy : Type := mkGroupBy {
  gb_frame : DataFrame;
  gb_key : string;
  gb_keys : list Cell;
  gb_key_is_column : bool
}.

Definition is_level_reference (df : DataFrame) (key : string) : bool :=
  existsb (fun l => name_eqb (level_name l) (Some key)) (index df).

(** [df.groupby(key)]: the key names a column or an index level, not both. *)
Definition groupby (df : DataFrame) (key : string) : Exn + GroupBy :=
  match getitem (columns df) key with
  | Some vs =>
      if is_level_reference df key
      then inl (ValueError
                  (String.append "'"
                     (String.append key
                        "' is both an index level and a column label, which is ambiguous.")))
      else inr (mkGroupBy df key vs true)
  | None =>
      if is_level_reference df key
      then match get_level_values (index df) (Some key) with
           | inl e => inl e
           | inr d => inr (mkGroupBy df key (level_cells d) false)
           end
      else inl (KeyError key)
  end.

(** The group labels: the distinct keys that are present, ascending. Rows
    whose key is missing belong to no group. *)
Fixpoint present (ks : list Cell) : list Q :=
  match ks with
  | [] => []
  | Some q :: rest => Qred q :: present rest
  | None :: rest => present rest
  end.

Definition Q_eq_dec (a b : Q) : {a = b} + {a <> b}.
Proof.
  decide equality; [apply Pos.eq_dec | apply Z.eq_dec].
Defined.

Fixpoint insert_sorted (q : Q) (l : list Q) : list Q :=
  match l with
  | [] => [q]
  | x :: rest => if Qle_bool q x then q :: l else x :: insert_sorted q rest
  end.

Definition sort_keys (l : list Q) : list Q :=
  fold_right insert_sorted [] l.

Definition group_keys (ks : list Cell) : list Q :=
  sort_keys (nodup Q_eq_dec (present ks)).

Definition is_key (g : Q) (k : Cell) : bool :=
  match k with
  | Some q => Qeq_bool q g
  | None => false
  end.

(** *** resample *)

Record PandasEnv : Type := mkEnv {
  (** width in seconds of a fixed frequency alias, [None] for a string the
      engine rejects *)
  to_offset : string -> option positive;
  (** the reductions known by name *)
  named_agg : string -> option (list Cell -> Cell);
  (** whether a resampled group-by aggregates the grouping column too *)
  include_groups : bool
}.

Record Resampler : Type := mkResampler {
  rs_groupby : GroupBy;
  rs_width : Z;
  rs_time_name : option string;
  rs_times : list Z
}.

Definition resample (env : PandasEnv) (gb : GroupBy) (freq : string)
  : Exn + Resampler :=
  match to_offset env freq with
  | None => inl (ValueError "Invalid frequency")
  | Some w =>
      match index (gb_frame gb) with
      | [l] =>
          match level_data l with
          | Datetimes ts => inr (mkResampler gb (Z.pos w) (level_name l) ts)
          | Labels _ => inl (TypeError "Only valid with DatetimeIndex")
          end
      | _ => inl (TypeError "Only valid with DatetimeIndex")
      end
  end.

Fixpoint select {A} (mask : list bool) (vs : list A) : list A :=
  match mask, vs with
  | true :: m, v :: r => v :: select m r
  | false :: m, _ :: r => select m r
  | _, _ => []
  end.

Definition day : Z := 86400.

(** The left edges of the buckets of one group: left-closed intervals of
    width [w] anchored at midnight of the first day, from the bucket of the
    earliest timestamp to the bucket of the latest. *)
Definition bucket_labels (w : Z) (ts : list Z) : list Z :=
  match ts with
  | [] => []
  | t :: rest =>
      let first := fold_right Z.min t rest in
      let last := fold_right Z.max t rest in
      let origin := day * (first / day) in
      let fresult := first - (first - origin) mod w in
      let lresult := last - (last - origin) mod w + w in
      map (fun i => fresult + w * Z.of_nat i)
          (seq 0 (Z.to_nat ((lresult - fresult) / w)))
  end.

Definition in_bucket (w b t : Z) : bool := (b <=? t) && (t <? b + w).

(** The rows of the result: one per group and bucket. *)
Definition grid (w : Z) (keys : list Cell) (times : list Z) : list (Q * Z) :=
  flat_map (fun g =>
              map (pair g) (bucket_labels w (select (map (is_key g) keys) times)))
           (group_keys keys).

Definition bucket_mask (w : Z) (keys : list Cell) (times : list Z)
  (gb : Q * Z) : list bool :=
  map (fun kt => is_key (fst gb) (fst kt) && in_bucket w (snd gb) (snd kt))
      (combine keys times).

(** *** agg *)

Inductive Agg : Type :=
| AggName (name : string)
| AggFun (f : list Cell -> Cell).

Inductive Method : Type :=
| OneAgg (a : Agg)
| PerColumn (m : list (string * Agg)).

(** What the resampler of a group-by says about a name it does not know. *)
Definition not_a_valid_function (n : string) : string :=
  String.append "'"
    (String.append n
       "' is not a valid function for 'DatetimeIndexResamplerGroupby' object").

Definition resolve_agg (env : PandasEnv) (a : Agg)
  : Exn + (list Cell -> Cell) :=
  match a with
  | AggName n =>
      match named_agg env n with
      | Some f => inr f
      | None => inl (AttributeError (not_a_valid_function n))
      end
  | AggFun f => inr f
  end.

(** The columns a resampled group-by hands to the reduction. *)
Definition value_columns (env : PandasEnv) (gb : GroupBy)
  : list (string * list Cell) :=
  if gb_key_is_column gb && negb (include_groups env)
  then filter (fun c => negb (String.eqb (fst c) (gb_key gb)))
              (columns (gb_frame gb))
  else columns (gb_frame gb).

Fixpoint plan_dict (env : PandasEnv) (cols : list (string * list Cell))
  (m : list (string * Agg))
  : Exn + list (string * list Cell * (list Cell -> Cell)) :=
  match m with
  | [] => inr []
  | (c, a) :: rest =>
      match getitem cols c with
      | None => inl (KeyError c)
      | Some vs =>
          match resolve_agg env a with
          | inl e => inl e
          | inr f =>
              match plan_dict env cols rest with
              | inl e => inl e
              | inr p => inr ((c, vs, f) :: p)
              end
          end
      end
  end.

(** Which columns are reduced, and by what. *)
Definition plan (env : PandasEnv) (cols : list (string * list Cell))
  (m : Method) : Exn + list (string * list Cell * (list Cell -> Cell)) :=
  match m with
  | OneAgg a =>
      match resolve_agg env a with
      | inl e => inl e
      | inr f => inr (map (fun c => (fst c, snd c, f)) cols)
      end
  | PerColumn d => plan_dict env cols d
  end.

(** The rows of a group are taken in time order, rows with one timestamp in
    the order they have in the frame. *)
Fixpoint insert_by_time (x : Z * Cell) (l : list (Z * Cell))
  : list (Z * Cell) :=
  match l with
  | [] => [x]
  | y :: rest =>
      if fst x <=? fst y then x :: l else y :: insert_by_time x rest
  end.

Definition sort_by_time (l : list (Z * Cell)) : list (Z * Cell) :=
  fold_right insert_by_time [] l.

(** The cells of one column a bucket hands to the reduction. *)
Definition bucket_cells (w : Z) (keys : list Cell) (times : list Z)
  (r : Q * Z) (vals : list Cell) : list Cell :=
  map snd (sort_by_time (select (bucket_mask w keys times r)
                                (combine times vals))).

(** The table built from a plan: indexed by group label and bucket start,
    one reduced cell per planned column and row. *)
Definition agg_frame (rs : Resampler)
  (p : list (string * list Cell * (list Cell -> Cell))) : DataFrame :=
  let keys := gb_keys (rs_groupby rs) in
  let rows := grid (rs_width rs) keys (rs_times rs) in
  mkFrame
    [ mkLevel (Some (gb_key (rs_groupby rs)))
              (Labels (map (fun r => Some (fst r)) rows));
      mkLevel (rs_time_name rs) (Datetimes (map snd rows)) ]
    (map (fun c =>
            (fst (fst c),
             map (fun r =>
                    snd c (bucket_cells (rs_width rs) keys (rs_times rs) r
                                        (snd (fst c))))
                 rows))
         p).

Definition agg (env : PandasEnv) (rs : Resampler) (m : Method)
  : Exn + DataFrame :=
  match plan env (value_columns env (rs_groupby rs)) m with
  | inl e => inl e
  | inr p => inr (agg_frame rs p)
  end.

(** *** drop, loc, fillna *)

(** [df.drop(columns=name, errors="ignore")] *)
Definition drop (df : DataFrame) (name : string) : DataFrame :=
  mkFrame (index df)
          (filter (fun c => negb (String.eqb (fst c) name)) (columns df)).

Definition is_zero (c : Cell) : bool :=
  match c with
  | Some q => Qeq_bool q 0
  | None => false
  end.

(** [df[name] == 0]; the label is one of the frame's own, so the lookup
    finds its column. *)
Definition eq_zero_mask (df : DataFrame) (name : string) : list bool :=
  match getitem (columns df) name with
  | Some vs => map is_zero vs
  | None => []
  end.

Fixpoint mask_assign (mask : list bool) (v : Cell) (vs : list Cell)
  : list Cell :=
  match mask, vs with
  | b :: m, x :: r => (if b then v else x) :: mask_assign m v r
  | _, _ => vs
  end.

(** [df.loc[mask, name] = v], in place. *)
Definition loc_setitem (df : DataFrame) (mask : list bool) (name : string)
  (v : Cell) : DataFrame :=
  mkFrame (index df)
          (map (fun c => if String.eqb (fst c) name
                         then (fst c, mask_assign mask v (snd c))
                         else c)
               (columns df)).

(** A float handed to the engine is a number or [NaN]; [NaN] is the missing
    marker itself, so it has the type of a cell. *)
Definition fill (v : Cell) (c : Cell) : Cell :=
  match c with
  | Some q => Some q
  | None => v
  end.

(** [df.fillna(v)]; filling with [NaN] fills nothing. *)
Definition fillna (df : DataFrame) (v : Cell) : DataFrame :=
  mkFrame (index df) (map (fun c => (fst c, map (fill v) (snd c))) (columns df)).

(** The cell of column [name] in row [i]. *)
Definition cell (df : DataFrame) (name : string) (i : nat) : option Cell :=
  match getitem (columns df) name with
  | Some vs => nth_error vs i
  | None => None
  end.

End Pandas.

Import Pandas.

(** ** Arguments of [transform] *)

Inductive PyObj : Type :=
| PyNone
| PyInt (z : Z)
| PyStr (s : string)
| PyFrame (df : DataFrame).

(** [isinstance(X, pd.DataFrame)], with the frame when it holds. *)
Definition as_DataFrame (X : PyObj) : option DataFrame :=
  match X with
  | PyFrame df => Some df
  | _ => None
  end.

Definition logger_error (msg : string) : Run unit := emit (LoggerError msg).

(** The last two statements of both [transform] methods. A default value
    is [None], or a float: [Some NA] is [float("nan")], which is not
    [None]. *)
Definition fill_default (default_value : option Cell) (resampled_x : DataFrame)
  : Run PyObj :=
  match default_value with
  | None => ret (PyFrame resampled_x)
  | Some v =>
      filled <- call "fillna" (inr (fillna resampled_x v)) ;;
      ret (PyFrame filled)
  end.

(** ** Variant 1: [photonai_icu.resampler.ResamplerTransformer] *)

Module Variant1.

Record ResamplerTransformer : Type := mkTransformer {
  frequency : string;
  method : Method;
  groupby : string;
  default_value : option Cell
}.

(** [__init__]: an argument left out, or passed as [None], is [None]. *)
Definition init (frequency : option string) (method : option Method)
  (groupby : option string) (default_value : option Cell)
  : ResamplerTransformer :=
  mkTransformer
    (match frequency with Some f => f | None => "1H" end)
    (match method with Some m => m | None => OneAgg (AggName "mean") end)
    (match groupby with Some g => g | None => "stay_id" end)
    (Some (match default_value with Some v => v | None => Some 0%Q end)).

Definition fit (self : ResamplerTransformer) (X y : PyObj)
  : Run ResamplerTransformer :=
  ret self.

(** [X.groupby(self.groupby).resample(self.frequency).agg(self.method)] *)
Definition resampled (env : PandasEnv) (self : ResamplerTransformer)
  (df : DataFrame) : Run DataFrame :=
  gb <- call "groupby" (Pandas.groupby df (groupby self)) ;;
  rs <- call "resample" (resample env gb (frequency self)) ;;
  call "agg" (agg env rs (method self)).

Definition transform (env : PandasEnv) (self : ResamplerTransformer)
  (X : PyObj) : Run PyObj :=
  match as_DataFrame X with
  | None =>
      logger_error "ResamplerTransformer: X is not a pandas DataFrame" ;;;
      ret X
  | Some df =>
      if negb (index_is_datetime64 (index df))
      then
        logger_error "ResamplerTransformer: X does not have a datetime index" ;;;
        ret X
      else
        resampeld_x <- resampled env self df ;;
        fill_default (default_value self) resampeld_x
  end.

End Variant1.

(** ** Variant 2: [photonai_icu.transformer.ResamplerTransformer] *)

Module Variant2.

Record ResamplerTransformer : Type := mkTransformer {
  frequency : string;
  groupby : string;
  method : Method;
  default_value : option Cell;
  error : string
}.

(** [__init__]: [None] stands for an argument left out; [default_value] is
    stored as given. *)
Definition init (frequency groupby : option string) (method : option Method)
  (default_value : option Cell) (error : option string)
  : ResamplerTransformer :=
  mkTransformer
    (match frequency with Some f => f | None => "1H" end)
    (match groupby with Some g => g | None => "stay_id" end)
    (match method with Some m => m | None => OneAgg (AggName "mean") end)
    default_value
    (match error with Some e => e | None => "raise" end).

Definition fit (self : ResamplerTransformer) (X y : PyObj)
  : Run ResamplerTransformer :=
  ret self.

(** What follows the error message of a failed check. *)
Definition fail (self : ResamplerTransformer) (msg : string) (X : PyObj)
  : Run PyObj :=
  if String.eqb (error self) "raise" then raise (ValueError msg) else ret X.

(** [any(is_datetime64_any_dtype(X.index.get_level_values(n))
         for n in X.index.names)]: the names are tried in order, up to the
    first datetime-typed level or the first exception. *)
Fixpoint any_datetime64 (ix : list Level) (names : list (option string))
  : Exn + bool :=
  match names with
  | [] => inr false
  | n :: rest =>
      match level_is_datetime64 ix n with
      | inl e => inl e
      | inr true => inr true
      | inr false => any_datetime64 ix rest
      end
  end.

Definition any_level_is_datetime64 (df : DataFrame) : Exn + bool :=
  any_datetime64 (index df) (index_names df).

(** [X.reset_index(g).groupby(g).resample(self.frequency).agg(self.method)] *)
Definition aggregated (env : PandasEnv) (self : ResamplerTransformer)
  (df : DataFrame) : Run DataFrame :=
  flat <- call "reset_index" (reset_index df (groupby self)) ;;
  gb <- call "groupby" (Pandas.groupby flat (groupby self)) ;;
  rs <- call "resample" (resample env gb (frequency self)) ;;
  call "agg" (agg env rs (method self)).

(** The whole chain, [.drop(columns=g, errors="ignore")] included. *)
Definition resampled (env : PandasEnv) (self : ResamplerTransformer)
  (df : DataFrame) : Run DataFrame :=
  a <- aggregated env self df ;;
  call "drop" (inr (drop a (groupby self))).

(** The loop over [resampeld_x.columns]; the frame is updated in place. *)
Fixpoint zero_to_na (df : DataFrame) (labels : list string) : Run DataFrame :=
  match labels with
  | [] => ret df
  | column :: rest =>
      df' <- call "loc.__setitem__"
               (inr (loc_setitem df (eq_zero_mask df column) column NA)) ;;
      zero_to_na df' rest
  end.

(** The table as it stands before the default is applied: resampled, then
    swept by the loop. *)
Definition coerced (env : PandasEnv) (self : ResamplerTransformer)
  (df : DataFrame) : Run DataFrame :=
  resampeld_x <- resampled env self df ;;
  zero_to_na resampeld_x (column_names resampeld_x).

Definition transform (env : PandasEnv) (self : ResamplerTransformer)
  (X : PyObj) : Run PyObj :=
  match as_DataFrame X with
  | None =>
      logger_error "ResamplerTransformer: X is not a pandas DataFrame" ;;;
      fail self "X is not a pandas DataFrame" X
  | Some df =>
      match any_level_is_datetime64 df with
      | inl e => raise e
      | inr datetime_indexed =>
          if negb datetime_indexed
          then
            logger_error
              "ResamplerTransformer: X does not have a datetime index" ;;;
            fail self "X does not have a datetime index" X
          else
            resampeld_x <- coerced env self df ;;
            fill_default (default_value self) resampeld_x
      end
  end.

End Variant2.

(** ** A reference engine, for running the model *)

Module Reference.

Fixpoint values (vs : list Cell) : list Q :=
  match vs with
  | [] => []
  | Some q :: rest => q :: values rest
  | None :: rest => values rest
  end.

Definition total (qs : list Q) : Q := fold_right Qplus 0%Q qs.

Definition sum (vs : list Cell) : Cell := Some (Qred (total (values vs))).

Definition mean (vs : list Cell) : Cell :=
  match values vs with
  | [] => None
  | q :: qs =>
      Some (Qred (total (q :: qs) / inject_Z (Z.of_nat (List.length (q :: qs)))))
  end.

Definition first (vs : list Cell) : Cell := hd_error (values vs).

Definition last (vs : list Cell) : Cell := hd_error (rev (values vs)).

Definition max (vs : list Cell) : Cell :=
  match values vs with
  | [] => None
  | q :: qs => Some (fold_right (fun a b => if Qle_bool a b then b else a) q qs)
  end.

Definition min (vs : list Cell) : Cell :=
  match values vs with
  | [] => None
  | q :: qs => Some (fold_right (fun a b => if Qle_bool a b then a else b) q qs)
  end.

Definition aggregations : list (string * (list Cell -> Cell)) :=
  [ ("mean", mean); ("sum", sum); ("max", max); ("min", min);
    ("first", first); ("last", last) ].

Definition offsets : list (string * positive) :=
  [ ("1H", 3600%positive); ("2H", 7200%positive); ("30T", 1800%positive);
    ("1D", 86400%positive) ].

Fixpoint lookup {A} (table : list (string * A)) (name : string) : option A :=
  match table with
  | [] => None
  | (n, a) :: rest => if String.eqb n name then Some a else lookup rest name
  end.

Definition engine (include_groups : bool) : PandasEnv :=
  mkEnv (lookup offsets) (lookup aggregations) include_groups.

(** Two stays: stay 1 observed at 00:00 and 03:30, stay 2 at 00:45. The
    column [hr] holds 10 and 20 for stay 1 and 0 for stay 2. *)
Definition ward_index : list Level :=
  [ mkLevel (Some "stay_id") (Labels [Some 1%Q; Some 1%Q; Some 2%Q]);
    mkLevel (Some "charttime") (Datetimes [0; 12600; 2700]) ].

Definition ward : DataFrame :=
  mkFrame ward_index [ ("hr", [Some 10%Q; Some 20%Q; Some 0%Q]) ].

(** The same observations laid out for variant 1: the key is a column. *)
Definition ward_flat : DataFrame :=
  mkFrame [ mkLevel (Some "charttime") (Datetimes [0; 12600; 2700]) ]
          [ ("stay_id", [Some 1%Q; Some 1%Q; Some 2%Q]);
            ("hr", [Some 10%Q; Some 20%Q; Some 0%Q]) ].


Definition unnamed_times : DataFrame :=
  mkFrame [ mkLevel None (Labels [Some 1%Q; Some 2%Q]);
            mkLevel None (Datetimes [0; 3600]) ]
          [ ("hr", [Some 10%Q; Some 20%Q]) ].

(** Group 1 observed at 00:00 and 01:30 with values 10 and 20, group 2 at
    00:45 with value 5. *)
Definition two_groups : DataFrame :=
  mkFrame [ mkLevel (Some "charttime") (Datetimes [0; 5400; 2700]) ]
          [ ("stay_id", [Some 1%Q; Some 1%Q; Some 2%Q]);
            ("value", [Some 10%Q; Some 20%Q; Some 5%Q]) ].

End Reference.

(** ** Valid inputs and the vocabulary of the statements *)

Definition agg_known (env : PandasEnv) (a : Agg) : Prop :=
  match a with
  | AggName n => named_agg env n <> None
  | AggFun _ => True
  end.

(** The labels of the columns a resampled group-by reduces. *)
Definition reduced_names (env : PandasEnv) (key : string)
  (names : list string) : list string :=
  if include_groups env then names
  else filter (fun n => negb (String.eqb n key)) names.

(** The method names reductions the engine knows; a mapping has one entry
    per label and only labels of reducible columns. *)
Definition method_ok (env : PandasEnv) (names : list string) (m : Method)
  : Prop :=
  match m with
  | OneAgg a => agg_known env a
  | PerColumn d =>
      NoDup (map fst d) /\
      Forall (fun ca => In (fst ca) names /\ agg_known env (snd ca)) d
  end.

(** Variant 1 resamples a frame whose only index level holds the timestamps
    and whose grouping key is a plain column. *)
Record valid_input1 (env : PandasEnv) (self : Variant1.ResamplerTransformer)
  (df : DataFrame) : Prop := {
  v1_wf : well_formed df;
  v1_index : index_is_datetime64 (index df) = true;
  v1_key_column : has_column df (Variant1.groupby self) = true;
  v1_key_level : ~ In (Some (Variant1.groupby self)) (index_names df);
  v1_frequency : to_offset env (Variant1.frequency self) <> None;
  v1_method :
    method_ok env
      (reduced_names env (Variant1.groupby self) (column_names df))
      (Variant1.method self)
}.

(** Variant 2 resamples a frame indexed by the grouping key and the
    timestamps. *)
Record valid_input2 (env : PandasEnv) (self : Variant2.ResamplerTransformer)
  (df : DataFrame) : Prop := {
  v2_wf : well_formed df;
  v2_key_level : In (Some (Variant2.groupby self)) (index_names df);
  v2_key_column : has_column df (Variant2.groupby self) = false;
  v2_time_level :
    exists l, remove_level (index df) (Variant2.groupby self) = [l] /\
              is_datetime64_any_dtype (level_data l) = true;
  v2_frequency : to_offset env (Variant2.frequency self) <> None;
  v2_method :
    method_ok env
      (reduced_names env (Variant2.groupby self)
         (Variant2.groupby self :: column_names df))
      (Variant2.method self)
}.

(** What the loop of variant 2 does to one cell, and to a whole table. *)
Definition zero_cell (c : Cell) : Cell := if is_zero c then NA else c.

Definition sweep (df : DataFrame) : DataFrame :=
  mkFrame (index df)
          (map (fun c => (fst c, map zero_cell (snd c))) (columns df)).

(** [out] is [base] with every missing cell holding [v]. *)
Record filled (v : Q) (base out : DataFrame) : Prop := {
  filled_index : index out = index base;
  filled_labels : column_names out = column_names base;
  filled_none_missing :
    forall c i x, cell out c i = Some x -> x <> NA;
  filled_missing :
    forall c i, cell base c i = Some NA -> cell out c i = Some (Some v);
  filled_present :
    forall c i q, cell base c i = Some (Some q) -> cell out c i = Some (Some q)
}.

(** [k] is, as a number, one of the keys held by [ks]. *)
Definition key_value (ks : list Cell) (k : Q) : Prop :=
  exists q, In (Some q) ks /\ (q == k)%Q.

(** A run that never reached the engine. *)
Definition no_engine_call {A} (r : Run A) : Prop :=
  forallb (fun ev => negb (is_pandas_call ev)) (trace r) = true.

Definition not_a_frame : string :=
  "ResamplerTransformer: X is not a pandas DataFrame".

Definition no_datetime_index : string :=
  "ResamplerTransformer: X does not have a datetime index".

(** Every observation, a row with a key and a timestamp, falls into the
    bucket of a row of the result that carries its key. *)
Definition covers (w : Z) (keys : list Cell) (times : list Z)
  (oks : list Cell) (obs : list Z) : Prop :=
  forall i q t,
    nth_error keys i = Some (Some q) ->
    nth_error times i = Some t ->
    exists j g b,
      nth_error oks j = Some (Some g) /\ (g == q)%Q
      /\ nth_error obs j = Some b /\ b <= t < b + w.

(** No row of the result lies outside the observations of its group: one
    of them is not after its bucket, one is not before it. *)
Definition spanned (w : Z) (keys : list Cell) (times : list Z)
  (oks : list Cell) (obs : list Z) : Prop :=
  forall j g b,
    nth_error oks j = Some (Some g) ->
    nth_error obs j = Some b ->
    exists i1 q1 t1 i2 q2 t2,
      nth_error keys i1 = Some (Some q1) /\ (q1 == g)%Q
      /\ nth_error times i1 = Some t1 /\ t1 < b + w
      /\ nth_error keys i2 = Some (Some q2) /\ (q2 == g)%Q
      /\ nth_error times i2 = Some t2 /\ b <= t2.

(** The buckets of one key form a regular grid: two of them are a whole
    number of widths apart, and every step between them is a row too. *)
Definition gapless (w : Z) (oks : list Cell) (obs : list Z) : Prop :=
  forall j1 j2 g b1 b2,
    nth_error oks j1 = Some (Some g) -> nth_error obs j1 = Some b1 ->
    nth_error oks j2 = Some (Some g) -> nth_error obs j2 = Some b2 ->
    b1 <= b2 ->
    exists n,
      0 <= n /\ b2 = b1 + w * n
      /\ forall k, 0 <= k <= n ->
                   exists j, nth_error oks j = Some (Some g)
                             /\ nth_error obs j = Some (b1 + w * k).

(** The configuration of a variant 2 transformer, given to variant 1. *)
Definition as_variant1 (self : Variant2.ResamplerTransformer)
  : Variant1.ResamplerTransformer :=
  Variant1.mkTransformer (Variant2.frequency self) (Variant2.method self)
                         (Variant2.groupby self) (Variant2.default_value self).

(** The table after the loop has visited the labels [ls]. *)
Definition sweep_labels (ls : list string) (df : DataFrame) : DataFrame :=
  mkFrame (index df)
          (map (fun c => if existsb (String.eqb (fst c)) ls
                         then (fst c, map zero_cell (snd c))
                         else c)
               (columns df)).

(** The table returned for a default value [d], from the table [base] the
    loop leaves. *)
Definition apply_default (d : option Cell) (base : DataFrame) : DataFrame :=
  match d with
  | Some v => fillna base v
  | None => base
  end.

(** ** Laws of the effect layer *)

(** Distinctness of the labels of a concrete frame. *)
Ltac prove_distinct := repeat constructor; simpl; intuition discriminate.


Lemma outcome_bind_inr {A B} (m : Run A) (f : A -> Run B) (a : A) :
  outcome m = inr a -> outcome (bind m f) = outcome (f a).
Proof.
  intros H. unfold bind. rewrite H. reflexivity.
Qed.

Lemma outcome_bind_inl {A B} (m : Run A) (f : A -> Run B) (e : Exn) :
  outcome m = inl e -> outcome (bind m f) = inl e.
Proof.
  intros H. unfold bind. rewrite H. reflexivity.
Qed.

Lemma outcome_call {A} (op : string) (r : Exn + A) : outcome (call op r) = r.
Proof. reflexivity. Qed.

Lemma trace_call_bind {A B} (op : string) (r : Exn + A) (f : A -> Run B) :
  hd_error (trace (bind (call op r) f)) = Some (PandasCall op).
Proof.
  unfold bind. rewrite outcome_call. destruct r; reflexivity.
Qed.

Lemma trace_bind_hd {A B} (m : Run A) (f : A -> Run B) (ev : Event) :
  hd_error (trace m) = Some ev -> hd_error (trace (bind m f)) = Some ev.
Proof.
  intros H. unfold bind. destruct (outcome m); simpl; [exact H |].
  destruct (trace m); [discriminate | exact H].
Qed.

(** ** Facts about index levels *)

Lemma name_eqb_eq (a b : option string) : name_eqb a b = true <-> a = b.
Proof.
  destruct a as [x|], b as [y|]; simpl; split; intros H;
    try discriminate; try reflexivity.
  - apply String.eqb_eq in H. now subst.
  - inversion H. apply String.eqb_refl.
Qed.

Lemma name_eqb_refl (a : option string) : name_eqb a a = true.
Proof. now apply name_eqb_eq. Qed.

Lemma levels_named_In (ix : list Level) (n : option string) (l : Level) :
  In l (levels_named ix n) <-> In l ix /\ level_name l = n.
Proof.
  unfold levels_named. rewrite filter_In, name_eqb_eq. reflexivity.
Qed.

Lemma levels_named_absent (ix : list Level) (n : option string) :
  ~ In n (map level_name ix) -> levels_named ix n = [].
Proof.
  intros H. destruct (levels_named ix n) as [|l r] eqn:E; [reflexivity |].
  exfalso. apply H.
  assert (Hl : In l (levels_named ix n)) by (rewrite E; now left).
  apply levels_named_In in Hl. destruct Hl as [Hin <-]. now apply in_map.
Qed.

Lemma levels_named_NoDup (ix : list Level) (l : Level) :
  NoDup (map level_name ix) -> In l ix ->
  levels_named ix (level_name l) = [l].
Proof.
  induction ix as [|x ix IH]; simpl; [contradiction |].
  intros Hnd Hin. inversion Hnd as [|? ? Hx Hrest]; subst.
  destruct Hin as [-> | Hin].
  - rewrite name_eqb_refl. f_equal. now apply levels_named_absent.
  - destruct (name_eqb (level_name x) (level_name l)) eqn:E.
    + apply name_eqb_eq in E. exfalso. apply Hx. rewrite E.
      now apply in_map.
    + now apply IH.
Qed.

Lemma get_level_values_In (ix : list Level) (n : option string) (d : LevelData) :
  get_level_values ix n = inr d ->
  exists l, In l ix /\ level_name l = n /\ level_data l = d.
Proof.
  unfold get_level_values.
  destruct (levels_named ix n) as [|l [|l' r]] eqn:E; try discriminate.
  intros H. inversion H. exists l.
  assert (Hl : In l (levels_named ix n)) by (rewrite E; now left).
  apply levels_named_In in Hl. destruct Hl as [Hin Hn]. auto.
Qed.

Lemma get_level_values_NoDup (ix : list Level) (l : Level) :
  NoDup (map level_name ix) -> In l ix ->
  get_level_values ix (level_name l) = inr (level_data l).
Proof.
  intros Hnd Hin. unfold get_level_values.
  now rewrite (levels_named_NoDup ix l Hnd Hin).
Qed.

Lemma get_level_values_absent (ix : list Level) (n : option string) :
  ~ In n (map level_name ix) ->
  get_level_values ix n = inl (level_not_found ix n).
Proof.
  intros H. unfold get_level_values. now rewrite (levels_named_absent ix n H).
Qed.

(** With pairwise distinct names every lookup of the check succeeds, and
    the check finds a datetime-typed level exactly when there is one. *)
Lemma any_datetime64_NoDup (ix ls : list Level) :
  NoDup (map level_name ix) -> (forall l, In l ls -> In l ix) ->
  Variant2.any_datetime64 ix (map level_name ls)
  = inr (existsb (fun l => is_datetime64_any_dtype (level_data l)) ls).
Proof.
  intros Hnd. induction ls as [|l ls IH]; intros Hsub; [reflexivity |].
  simpl. unfold level_is_datetime64.
  rewrite (get_level_values_NoDup ix l Hnd) by (apply Hsub; now left).
  destruct (is_datetime64_any_dtype (level_data l)); [reflexivity |].
  simpl. apply IH. intros x Hx. apply Hsub. now right.
Qed.

Lemma any_level_is_datetime64_NoDup (df : DataFrame) :
  NoDup (index_names df) ->
  Variant2.any_level_is_datetime64 df
  = inr (existsb (fun l => is_datetime64_any_dtype (level_data l)) (index df)).
Proof.
  intros Hnd. unfold Variant2.any_level_is_datetime64, index_names.
  now apply any_datetime64_NoDup.
Qed.

Lemma no_datetime_level (df : DataFrame) :
  NoDup (index_names df) ->
  (forall l, In l (index df) -> is_datetime64_any_dtype (level_data l) = false) ->
  Variant2.any_level_is_datetime64 df = inr false.
Proof.
  intros Hnd H. rewrite (any_level_is_datetime64_NoDup df Hnd). f_equal.
  destruct (existsb _ (index df)) eqn:E; [| reflexivity].
  apply existsb_exists in E. destruct E as (l & Hin & Hdt).
  rewrite (H l Hin) in Hdt. discriminate.
Qed.

Lemma some_datetime_level (df : DataFrame) (l : Level) :
  NoDup (index_names df) -> In l (index df) ->
  is_datetime64_any_dtype (level_data l) = true ->
  Variant2.any_level_is_datetime64 df = inr true.
Proof.
  intros Hnd Hin Hdt. rewrite (any_level_is_datetime64_NoDup df Hnd). f_equal.
  apply existsb_exists. now exists l.
Qed.

Lemma any_datetime64_true (ix : list Level) (ns : list (option string)) :
  Variant2.any_datetime64 ix ns = inr true ->
  exists l, In l ix /\ is_datetime64_any_dtype (level_data l) = true.
Proof.
  induction ns as [|n ns IH]; simpl; [discriminate |].
  unfold level_is_datetime64.
  destruct (get_level_values ix n) as [e | d] eqn:G; [discriminate |].
  destruct (is_datetime64_any_dtype d) eqn:Hd; [| exact IH].
  intros _. apply get_level_values_In in G.
  destruct G as (l & Hin & _ & <-). now exists l.
Qed.

Lemma any_level_is_datetime64_true (df : DataFrame) :
  Variant2.any_level_is_datetime64 df = inr true ->
  exists l, In l (index df) /\ is_datetime64_any_dtype (level_data l) = true.
Proof. apply any_datetime64_true. Qed.

Lemma is_level_reference_In (df : DataFrame) (key : string) :
  is_level_reference df key = true <-> In (Some key) (index_names df).
Proof.
  unfold is_level_reference, index_names. rewrite existsb_exists, in_map_iff.
  split.
  - intros (l & Hin & E). apply name_eqb_eq in E. now exists l.
  - intros (l & E & Hin). exists l. split; [exact Hin |].
    now apply name_eqb_eq.
Qed.

Lemma is_level_reference_false (df : DataFrame) (key : string) :
  ~ In (Some key) (index_names df) -> is_level_reference df key = false.
Proof.
  intros H. destruct (is_level_reference df key) eqn:E; [| reflexivity].
  apply is_level_reference_In in E. contradiction.
Qed.

Lemma index_is_datetime64_single (ix : list Level) :
  index_is_datetime64 ix = true <->
  exists l, ix = [l] /\ is_datetime64_any_dtype (level_data l) = true.
Proof.
  split.
  - destruct ix as [|l [|l' r]]; simpl; try discriminate.
    intros H. now exists l.
  - intros (l & -> & H). exact H.
Qed.

(** ** Validation *)

(** C4: with the policy ["raise"] (the default of the constructor), variant
    2's [transform] of anything but a dataframe logs one error and raises a
    [ValueError] saying that X is not a pandas DataFrame; no engine method
    is called. *)
Theorem transform2_raises_on_non_frame :
  forall env self X,
    Variant2.error self = "raise" ->
    as_DataFrame X = None ->
    Variant2.transform env self X
    = mkRun [LoggerError not_a_frame]
            (inl (ValueError "X is not a pandas DataFrame"))
    /\ no_engine_call (Variant2.transform env self X)
    /\ Variant2.error (Variant2.init None None None None None) = "raise".
Proof.
  intros env self X Herr Hx.
  assert (E : Variant2.transform env self X
              = mkRun [LoggerError not_a_frame]
                      (inl (ValueError "X is not a pandas DataFrame"))).
  { unfold Variant2.transform, Variant2.fail. rewrite Hx, Herr. reflexivity. }
  split; [exact E |]. split; [| reflexivity].
  unfold no_engine_call. rewrite E. reflexivity.
Qed.

Lemma transform2_raises_on_non_frame_witness :
  Variant2.transform (Reference.engine true)
    (Variant2.init None None None None None) (PyInt 3)
  = mkRun [LoggerError not_a_frame]
          (inl (ValueError "X is not a pandas DataFrame")).
Proof.
  apply (transform2_raises_on_non_frame (Reference.engine true)
           (Variant2.init None None None None None) (PyInt 3));
    reflexivity.
Defined.




(** C6: variant 1's [transform] never raises on a failed check: for an
    argument that is not a dataframe, and for a dataframe whose index is not
    datetime-typed, it logs one error and returns the argument itself,
    without calling any engine method. *)
Theorem transform1_returns_input_on_failure :
  forall env self X,
    (as_DataFrame X = None ->
     Variant1.transform env self X = mkRun [LoggerError not_a_frame] (inr X))
    /\ (forall df,
           X = PyFrame df ->
           index_is_datetime64 (index df) = false ->
           Variant1.transform env self X
           = mkRun [LoggerError no_datetime_index] (inr X))
    /\ (as_DataFrame X = None \/
        (exists df, X = PyFrame df /\ index_is_datetime64 (index df) = false) ->
        no_engine_call (Variant1.transform env self X)).
Proof.
  intros env self X.
  assert (E1 : as_DataFrame X = None ->
               Variant1.transform env self X
               = mkRun [LoggerError not_a_frame] (inr X)).
  { intros Hx. unfold Variant1.transform. rewrite Hx. reflexivity. }
  assert (E2 : forall df,
             X = PyFrame df ->
             index_is_datetime64 (index df) = false ->
             Variant1.transform env self X
             = mkRun [LoggerError no_datetime_index] (inr X)).
  { intros df -> Hix. unfold Variant1.transform. simpl. rewrite Hix.
    reflexivity. }
  split; [exact E1 |]. split; [exact E2 |].
  unfold no_engine_call. intros [Hx | (df & Hdf & Hix)].
  - rewrite (E1 Hx). reflexivity.
  - rewrite (E2 df Hdf Hix). reflexivity.
Qed.

Lemma transform1_returns_input_on_failure_witness :
  Variant1.transform (Reference.engine true)
    (Variant1.init None None None None) (PyStr "hr")
  = mkRun [LoggerError not_a_frame] (inr (PyStr "hr"))
  /\ Variant1.transform (Reference.engine true)
       (Variant1.init None None None None) (PyFrame Reference.ward)
     = mkRun [LoggerError no_datetime_index] (inr (PyFrame Reference.ward))
  /\ no_engine_call
       (Variant1.transform (Reference.engine true)
          (Variant1.init None None None None) (PyFrame Reference.ward)).
Proof.
  split; [| split].
  - apply (transform1_returns_input_on_failure (Reference.engine true)
             (Variant1.init None None None None) (PyStr "hr")).
    reflexivity.
  - apply (transform1_returns_input_on_failure (Reference.engine true)
             (Variant1.init None None None None) (PyFrame Reference.ward)
             ) with (df := Reference.ward); reflexivity.
  - apply (transform1_returns_input_on_failure (Reference.engine true)
             (Variant1.init None None None None) (PyFrame Reference.ward)).
    right. exists Reference.ward. split; reflexivity.
Defined.

(** C10: in variant 2 only the exact string ["raise"] makes a failed check
    raise: under any other value of [error], a misspelling as well as
    ["ignore"], [transform] logs the error of the failed check and returns
    the argument itself. The second check fails when it finds no
    datetime-typed level, as it does on every dataframe with pairwise
    distinct level names and no such level. *)
Theorem transform2_ignores_unless_raise :
  forall env self X,
    Variant2.error self <> "raise" ->
    (as_DataFrame X = None ->
     Variant2.transform env self X = mkRun [LoggerError not_a_frame] (inr X))
    /\ (forall df,
           X = PyFrame df ->
           Variant2.any_level_is_datetime64 df = inr false ->
           Variant2.transform env self X
           = mkRun [LoggerError no_datetime_index] (inr X))
    /\ (forall df,
           X = PyFrame df ->
           NoDup (index_names df) ->
           (forall l, In l (index df) ->
                      is_datetime64_any_dtype (level_data l) = false) ->
           Variant2.transform env self X
           = mkRun [LoggerError no_datetime_index] (inr X)).
Proof.
  intros env self X Herr.
  apply String.eqb_neq in Herr.
  assert (E : forall df,
             X = PyFrame df ->
             Variant2.any_level_is_datetime64 df = inr false ->
             Variant2.transform env self X
             = mkRun [LoggerError no_datetime_index] (inr X)).
  { intros df -> Hix.
    unfold Variant2.transform, Variant2.fail. simpl. rewrite Hix, Herr.
    reflexivity. }
  split; [| split; [exact E |]].
  - intros Hx.
    unfold Variant2.transform, Variant2.fail. rewrite Hx, Herr. reflexivity.
  - intros df Hdf Hnd Hix. apply (E df Hdf).
    now apply no_datetime_level.
Qed.

Lemma transform2_ignores_unless_raise_witness :
  Variant2.transform (Reference.engine true)
    (Variant2.init None None None None (Some "rasie")) PyNone
  = mkRun [LoggerError not_a_frame] (inr PyNone)
  /\ Variant2.transform (Reference.engine true)
       (Variant2.init None None None None (Some "ignore"))
       (PyFrame (mkFrame [mkLevel (Some "stay_id") (Labels [Some 1%Q])]
                         [("hr", [Some 10%Q])]))
     = mkRun [LoggerError no_datetime_index]
             (inr (PyFrame (mkFrame [mkLevel (Some "stay_id")
                                             (Labels [Some 1%Q])]
                                    [("hr", [Some 10%Q])]))).
Proof.
  split.
  - apply (transform2_ignores_unless_raise (Reference.engine true)
             (Variant2.init None None None None (Some "rasie")) PyNone).
    + discriminate.
    + reflexivity.
  - destruct (transform2_ignores_unless_raise (Reference.engine true)
                (Variant2.init None None None None (Some "ignore"))
                (PyFrame (mkFrame [mkLevel (Some "stay_id")
                                           (Labels [Some 1%Q])]
                                  [("hr", [Some 10%Q])])))
      as (_ & H & _); [discriminate |].
    apply (H (mkFrame [mkLevel (Some "stay_id") (Labels [Some 1%Q])]
                      [("hr", [Some 10%Q])])); reflexivity.
Defined.

(** C9: in both variants [fit] does nothing: for every X and y it returns
    the transformer it was called on, with every configuration field as it
    was, logs nothing, calls nothing and never raises. *)
Theorem fit_returns_self :
  (forall (self : Variant1.ResamplerTransformer) X y,
      Variant1.fit self X y = mkRun [] (inr self))
  /\ (forall (self : Variant2.ResamplerTransformer) X y,
         Variant2.fit self X y = mkRun [] (inr self)).
Proof.
  split; intros; reflexivity.
Qed.

(** C7, as the code has it: the two variants test the index differently.
    Variant 1 goes on to [groupby] exactly when the index is a single
    datetime-typed level, and takes its failure path otherwise. Variant 2,
    on a dataframe whose index level names are pairwise distinct, goes on
    to [reset_index] as soon as one level of the index is datetime-typed,
    and takes its failure path otherwise. A failure path is one logged
    error and no engine call. *)
Theorem index_precondition :
  forall env (self1 : Variant1.ResamplerTransformer)
         (self2 : Variant2.ResamplerTransformer) df,
    ((exists l, index df = [l] /\
                is_datetime64_any_dtype (level_data l) = true) ->
     Variant1.transform env self1 (PyFrame df)
     = (r <- Variant1.resampled env self1 df ;;
        fill_default (Variant1.default_value self1) r)
     /\ hd_error (trace (Variant1.transform env self1 (PyFrame df)))
        = Some (PandasCall "groupby"))
    /\ (~ (exists l, index df = [l] /\
                     is_datetime64_any_dtype (level_data l) = true) ->
        Variant1.transform env self1 (PyFrame df)
        = mkRun [LoggerError no_datetime_index] (inr (PyFrame df)))
    /\ (NoDup (index_names df) ->
        (exists l, In l (index df) /\
                   is_datetime64_any_dtype (level_data l) = true) ->
        Variant2.transform env self2 (PyFrame df)
        = (r <- Variant2.coerced env self2 df ;;
           fill_default (Variant2.default_value self2) r)
        /\ hd_error (trace (Variant2.transform env self2 (PyFrame df)))
           = Some (PandasCall "reset_index"))
    /\ (NoDup (index_names df) ->
        ~ (exists l, In l (index df) /\
                     is_datetime64_any_dtype (level_data l) = true) ->
        Variant2.transform env self2 (PyFrame df)
        = (logger_error no_datetime_index ;;;
           Variant2.fail self2 "X does not have a datetime index" (PyFrame df))
        /\ trace (Variant2.transform env self2 (PyFrame df))
           = [LoggerError no_datetime_index]).
Proof.
  intros env self1 self2 df. split; [| split; [| split]].
  - intros (l & Hix & Hdt).
    assert (E : Variant1.transform env self1 (PyFrame df)
                = (r <- Variant1.resampled env self1 df ;;
                   fill_default (Variant1.default_value self1) r)).
    { unfold Variant1.transform. simpl. rewrite Hix. simpl. now rewrite Hdt. }
    split; [exact E |]. rewrite E.
    apply trace_bind_hd. unfold Variant1.resampled. apply trace_call_bind.
  - intros Hno. unfold Variant1.transform. simpl.
    destruct (index_is_datetime64 (index df)) eqn:E; [| reflexivity].
    exfalso. apply Hno. now apply index_is_datetime64_single.
  - intros Hnd (l & Hin & Hdt).
    assert (E : Variant2.transform env self2 (PyFrame df)
                = (r <- Variant2.coerced env self2 df ;;
                   fill_default (Variant2.default_value self2) r)).
    { unfold Variant2.transform. simpl.
      now rewrite (some_datetime_level df l Hnd Hin Hdt). }
    split; [exact E |]. rewrite E.
    apply trace_bind_hd. unfold Variant2.coerced. apply trace_bind_hd.
    unfold Variant2.resampled. apply trace_bind_hd.
    unfold Variant2.aggregated. apply trace_call_bind.
  - intros Hnd Hno. unfold Variant2.transform. simpl.
    rewrite (no_datetime_level df Hnd).
    + simpl. split; [reflexivity |]. unfold Variant2.fail.
      destruct (String.eqb (Variant2.error self2) "raise"); reflexivity.
    + intros l Hin.
      destruct (is_datetime64_any_dtype (level_data l)) eqn:E; [| reflexivity].
      exfalso. apply Hno. now exists l.
Qed.

(** The two-level frame [ward] separates the variants: variant 1 takes its
    failure path on it, variant 2 resamples it. *)
Lemma index_precondition_witness :
  Variant1.transform (Reference.engine true)
    (Variant1.init None None None None) (PyFrame Reference.ward)
  = mkRun [LoggerError no_datetime_index] (inr (PyFrame Reference.ward))
  /\ hd_error (trace (Variant2.transform (Reference.engine true)
                        (Variant2.init None None None None None)
                        (PyFrame Reference.ward)))
     = Some (PandasCall "reset_index")
  /\ hd_error (trace (Variant1.transform (Reference.engine true)
                        (Variant1.init None None None None)
                        (PyFrame Reference.ward_flat)))
     = Some (PandasCall "groupby")
  /\ trace (Variant2.transform (Reference.engine true)
              (Variant2.init None None None None None)
              (PyFrame (mkFrame [mkLevel None (Labels [])] [])))
     = [LoggerError no_datetime_index].
Proof.
  pose proof (index_precondition (Reference.engine true)
                (Variant1.init None None None None)
                (Variant2.init None None None None None)
                Reference.ward) as (_ & F1 & P2 & _).
  pose proof (index_precondition (Reference.engine true)
                (Variant1.init None None None None)
                (Variant2.init None None None None None)
                Reference.ward_flat) as (P1 & _).
  pose proof (index_precondition (Reference.engine true)
                (Variant1.init None None None None)
                (Variant2.init None None None None None)
                (mkFrame [mkLevel None (Labels [])] [])) as (_ & _ & _ & F2).
  split; [| split; [| split]].
  - apply F1. intros (l & Hix & _). discriminate Hix.
  - apply P2.
    + repeat constructor; simpl; intuition discriminate.
    + exists (mkLevel (Some "charttime") (Datetimes [0; 12600; 2700])).
      split; [simpl; auto | reflexivity].
  - apply P1.
    exists (mkLevel (Some "charttime") (Datetimes [0; 12600; 2700])).
    split; reflexivity.
  - apply F2.
    + prove_distinct.
    + intros (l & [<- | []] & Hdt). discriminate Hdt.
Defined.

(** C7 as stated fails on [unnamed_times]: one of its two levels is
    datetime-typed, yet variant 2 neither goes on to [reset_index] nor
    takes its failure path. The check itself raises, on the name that
    occurs twice, before anything is logged or called. *)
Lemma repeated_level_name_stops_variant2 :
  (exists l, In l (index Reference.unnamed_times)
             /\ is_datetime64_any_dtype (level_data l) = true)
  /\ Variant2.transform (Reference.engine true)
       (Variant2.init None None None None None)
       (PyFrame Reference.unnamed_times)
     = mkRun []
         (inl (ValueError
                 "The name None occurs multiple times, use a level number"))
  /\ hd_error (trace (Variant2.transform (Reference.engine true)
                        (Variant2.init None None None None None)
                        (PyFrame Reference.unnamed_times)))
     <> Some (PandasCall "reset_index")
  /\ trace (Variant2.transform (Reference.engine true)
              (Variant2.init None None None None None)
              (PyFrame Reference.unnamed_times))
     <> [LoggerError no_datetime_index].
Proof.
  split; [| split; [reflexivity | split; discriminate]].
  exists (mkLevel None (Datetimes [0; 3600])).
  split; [simpl; auto | reflexivity].
Qed.

(** ** Columns and cells *)

Lemma getitem_In (cols : list (string * list Cell)) (n : string) :
  In n (map fst cols) -> exists vs, getitem cols n = Some vs.
Proof.
  induction cols as [|[m xs] cols IH]; simpl; [contradiction |].
  intros [-> | Hin].
  - rewrite String.eqb_refl. now exists xs.
  - destruct (String.eqb m n); [now exists xs | now apply IH].
Qed.

Lemma getitem_None (cols : list (string * list Cell)) (n : string) :
  ~ In n (map fst cols) -> getitem cols n = None.
Proof.
  induction cols as [|[m xs] cols IH]; simpl; [reflexivity |].
  intros H. destruct (String.eqb m n) eqn:E.
  - apply String.eqb_eq in E. exfalso. apply H. now left.
  - apply IH. intros Hin. apply H. now right.
Qed.

Lemma getitem_Some_In (cols : list (string * list Cell)) n vs :
  getitem cols n = Some vs -> In (n, vs) cols.
Proof.
  induction cols as [|[m xs] cols IH]; simpl; [discriminate |].
  destruct (String.eqb m n) eqn:E.
  - intros H. inversion H. apply String.eqb_eq in E. subst. now left.
  - intros H. right. now apply IH.
Qed.

Lemma getitem_NoDup (cols : list (string * list Cell)) n vs :
  NoDup (map fst cols) -> In (n, vs) cols -> getitem cols n = Some vs.
Proof.
  induction cols as [|[m xs] cols IH]; simpl; [contradiction |].
  intros Hnd [Heq | Hin].
  - inversion Heq. now rewrite String.eqb_refl.
  - inversion Hnd as [|? ? Hm Hrest]; subst.
    destruct (String.eqb m n) eqn:E.
    + apply String.eqb_eq in E. subst. exfalso. apply Hm.
      change n with (fst (n, vs)). now apply in_map.
    + now apply IH.
Qed.

Lemma getitem_map (f : list Cell -> list Cell) cols n :
  getitem (map (fun c => (fst c, f (snd c))) cols) n
  = option_map f (getitem cols n).
Proof.
  induction cols as [|[m xs] cols IH]; simpl; [reflexivity |].
  destruct (String.eqb m n); [reflexivity | exact IH].
Qed.

Lemma getitem_filter cols key n :
  n <> key ->
  getitem (filter (fun c => negb (String.eqb (fst c) key)) cols) n
  = getitem cols n.
Proof.
  intros Hn. induction cols as [|[m xs] cols IH]; simpl; [reflexivity |].
  destruct (String.eqb m key) eqn:E; simpl.
  - apply String.eqb_eq in E. subst m.
    assert (String.eqb key n = false) as ->; [| exact IH].
    apply String.eqb_neq. congruence.
  - destruct (String.eqb m n); [reflexivity | exact IH].
Qed.

Lemma has_column_In (df : DataFrame) (n : string) :
  has_column df n = true <-> In n (column_names df).
Proof.
  unfold has_column. rewrite existsb_exists. split.
  - intros (x & Hin & E). apply String.eqb_eq in E. now subst.
  - intros H. exists n. split; [exact H | apply String.eqb_refl].
Qed.

Lemma map_fst_filter (cols : list (string * list Cell)) (key : string) :
  map fst (filter (fun c => negb (String.eqb (fst c) key)) cols)
  = filter (fun n => negb (String.eqb n key)) (map fst cols).
Proof.
  induction cols as [|[m xs] cols IH]; simpl; [reflexivity |].
  destruct (String.eqb m key); simpl; now rewrite IH.
Qed.

Lemma cell_fillna (df : DataFrame) (v : Cell) c i :
  cell (fillna df v) c i = option_map (fill v) (cell df c i).
Proof.
  unfold cell, fillna. simpl. rewrite getitem_map.
  destruct (getitem (columns df) c) as [vs|]; simpl; [| reflexivity].
  apply nth_error_map.
Qed.

Lemma cell_sweep (df : DataFrame) c i :
  cell (sweep df) c i = option_map zero_cell (cell df c i).
Proof.
  unfold cell, sweep. simpl. rewrite getitem_map.
  destruct (getitem (columns df) c) as [vs|]; simpl; [| reflexivity].
  apply nth_error_map.
Qed.

Lemma cell_drop (df : DataFrame) key c i :
  c <> key -> cell (drop df key) c i = cell df c i.
Proof.
  intros H. unfold cell, drop. simpl. now rewrite getitem_filter.
Qed.

Lemma column_names_drop (df : DataFrame) key :
  column_names (drop df key)
  = filter (fun n => negb (String.eqb n key)) (column_names df).
Proof. apply map_fst_filter. Qed.

Lemma column_names_sweep (df : DataFrame) :
  column_names (sweep df) = column_names df.
Proof.
  unfold column_names, sweep. simpl. rewrite map_map. reflexivity.
Qed.

Lemma column_names_fillna (df : DataFrame) v :
  column_names (fillna df v) = column_names df.
Proof.
  unfold column_names, fillna. simpl. rewrite map_map. reflexivity.
Qed.

Lemma fillna_filled (df : DataFrame) (v : Q) :
  filled v df (fillna df (Some v)).
Proof.
  constructor.
  - reflexivity.
  - apply column_names_fillna.
  - intros c i x. rewrite cell_fillna.
    destruct (cell df c i) as [[q|]|]; simpl; intros H; inversion H;
      discriminate.
  - intros c i H. rewrite cell_fillna, H. reflexivity.
  - intros c i q H. rewrite cell_fillna, H. reflexivity.
Qed.

(** ** The loop of variant 2 *)

Lemma mask_assign_zero (vs : list Cell) :
  mask_assign (map is_zero vs) NA vs = map zero_cell vs.
Proof.
  induction vs as [|x vs IH]; simpl; [reflexivity |].
  rewrite IH. reflexivity.
Qed.

Lemma zero_cell_idempotent (c : Cell) : zero_cell (zero_cell c) = zero_cell c.
Proof.
  unfold zero_cell. destruct (is_zero c) eqn:E; [reflexivity |].
  now rewrite E.
Qed.

Lemma loc_setitem_zero (df : DataFrame) (c : string) :
  NoDup (column_names df) ->
  loc_setitem df (eq_zero_mask df c) c NA = sweep_labels [c] df.
Proof.
  intros Hnd. unfold loc_setitem, sweep_labels. f_equal.
  apply map_ext_in. intros [n xs] Hin. simpl.
  rewrite orb_false_r. destruct (String.eqb n c) eqn:E; [| reflexivity].
  apply String.eqb_eq in E. subst n.
  unfold eq_zero_mask. rewrite (getitem_NoDup _ _ _ Hnd Hin).
  now rewrite mask_assign_zero.
Qed.

Lemma sweep_labels_cons (c : string) (ls : list string) (df : DataFrame) :
  sweep_labels ls (sweep_labels [c] df) = sweep_labels (c :: ls) df.
Proof.
  unfold sweep_labels. simpl. f_equal. rewrite map_map.
  apply map_ext. intros [n xs]. simpl. rewrite orb_false_r.
  destruct (String.eqb n c); simpl; [| reflexivity].
  destruct (existsb (String.eqb n) ls); [| reflexivity].
  f_equal. rewrite map_map. apply map_ext. apply zero_cell_idempotent.
Qed.

Lemma column_names_sweep_labels ls df :
  column_names (sweep_labels ls df) = column_names df.
Proof.
  unfold column_names, sweep_labels. simpl. rewrite map_map.
  apply map_ext. intros [n xs]. simpl.
  destruct (existsb (String.eqb n) ls); reflexivity.
Qed.

Lemma zero_to_na_labels (ls : list string) :
  forall df, NoDup (column_names df) ->
    outcome (Variant2.zero_to_na df ls) = inr (sweep_labels ls df).
Proof.
  induction ls as [|c ls IH]; intros df Hnd.
  - simpl. unfold sweep_labels. destruct df as [ix cols]. simpl.
    do 2 f_equal. rewrite <- (map_id cols) at 1. apply map_ext.
    intros [n xs]. reflexivity.
  - cbn [Variant2.zero_to_na].
    rewrite (outcome_bind_inr _ _ _ (outcome_call _ _)).
    rewrite (loc_setitem_zero df c Hnd). rewrite IH.
    + now rewrite sweep_labels_cons.
    + now rewrite column_names_sweep_labels.
Qed.

Lemma zero_to_na_sweep (df : DataFrame) :
  NoDup (column_names df) ->
  outcome (Variant2.zero_to_na df (column_names df)) = inr (sweep df).
Proof.
  intros Hnd. rewrite (zero_to_na_labels _ df Hnd). f_equal.
  unfold sweep_labels, sweep. f_equal. apply map_ext_in.
  intros [n xs] Hin. simpl.
  assert (existsb (String.eqb n) (column_names df) = true) as ->;
    [| reflexivity].
  apply existsb_exists. exists n. split; [| apply String.eqb_refl].
  unfold column_names. change n with (fst (n, xs)). now apply in_map.
Qed.

(** ** The resampling chain succeeds on valid inputs *)

Lemma resolve_agg_ok env a :
  agg_known env a -> exists f, resolve_agg env a = inr f.
Proof.
  destruct a as [n | f]; simpl.
  - destruct (named_agg env n) as [f|]; [now exists f | congruence].
  - now exists f.
Qed.

Lemma plan_dict_ok env cols d :
  Forall (fun ca => In (fst ca) (map fst cols) /\ agg_known env (snd ca)) d ->
  exists p, plan_dict env cols d = inr p
            /\ map (fun c => fst (fst c)) p = map fst d.
Proof.
  induction d as [|[c a] d IH]; intros H.
  - exists []. split; reflexivity.
  - inversion H as [|? ? [Hc Ha] Hrest]; subst. simpl in Hc, Ha.
    destruct (getitem_In cols c Hc) as (vs & Hvs).
    destruct (resolve_agg_ok env a Ha) as (f & Hf).
    destruct (IH Hrest) as (p & Hp & Hnames).
    exists ((c, vs, f) :: p). simpl. rewrite Hvs, Hf, Hp.
    split; [reflexivity |]. simpl. now rewrite Hnames.
Qed.

Lemma plan_ok env cols m :
  NoDup (map fst cols) -> method_ok env (map fst cols) m ->
  exists p, plan env cols m = inr p
            /\ NoDup (map (fun c => fst (fst c)) p).
Proof.
  intros Hnd. destruct m as [a | d]; simpl.
  - intros Ha. destruct (resolve_agg_ok env a Ha) as (f & Hf).
    rewrite Hf. eexists. split; [reflexivity |].
    rewrite map_map. exact Hnd.
  - intros [Hd Hall]. destruct (plan_dict_ok env cols d Hall) as (p & Hp & Hn).
    exists p. split; [exact Hp | now rewrite Hn].
Qed.

Lemma value_columns_names env gb :
  gb_key_is_column gb = true ->
  map fst (value_columns env gb)
  = reduced_names env (gb_key gb) (column_names (gb_frame gb)).
Proof.
  intros H. unfold value_columns, reduced_names. rewrite H.
  destruct (include_groups env); simpl; [reflexivity |].
  apply map_fst_filter.
Qed.

Lemma reduced_names_NoDup env key names :
  NoDup names -> NoDup (reduced_names env key names).
Proof.
  intros H. unfold reduced_names.
  destruct (include_groups env); [exact H | now apply NoDup_filter].
Qed.

Lemma agg_ok env rs m :
  gb_key_is_column (rs_groupby rs) = true ->
  NoDup (column_names (gb_frame (rs_groupby rs))) ->
  method_ok env
    (reduced_names env (gb_key (rs_groupby rs))
       (column_names (gb_frame (rs_groupby rs)))) m ->
  exists p, agg env rs m = inr (agg_frame rs p)
            /\ NoDup (column_names (agg_frame rs p)).
Proof.
  intros Hcol Hnd Hm. unfold agg.
  rewrite <- (value_columns_names env _ Hcol) in Hm.
  destruct (plan_ok env (value_columns env (rs_groupby rs)) m)
    as (p & Hp & Hn); [| exact Hm |].
  - rewrite (value_columns_names env _ Hcol).
    now apply reduced_names_NoDup.
  - exists p. rewrite Hp. split; [reflexivity |].
    unfold column_names, agg_frame. simpl. rewrite map_map. exact Hn.
Qed.

Lemma level_cells_length (l : Level) :
  List.length (level_cells (level_data l)) = level_length l.
Proof.
  unfold level_length. destruct (level_data l); simpl; [| reflexivity].
  apply length_map.
Qed.

Lemma remove_level_In ix key l : In l (remove_level ix key) -> In l ix.
Proof.
  induction ix as [|x ix IH]; simpl; [contradiction |].
  destruct (name_eqb (level_name x) (Some key)).
  - intros H. now right.
  - intros [-> | H]; [now left | right; now apply IH].
Qed.

Lemma remove_level_name ix key l :
  NoDup (map level_name ix) -> In l (remove_level ix key) ->
  level_name l <> Some key.
Proof.
  induction ix as [|x ix IH]; simpl; [contradiction |].
  intros Hnd. inversion Hnd as [|? ? Hx Hrest]; subst.
  destruct (name_eqb (level_name x) (Some key)) eqn:E.
  - apply name_eqb_eq in E. intros Hin Hl. apply Hx.
    rewrite E, <- Hl. now apply in_map.
  - intros [<- | Hin].
    + intros Hl. rewrite Hl, name_eqb_refl in E. discriminate.
    + now apply IH.
Qed.

(** The resampler variant 1 builds on a valid input, and its table. *)
Lemma resampled1_ok env self df :
  valid_input1 env self df ->
  exists vs l ts w p,
    getitem (columns df) (Variant1.groupby self) = Some vs
    /\ index df = [l]
    /\ List.length vs = List.length ts
    /\ to_offset env (Variant1.frequency self) = Some w
    /\ outcome (Variant1.resampled env self df)
       = inr (agg_frame
                (mkResampler (mkGroupBy df (Variant1.groupby self) vs true)
                             (Z.pos w) (level_name l) ts) p)
    /\ NoDup (column_names
                (agg_frame
                   (mkResampler (mkGroupBy df (Variant1.groupby self) vs true)
                                (Z.pos w) (level_name l) ts) p)).
Proof.
  intros [Hwf Hix Hkc Hkl Hfreq Hm].
  apply has_column_In in Hkc.
  destruct (getitem_In _ _ Hkc) as (vs & Hvs).
  apply index_is_datetime64_single in Hix. destruct Hix as (l & Hl & Hdt).
  destruct (level_data l) as [ts | ks] eqn:Hdata; [| discriminate].
  destruct (to_offset env (Variant1.frequency self)) as [w|] eqn:Hw;
    [| congruence].
  pose (gb := mkGroupBy df (Variant1.groupby self) vs true).
  pose (rs := mkResampler gb (Z.pos w) (level_name l) ts).
  destruct (agg_ok env rs (Variant1.method self)) as (p & Hp & Hn);
    [reflexivity | apply (wf_column_names df Hwf) | exact Hm |].
  exists vs, l, ts, w, p. repeat split; try assumption.
  - pose proof (wf_columns df Hwf) as Hc. rewrite Forall_forall in Hc.
    specialize (Hc _ (getitem_Some_In _ _ _ Hvs)). simpl in Hc.
    rewrite Hc. unfold nrows. rewrite Hl. unfold level_length.
    now rewrite Hdata.
  - unfold Variant1.resampled.
    assert (Hgb : Pandas.groupby df (Variant1.groupby self) = inr gb).
    { unfold Pandas.groupby. rewrite Hvs.
      now rewrite (is_level_reference_false _ _ Hkl). }
    assert (Hrs : resample env gb (Variant1.frequency self) = inr rs).
    { unfold resample. rewrite Hw. simpl. rewrite Hl, Hdata. reflexivity. }
    rewrite (outcome_bind_inr _ _ gb) by (rewrite outcome_call; exact Hgb).
    rewrite (outcome_bind_inr _ _ rs) by (rewrite outcome_call; exact Hrs).
    rewrite outcome_call. exact Hp.
Qed.

(** The resampler variant 2 builds on a valid input, and its table. *)
Lemma aggregated2_ok env self df :
  valid_input2 env self df ->
  exists d l ts w p,
    get_level_values (index df) (Some (Variant2.groupby self)) = inr d
    /\ List.length (level_cells d) = List.length ts
    /\ to_offset env (Variant2.frequency self) = Some w
    /\ outcome (Variant2.aggregated env self df)
       = inr (agg_frame
                (mkResampler
                   (mkGroupBy
                      (mkFrame [l] ((Variant2.groupby self, level_cells d)
                                      :: columns df))
                      (Variant2.groupby self) (level_cells d) true)
                   (Z.pos w) (level_name l) ts) p)
    /\ NoDup (column_names
                (agg_frame
                   (mkResampler
                      (mkGroupBy
                         (mkFrame [l] ((Variant2.groupby self, level_cells d)
                                         :: columns df))
                         (Variant2.groupby self) (level_cells d) true)
                      (Z.pos w) (level_name l) ts) p))
    /\ level_name l <> Some (Variant2.groupby self).
Proof.
  intros [Hwf Hkl Hkc (l & Hrem & Hdt) Hfreq Hm].
  set (key := Variant2.groupby self) in *.
  unfold index_names in Hkl. apply in_map_iff in Hkl.
  destruct Hkl as (lk & Hname & Hlk).
  pose proof (get_level_values_NoDup _ _ (wf_index_names df Hwf) Hlk) as Hd.
  rewrite Hname in Hd.
  destruct (level_data l) as [ts | ks] eqn:Hdata; [| discriminate].
  destruct (to_offset env (Variant2.frequency self)) as [w|] eqn:Hw;
    [| congruence].
  assert (Hl_in : In l (index df)).
  { apply (remove_level_In _ key). rewrite Hrem. now left. }
  assert (Hl_name : level_name l <> Some key).
  { apply (remove_level_name (index df) key).
    - apply (wf_index_names df Hwf).
    - rewrite Hrem. now left. }
  pose (flat := mkFrame [l] ((key, level_cells (level_data lk)) :: columns df)).
  pose (gb := mkGroupBy flat key (level_cells (level_data lk)) true).
  pose (rs := mkResampler gb (Z.pos w) (level_name l) ts).
  assert (Hnd : NoDup (column_names flat)).
  { unfold column_names, flat. simpl. constructor.
    - intros Hin. apply has_column_In in Hin. congruence.
    - apply (wf_column_names df Hwf). }
  destruct (agg_ok env rs (Variant2.method self)) as (p & Hp & Hn);
    [reflexivity | exact Hnd | exact Hm |].
  exists (level_data lk), l, ts, w, p.
  split; [exact Hd |]. split; [| split; [reflexivity |]].
  2: split; [| split; [exact Hn | exact Hl_name]].
  - rewrite level_cells_length.
    pose proof (wf_levels df Hwf) as Hlv. rewrite Forall_forall in Hlv.
    rewrite (Hlv _ Hlk), <- (Hlv _ Hl_in). unfold level_length.
    now rewrite Hdata.
  - unfold Variant2.aggregated. fold key.
    assert (Hflat : reset_index df key = inr flat).
    { unfold reset_index. rewrite Hd, Hkc, Hrem. reflexivity. }
    assert (Hgb : Pandas.groupby flat key = inr gb).
    { unfold Pandas.groupby, flat. simpl. rewrite String.eqb_refl.
      unfold is_level_reference. simpl.
      destruct (name_eqb (level_name l) (Some key)) eqn:E; [| reflexivity].
      apply name_eqb_eq in E. contradiction. }
    assert (Hrs : resample env gb (Variant2.frequency self) = inr rs).
    { unfold resample. rewrite Hw. simpl. rewrite Hdata. reflexivity. }
    rewrite (outcome_bind_inr _ _ flat) by (rewrite outcome_call; exact Hflat).
    rewrite (outcome_bind_inr _ _ gb) by (rewrite outcome_call; exact Hgb).
    rewrite (outcome_bind_inr _ _ rs) by (rewrite outcome_call; exact Hrs).
    rewrite outcome_call. exact Hp.
Qed.

(** ** What [transform] returns on valid inputs *)

Lemma fill_default_outcome d base :
  outcome (fill_default d base) = inr (PyFrame (apply_default d base)).
Proof. destruct d; reflexivity. Qed.

Lemma transform1_outcome env self df base :
  index_is_datetime64 (index df) = true ->
  outcome (Variant1.resampled env self df) = inr base ->
  outcome (Variant1.transform env self (PyFrame df))
  = inr (PyFrame (apply_default (Variant1.default_value self) base)).
Proof.
  intros Hix Hbase. unfold Variant1.transform. simpl. rewrite Hix. simpl.
  rewrite (outcome_bind_inr _ _ base Hbase). apply fill_default_outcome.
Qed.

Lemma valid_input2_passes env self df :
  valid_input2 env self df -> Variant2.any_level_is_datetime64 df = inr true.
Proof.
  intros [Hwf _ _ (l & Hrem & Hdt) _ _].
  apply (some_datetime_level df l).
  - apply (wf_index_names df Hwf).
  - apply (remove_level_In _ (Variant2.groupby self)). rewrite Hrem. now left.
  - exact Hdt.
Qed.

Lemma transform2_outcome env self df base :
  Variant2.any_level_is_datetime64 df = inr true ->
  outcome (Variant2.coerced env self df) = inr base ->
  outcome (Variant2.transform env self (PyFrame df))
  = inr (PyFrame (apply_default (Variant2.default_value self) base)).
Proof.
  intros Hix Hbase. unfold Variant2.transform. simpl. rewrite Hix. simpl.
  rewrite (outcome_bind_inr _ _ base Hbase). apply fill_default_outcome.
Qed.

Lemma drop_NoDup (df : DataFrame) key :
  NoDup (column_names df) -> NoDup (column_names (drop df key)).
Proof.
  intros H. rewrite column_names_drop. now apply NoDup_filter.
Qed.

Lemma coerced2_outcome env self df a :
  outcome (Variant2.aggregated env self df) = inr a ->
  NoDup (column_names a) ->
  outcome (Variant2.coerced env self df)
  = inr (sweep (drop a (Variant2.groupby self))).
Proof.
  intros Ha Hnd. unfold Variant2.coerced.
  assert (Hr : outcome (Variant2.resampled env self df)
               = inr (drop a (Variant2.groupby self))).
  { unfold Variant2.resampled. now rewrite (outcome_bind_inr _ _ a Ha). }
  rewrite (outcome_bind_inr _ _ _ Hr).
  apply zero_to_na_sweep. now apply drop_NoDup.
Qed.

Lemma not_in_dropped (df : DataFrame) key :
  ~ In key (column_names (drop df key)).
Proof.
  rewrite column_names_drop. intros H. apply filter_In in H.
  destruct H as [_ H]. now rewrite String.eqb_refl in H.
Qed.

Lemma transform2_ok env self df :
  valid_input2 env self df ->
  exists a,
    outcome (Variant2.aggregated env self df) = inr a
    /\ outcome (Variant2.coerced env self df)
       = inr (sweep (drop a (Variant2.groupby self)))
    /\ outcome (Variant2.transform env self (PyFrame df))
       = inr (PyFrame (apply_default (Variant2.default_value self)
                         (sweep (drop a (Variant2.groupby self))))).
Proof.
  intros Hv.
  destruct (aggregated2_ok env _ df Hv)
    as (d & l & ts & w & p & _ & _ & _ & Ha & Hnd & _).
  pose proof (coerced2_outcome env _ df _ Ha Hnd) as Hbase.
  eexists. split; [exact Ha |]. split; [exact Hbase |].
  apply transform2_outcome;
    [apply (valid_input2_passes env _ df Hv) | exact Hbase].
Qed.

Lemma transform1_ok env self df :
  valid_input1 env self df ->
  exists base,
    outcome (Variant1.resampled env self df) = inr base
    /\ outcome (Variant1.transform env self (PyFrame df))
       = inr (PyFrame (apply_default (Variant1.default_value self) base)).
Proof.
  intros Hv.
  destruct (resampled1_ok env _ df Hv)
    as (vs & l & ts & w & p & _ & _ & _ & _ & Hbase & _).
  eexists. split; [exact Hbase |].
  apply transform1_outcome; [apply (v1_index _ _ _ Hv) | exact Hbase].
Qed.

(** ** The default value *)


(** The sample frames are valid inputs. *)
Lemma ward_flat_well_formed : well_formed Reference.ward_flat.
Proof.
  constructor; simpl.
  - discriminate.
  - repeat constructor.
  - repeat constructor.
  - prove_distinct.
  - prove_distinct.
Qed.

Lemma ward_well_formed : well_formed Reference.ward.
Proof.
  constructor; simpl.
  - discriminate.
  - repeat constructor.
  - repeat constructor.
  - prove_distinct.
  - prove_distinct.
Qed.

Lemma ward_flat_valid (incl : bool) (self : Variant1.ResamplerTransformer) :
  Variant1.frequency self = "1H" ->
  Variant1.groupby self = "stay_id" ->
  Variant1.method self = OneAgg (AggName "mean") ->
  valid_input1 (Reference.engine incl) self Reference.ward_flat.
Proof.
  intros Hf Hg Hm. constructor; rewrite ?Hf, ?Hg, ?Hm.
  - apply ward_flat_well_formed.
  - reflexivity.
  - reflexivity.
  - simpl. intuition discriminate.
  - simpl. discriminate.
  - simpl. discriminate.
Qed.

Lemma ward_valid (incl : bool) (self : Variant2.ResamplerTransformer) :
  Variant2.frequency self = "1H" ->
  Variant2.groupby self = "stay_id" ->
  Variant2.method self = OneAgg (AggName "mean") ->
  valid_input2 (Reference.engine incl) self Reference.ward.
Proof.
  intros Hf Hg Hm. constructor; rewrite ?Hf, ?Hg, ?Hm.
  - apply ward_well_formed.
  - simpl. auto.
  - reflexivity.
  - eexists. split; reflexivity.
  - simpl. discriminate.
  - simpl. discriminate.
Qed.



(** C2, as the code has it: variant 2 constructed without a default value
    leaves every missing cell missing, the zeros it made missing included,
    and so does variant 1 whenever its [default_value] field is null when
    [transform] runs. The constructor of variant 1, however, stores 0.0 for
    a default value left unset, so a variant 1 transformer constructed that
    way fills every missing cell with 0.0. *)
Theorem missing_stays_missing_without_default :
  forall env,
    (forall f g m e df,
        valid_input2 env (Variant2.init f g m None e) df ->
        exists a out,
          outcome (Variant2.aggregated env (Variant2.init f g m None e) df)
          = inr a
          /\ outcome (Variant2.transform env (Variant2.init f g m None e)
                        (PyFrame df))
             = inr (PyFrame out)
          /\ forall c i x,
               c <> Variant2.groupby (Variant2.init f g m None e) ->
               cell a c i = Some x ->
               x = NA \/ is_zero x = true ->
               cell out c i = Some NA)
    /\ (forall self df,
           Variant1.default_value self = None ->
           valid_input1 env self df ->
           exists base,
             outcome (Variant1.resampled env self df) = inr base
             /\ outcome (Variant1.transform env self (PyFrame df))
                = inr (PyFrame base))
    /\ (forall f m g df,
           valid_input1 env (Variant1.init f m g None) df ->
           Variant1.default_value (Variant1.init f m g None) = Some (Some 0%Q)
           /\ exists base out,
               outcome (Variant1.resampled env (Variant1.init f m g None) df)
               = inr base
               /\ outcome (Variant1.transform env (Variant1.init f m g None)
                             (PyFrame df))
                  = inr (PyFrame out)
               /\ filled 0%Q base out).
Proof.
  intros env. split; [| split].
  - intros f g m e df Hv.
    destruct (transform2_ok env _ df Hv) as (a & Ha & _ & Hout).
    exists a, (sweep (drop a (Variant2.groupby (Variant2.init f g m None e)))).
    split; [exact Ha |]. split; [exact Hout |].
    intros c i x Hc Hcell Hx.
    rewrite cell_sweep, (cell_drop _ _ _ _ Hc), Hcell. simpl.
    unfold zero_cell. destruct Hx as [-> | ->]; reflexivity.
  - intros self df Hd Hv.
    destruct (transform1_ok env _ df Hv) as (base & Hbase & Hout).
    exists base. split; [exact Hbase |]. rewrite Hout, Hd. reflexivity.
  - intros f m g df Hv. split; [reflexivity |].
    destruct (transform1_ok env _ df Hv) as (base & Hbase & Hout).
    exists base, (fillna base (Some 0%Q)).
    split; [exact Hbase |]. split; [exact Hout | apply fillna_filled].
Qed.

Lemma missing_stays_missing_without_default_witness :
  (exists a out,
      outcome (Variant2.aggregated (Reference.engine true)
                 (Variant2.init None None None None None) Reference.ward)
      = inr a
      /\ outcome (Variant2.transform (Reference.engine true)
                    (Variant2.init None None None None None)
                    (PyFrame Reference.ward))
         = inr (PyFrame out)
      /\ forall c i x,
           c <> "stay_id" ->
           cell a c i = Some x ->
           x = NA \/ is_zero x = true ->
           cell out c i = Some NA)
  /\ (exists base,
         outcome (Variant1.resampled (Reference.engine true)
                    (Variant1.mkTransformer "1H" (OneAgg (AggName "mean"))
                       "stay_id" None)
                    Reference.ward_flat)
         = inr base
         /\ outcome (Variant1.transform (Reference.engine true)
                       (Variant1.mkTransformer "1H" (OneAgg (AggName "mean"))
                          "stay_id" None)
                       (PyFrame Reference.ward_flat))
            = inr (PyFrame base))
  /\ Variant1.default_value (Variant1.init None None None None)
     = Some (Some 0%Q).
Proof.
  destruct (missing_stays_missing_without_default (Reference.engine true))
    as (H2 & H1 & H0).
  split; [| split].
  - apply (H2 None None None None Reference.ward).
    apply ward_valid; reflexivity.
  - apply H1; [reflexivity | apply ward_flat_valid; reflexivity].
  - apply (H0 None None None Reference.ward_flat).
    apply ward_flat_valid; reflexivity.
Defined.

(** C2 as stated fails for variant 1: constructed with every argument left
    out, it resamples [ward_flat], whose stay 1 has no observation between
    01:00 and 02:00, and returns 0 in that bucket of column [hr], a cell
    that was missing before the fill. *)
Lemma unset_default_is_zero_in_variant1 :
  valid_input1 (Reference.engine true) (Variant1.init None None None None)
    Reference.ward_flat
  /\ exists base out,
      outcome (Variant1.resampled (Reference.engine true)
                 (Variant1.init None None None None) Reference.ward_flat)
      = inr base
      /\ outcome (Variant1.transform (Reference.engine true)
                    (Variant1.init None None None None)
                    (PyFrame Reference.ward_flat))
         = inr (PyFrame out)
      /\ cell base "hr" 1 = Some NA
      /\ cell out "hr" 1 = Some (Some 0%Q)
      /\ cell out "hr" 1 <> Some NA.
Proof.
  split; [apply ward_flat_valid; reflexivity |].
  eexists. eexists. split; [vm_compute; reflexivity |].
  split; [vm_compute; reflexivity |].
  split; [reflexivity |]. split; [reflexivity | discriminate].
Qed.

(** ** Zeros in variant 2 *)

Lemma is_zero_Some (q : Q) : is_zero (Some q) = true <-> (q == 0)%Q.
Proof. apply Qeq_bool_iff. Qed.

Lemma zero_cell_zero (q : Q) : (q == 0)%Q -> zero_cell (Some q) = NA.
Proof.
  intros H. unfold zero_cell. apply is_zero_Some in H. now rewrite H.
Qed.

Lemma zero_cell_other (x : Cell) :
  (forall q, x = Some q -> ~ (q == 0)%Q) -> zero_cell x = x.
Proof.
  intros H. unfold zero_cell. destruct x as [q|]; [| reflexivity].
  destruct (is_zero (Some q)) eqn:E; [| reflexivity].
  exfalso. apply (H q eq_refl). now apply is_zero_Some.
Qed.

(** C1: on a valid input variant 2 drops the column of the grouping key
    from the aggregated table, if it is there, and replaces every cell that
    aggregated to a number equal to zero by the missing marker, leaving the
    other cells as they are; this happens before the default is applied, so
    with a default value [v] each of those cells holds [v] in the result. *)
Theorem zeros_become_missing_before_default :
  forall env self df,
    valid_input2 env self df ->
    exists a pre out,
      outcome (Variant2.aggregated env self df) = inr a
      /\ outcome (Variant2.coerced env self df) = inr pre
      /\ outcome (Variant2.transform env self (PyFrame df)) = inr (PyFrame out)
      /\ column_names pre
         = filter (fun n => negb (String.eqb n (Variant2.groupby self)))
                  (column_names a)
      /\ column_names out = column_names pre
      /\ ~ In (Variant2.groupby self) (column_names out)
      /\ (forall c i q,
             c <> Variant2.groupby self ->
             cell a c i = Some (Some q) ->
             (q == 0)%Q ->
             cell pre c i = Some NA
             /\ forall v, Variant2.default_value self = Some v ->
                          cell out c i = Some v)
      /\ (forall c i x,
             c <> Variant2.groupby self ->
             cell a c i = Some x ->
             (forall q, x = Some q -> ~ (q == 0)%Q) ->
             cell pre c i = Some x).
Proof.
  intros env self df Hv.
  destruct (transform2_ok env self df Hv) as (a & Ha & Hpre & Hout).
  set (key := Variant2.groupby self) in *.
  exists a, (sweep (drop a key)),
         (apply_default (Variant2.default_value self) (sweep (drop a key))).
  assert (Hnames : column_names (sweep (drop a key))
                   = filter (fun n => negb (String.eqb n key)) (column_names a)).
  { now rewrite column_names_sweep, column_names_drop. }
  assert (Hsame : column_names (apply_default (Variant2.default_value self)
                                  (sweep (drop a key)))
                  = column_names (sweep (drop a key))).
  { destruct (Variant2.default_value self); simpl;
      [apply column_names_fillna | reflexivity]. }
  split; [exact Ha |]. split; [exact Hpre |]. split; [exact Hout |].
  split; [exact Hnames |]. split; [exact Hsame |]. split; [| split].
  - rewrite Hsame, column_names_sweep. apply not_in_dropped.
  - intros c i q Hc Hcell Hz. split.
    + rewrite cell_sweep, (cell_drop _ _ _ _ Hc), Hcell. simpl.
      now rewrite (zero_cell_zero q Hz).
    + intros v Hd. rewrite Hd. simpl.
      rewrite cell_fillna, cell_sweep, (cell_drop _ _ _ _ Hc), Hcell. simpl.
      now rewrite (zero_cell_zero q Hz).
  - intros c i x Hc Hcell Hz.
    rewrite cell_sweep, (cell_drop _ _ _ _ Hc), Hcell. simpl.
    now rewrite (zero_cell_other x Hz).
Qed.

(** On [ward], stay 2's only observation of [hr] is 0: with the default
    value 7 the result holds 7 there, and in the two empty buckets. *)
Lemma zeros_become_missing_before_default_witness :
  exists a pre out,
    outcome (Variant2.aggregated (Reference.engine true)
               (Variant2.init None None None (Some (Some 7%Q)) None)
               Reference.ward)
    = inr a
    /\ outcome (Variant2.coerced (Reference.engine true)
                  (Variant2.init None None None (Some (Some 7%Q)) None)
                  Reference.ward)
       = inr pre
    /\ outcome (Variant2.transform (Reference.engine true)
                  (Variant2.init None None None (Some (Some 7%Q)) None)
                  (PyFrame Reference.ward))
       = inr (PyFrame out)
    /\ column_names pre
       = filter (fun n => negb (String.eqb n "stay_id")) (column_names a)
    /\ column_names out = column_names pre
    /\ ~ In "stay_id" (column_names out)
    /\ (forall c i q,
           c <> "stay_id" ->
           cell a c i = Some (Some q) ->
           (q == 0)%Q ->
           cell pre c i = Some NA
           /\ forall v, Some (Some 7%Q) = Some v -> cell out c i = Some v)
    /\ (forall c i x,
           c <> "stay_id" ->
           cell a c i = Some x ->
           (forall q, x = Some q -> ~ (q == 0)%Q) ->
           cell pre c i = Some x).
Proof.
  apply (zeros_become_missing_before_default (Reference.engine true)
           (Variant2.init None None None (Some (Some 7%Q)) None)
           Reference.ward).
  apply ward_valid; reflexivity.
Defined.

Example ward_resampled_by_variant2 :
  outcome (Variant2.transform (Reference.engine true)
             (Variant2.init None None None (Some (Some 7%Q)) None)
             (PyFrame Reference.ward))
  = inr (PyFrame
           (mkFrame
              [ mkLevel (Some "stay_id")
                        (Labels [Some 1%Q; Some 1%Q; Some 1%Q; Some 1%Q; Some 2%Q]);
                mkLevel (Some "charttime")
                        (Datetimes [0; 3600; 7200; 10800; 0]) ]
              [ ("hr", [Some 10%Q; Some 7%Q; Some 7%Q; Some 20%Q; Some 7%Q]) ])).
Proof. vm_compute. reflexivity. Qed.

(** ** Groups *)

Lemma insert_sorted_In q x l : In x (insert_sorted q l) <-> x = q \/ In x l.
Proof.
  induction l as [|y l IH]; simpl.
  - intuition.
  - destruct (Qle_bool q y); simpl; [intuition |].
    rewrite IH. intuition.
Qed.

Lemma sort_keys_In x l : In x (sort_keys l) <-> In x l.
Proof.
  induction l as [|y l IH]; simpl; [reflexivity |].
  rewrite insert_sorted_In, IH. intuition.
Qed.

Lemma present_In g ks :
  In g (present ks) <-> exists q, In (Some q) ks /\ g = Qred q.
Proof.
  induction ks as [|[q|] ks IH]; simpl.
  - split; [contradiction | intros (q & [] & _)].
  - rewrite IH. split.
    + intros [<- | (q' & Hin & ->)]; [exists q | exists q']; auto.
    + intros (q' & [Heq | Hin] & ->).
      * inversion Heq. now left.
      * right. now exists q'.
  - rewrite IH. split.
    + intros (q & Hin & ->). exists q. auto.
    + intros (q & [Heq | Hin] & ->); [discriminate | now exists q].
Qed.

Lemma group_keys_In g ks :
  In g (group_keys ks) <-> exists q, In (Some q) ks /\ g = Qred q.
Proof.
  unfold group_keys. rewrite sort_keys_In, nodup_In. apply present_In.
Qed.

Lemma is_key_Qred q : is_key (Qred q) (Some q) = true.
Proof.
  simpl. apply Qeq_bool_iff. symmetry. apply Qred_correct.
Qed.

Lemma select_nonempty {A B} (f : A -> bool) (ks : list A) :
  forall ts : list B,
    List.length ks = List.length ts ->
    (exists k, In k ks /\ f k = true) ->
    select (map f ks) ts <> [].
Proof.
  induction ks as [|k ks IH]; intros [|t ts] Hlen (k' & Hin & Hk);
    simpl in *; try contradiction; try discriminate.
  destruct (f k) eqn:E; [discriminate |].
  apply IH; [lia |]. destruct Hin as [-> | Hin]; [congruence |].
  now exists k'.
Qed.

Lemma fold_min_le_max (t : Z) (rest : list Z) :
  fold_right Z.min t rest <= t <= fold_right Z.max t rest.
Proof.
  induction rest as [|x rest IH]; simpl; lia.
Qed.

Lemma bucket_count_positive (w first last origin : Z) :
  0 < w -> first <= last ->
  1 <= (last - (last - origin) mod w + w
        - (first - (first - origin) mod w)) / w.
Proof.
  intros Hw Hle.
  rewrite (Z.mod_eq (last - origin) w), (Z.mod_eq (first - origin) w) by lia.
  pose proof (Z.div_le_mono (first - origin) (last - origin) w Hw) as Hdiv.
  replace (last - (last - origin - w * ((last - origin) / w)) + w
           - (first - (first - origin - w * ((first - origin) / w))))
    with (((last - origin) / w - (first - origin) / w + 1) * w) by ring.
  rewrite Z.div_mul by lia. lia.
Qed.

Lemma bucket_labels_nonempty (w : Z) (ts : list Z) :
  0 < w -> ts <> [] -> bucket_labels w ts <> [].
Proof.
  intros Hw. destruct ts as [|t rest]; [congruence |]. intros _.
  unfold bucket_labels.
  pose proof (fold_min_le_max t rest) as Hmm.
  pose proof (bucket_count_positive w (fold_right Z.min t rest)
                (fold_right Z.max t rest)
                (day * (fold_right Z.min t rest / day)) Hw) as Hc.
  cbv zeta.
  destruct (Z.to_nat _) eqn:E.
  - exfalso. lia.
  - simpl. discriminate.
Qed.

Lemma grid_keys (w : Z) (keys : list Cell) (times : list Z) :
  0 < w -> List.length keys = List.length times ->
  forall g, In g (map fst (grid w keys times)) <-> In g (group_keys keys).
Proof.
  intros Hw Hlen g. unfold grid. split.
  - intros H. apply in_map_iff in H. destruct H as ([g' b] & <- & Hin).
    apply in_flat_map in Hin. destruct Hin as (g0 & Hg0 & Hb).
    apply in_map_iff in Hb. destruct Hb as (b' & Heq & _).
    inversion Heq. subst. exact Hg0.
  - intros Hg.
    pose proof Hg as Hq. apply group_keys_In in Hq.
    destruct Hq as (q & Hin & ->).
    assert (Hne : bucket_labels w (select (map (is_key (Qred q)) keys) times)
                  <> []).
    { apply bucket_labels_nonempty; [exact Hw |].
      apply select_nonempty; [exact Hlen |].
      exists (Some q). split; [exact Hin | apply is_key_Qred]. }
    destruct (bucket_labels w (select (map (is_key (Qred q)) keys) times))
      as [|b bs] eqn:E; [congruence |].
    apply in_map_iff. exists (Qred q, b). split; [reflexivity |].
    apply in_flat_map. exists (Qred q). split; [exact Hg |].
    rewrite E. simpl. now left.
Qed.

Lemma key_value_grid (w : Z) (keys : list Cell) (times : list Z) :
  0 < w -> List.length keys = List.length times ->
  forall k,
    key_value (map (fun r => Some (fst r)) (grid w keys times)) k
    <-> key_value keys k.
Proof.
  intros Hw Hlen k. unfold key_value. split.
  - intros (q & Hin & Hq).
    apply in_map_iff in Hin. destruct Hin as (r & Heq & Hr).
    inversion Heq. subst q.
    assert (Hg : In (fst r) (group_keys keys)).
    { apply (grid_keys w keys times Hw Hlen). now apply in_map. }
    apply group_keys_In in Hg. destruct Hg as (q & Hq_in & Hred).
    exists q. split; [exact Hq_in |].
    rewrite <- Hq, Hred. symmetry. apply Qred_correct.
  - intros (q & Hin & Hq).
    assert (Hg : In (Qred q) (map fst (grid w keys times))).
    { apply (grid_keys w keys times Hw Hlen). apply group_keys_In.
      now exists q. }
    apply in_map_iff in Hg. destruct Hg as (r & Hr & Hr_in).
    exists (Qred q). split.
    + apply in_map_iff. exists r. split; [now rewrite Hr | exact Hr_in].
    + rewrite <- Hq. apply Qred_correct.
Qed.

Lemma agg_frame_keys rs p :
  0 < rs_width rs ->
  List.length (gb_keys (rs_groupby rs)) = List.length (rs_times rs) ->
  rs_time_name rs <> Some (gb_key (rs_groupby rs)) ->
  exists oks,
    get_level_values (index (agg_frame rs p)) (Some (gb_key (rs_groupby rs)))
    = inr (Labels oks)
    /\ forall k, key_value oks k <-> key_value (gb_keys (rs_groupby rs)) k.
Proof.
  intros Hw Hlen Hname. eexists. split.
  - unfold agg_frame, get_level_values, levels_named. simpl.
    rewrite String.eqb_refl.
    destruct (name_eqb (rs_time_name rs) (Some (gb_key (rs_groupby rs))))
      eqn:E; [| reflexivity].
    apply name_eqb_eq in E. contradiction.
  - now apply key_value_grid.
Qed.

Lemma index_apply_default d base : index (apply_default d base) = index base.
Proof. destruct d; reflexivity. Qed.

(** C8: on every valid input, for both variants, the keys found in the
    level of the result's index that carries the grouping key are, as a
    set of values, the keys present in the input: those of the key column
    for variant 1, those of the key level for variant 2. *)
Theorem groups_are_preserved :
  forall env,
    (forall self df,
        valid_input1 env self df ->
        exists keys out oks,
          getitem (columns df) (Variant1.groupby self) = Some keys
          /\ outcome (Variant1.transform env self (PyFrame df))
             = inr (PyFrame out)
          /\ get_level_values (index out) (Some (Variant1.groupby self))
             = inr (Labels oks)
          /\ forall k, key_value oks k <-> key_value keys k)
    /\ (forall self df,
           valid_input2 env self df ->
           exists d out oks,
             get_level_values (index df) (Some (Variant2.groupby self))
             = inr d
             /\ outcome (Variant2.transform env self (PyFrame df))
                = inr (PyFrame out)
             /\ get_level_values (index out) (Some (Variant2.groupby self))
                = inr (Labels oks)
             /\ forall k, key_value oks k <-> key_value (level_cells d) k).
Proof.
  intros env. split.
  - intros self df Hv.
    destruct (resampled1_ok env self df Hv)
      as (vs & l & ts & w & p & Hvs & Hl & Hlen & _ & Hbase & _).
    set (rs := mkResampler (mkGroupBy df (Variant1.groupby self) vs true)
                           (Z.pos w) (level_name l) ts) in *.
    destruct (agg_frame_keys rs p) as (oks & Hoks & Hset);
      [reflexivity | exact Hlen | |].
    { intros E. apply (v1_key_level _ _ _ Hv). unfold index_names.
      rewrite Hl. simpl. now left. }
    exists vs, (apply_default (Variant1.default_value self) (agg_frame rs p)),
           oks.
    split; [exact Hvs |]. split; [| split].
    + apply transform1_outcome; [apply (v1_index _ _ _ Hv) | exact Hbase].
    + rewrite index_apply_default. exact Hoks.
    + exact Hset.
  - intros self df Hv.
    destruct (aggregated2_ok env self df Hv)
      as (d & l & ts & w & p & Hd & Hlen & _ & Ha & Hnd & Hname).
    set (key := Variant2.groupby self) in *.
    set (rs := mkResampler
                 (mkGroupBy (mkFrame [l] ((key, level_cells d) :: columns df))
                            key (level_cells d) true)
                 (Z.pos w) (level_name l) ts) in *.
    destruct (agg_frame_keys rs p) as (oks & Hoks & Hset);
      [reflexivity | exact Hlen | exact Hname |].
    exists d, (apply_default (Variant2.default_value self)
                 (sweep (drop (agg_frame rs p) key))), oks.
    split; [exact Hd |]. split; [| split].
    + apply transform2_outcome;
        [apply (valid_input2_passes env self df Hv) |].
      now apply coerced2_outcome.
    + rewrite index_apply_default. exact Hoks.
    + exact Hset.
Qed.

Lemma groups_are_preserved_witness :
  (exists keys out oks,
      getitem (columns Reference.ward_flat) "stay_id" = Some keys
      /\ outcome (Variant1.transform (Reference.engine true)
                    (Variant1.init None None None None)
                    (PyFrame Reference.ward_flat))
         = inr (PyFrame out)
      /\ get_level_values (index out) (Some "stay_id") = inr (Labels oks)
      /\ forall k, key_value oks k <-> key_value keys k)
  /\ (exists d out oks,
         get_level_values (index Reference.ward) (Some "stay_id") = inr d
         /\ outcome (Variant2.transform (Reference.engine true)
                       (Variant2.init None None None None None)
                       (PyFrame Reference.ward))
            = inr (PyFrame out)
         /\ get_level_values (index out) (Some "stay_id") = inr (Labels oks)
         /\ forall k, key_value oks k <-> key_value (level_cells d) k).
Proof.
  destruct (groups_are_preserved (Reference.engine true)) as [H1 H2].
  split.
  - apply (H1 (Variant1.init None None None None) Reference.ward_flat).
    apply ward_flat_valid; reflexivity.
  - apply (H2 (Variant2.init None None None None None) Reference.ward).
    apply ward_valid; reflexivity.
Defined.

(** Hourly means of [two_groups] with the default value 0.0: 10 and 20 in
    the buckets 00:00 and 01:00 of group 1, 5 in the bucket 00:00 of
    group 2. *)
Example two_groups_resampled_by_variant1 :
  outcome (Variant1.transform (Reference.engine false)
             (Variant1.init (Some "1H") (Some (OneAgg (AggName "mean"))) None
                            (Some (Some 0%Q)))
             (PyFrame Reference.two_groups))
  = inr (PyFrame
           (mkFrame
              [ mkLevel (Some "stay_id") (Labels [Some 1%Q; Some 1%Q; Some 2%Q]);
                mkLevel (Some "charttime") (Datetimes [0; 3600; 0]) ]
              [ ("value", [Some 10%Q; Some 20%Q; Some 5%Q]) ])).
Proof. vm_compute. reflexivity. Qed.

(** ** Beyond validation: what the engine rejects *)

Lemma get_level_values_present (ix : list Level) (n : option string) :
  NoDup (map level_name ix) -> In n (map level_name ix) ->
  exists d, get_level_values ix n = inr d.
Proof.
  intros Hnd Hin. apply in_map_iff in Hin. destruct Hin as (l & <- & Hl).
  exists (level_data l). now apply get_level_values_NoDup.
Qed.

(** A name some level carries is found, unless two levels carry it. *)
Lemma get_level_values_named (ix : list Level) (n : option string) :
  In n (map level_name ix) ->
  (exists d, get_level_values ix n = inr d)
  \/ get_level_values ix n = inl (name_occurs_multiple_times n).
Proof.
  intros Hin. apply in_map_iff in Hin. destruct Hin as (l & Hn & Hl).
  assert (Hl' : In l (levels_named ix n)) by now apply levels_named_In.
  unfold get_level_values.
  destruct (levels_named ix n) as [|x [|y r]]; [contradiction | |].
  - left. now exists (level_data x).
  - now right.
Qed.

Lemma level_not_found_KeyError (ix : list Level) (n : option string) :
  exists msg, level_not_found ix n = KeyError msg.
Proof.
  unfold level_not_found. destruct ix as [|l [|l' r]]; eexists; reflexivity.
Qed.

Lemma has_column_false (df : DataFrame) (n : string) :
  has_column df n = false -> getitem (columns df) n = None.
Proof.
  intros H. apply getitem_None. intros Hin.
  apply has_column_In in Hin. congruence.
Qed.

(** X1: variant 2 needs the grouping key among the index levels. On a
    dataframe that passes both checks but has no level of that name (the
    layout variant 1 expects, with the key as a plain column, is one),
    [reset_index] raises a [KeyError]; nothing is logged, and the error
    policy, ["ignore"] included, does not intervene. *)
Theorem transform2_key_not_a_level :
  forall env self df,
    Variant2.any_level_is_datetime64 df = inr true ->
    ~ In (Some (Variant2.groupby self)) (index_names df) ->
    exists msg,
      Variant2.transform env self (PyFrame df)
      = mkRun [PandasCall "reset_index"] (inl (KeyError msg)).
Proof.
  intros env self df Hdt Hkey.
  destruct (level_not_found_KeyError (index df)
              (Some (Variant2.groupby self))) as (msg & Hmsg).
  exists msg.
  unfold Variant2.transform. simpl. rewrite Hdt. simpl.
  unfold Variant2.coerced, Variant2.resampled, Variant2.aggregated, call, bind.
  simpl. unfold reset_index.
  rewrite (get_level_values_absent _ _ Hkey), Hmsg. reflexivity.
Qed.

Lemma transform2_key_not_a_level_witness :
  exists msg,
    Variant2.transform (Reference.engine true)
      (Variant2.init None None None None (Some "ignore"))
      (PyFrame Reference.ward_flat)
    = mkRun [PandasCall "reset_index"] (inl (KeyError msg)).
Proof.
  apply (transform2_key_not_a_level (Reference.engine true)
           (Variant2.init None None None None (Some "ignore"))
           Reference.ward_flat).
  - reflexivity.
  - simpl. intuition discriminate.
Defined.

(** X2: when the grouping key names an index level and a column as well,
    variant 2 cannot move the level into the columns: [reset_index] raises
    a [ValueError] and nothing else runs. *)
Theorem transform2_key_level_and_column :
  forall env self df,
    Variant2.any_level_is_datetime64 df = inr true ->
    In (Some (Variant2.groupby self)) (index_names df) ->
    has_column df (Variant2.groupby self) = true ->
    exists msg,
      Variant2.transform env self (PyFrame df)
      = mkRun [PandasCall "reset_index"] (inl (ValueError msg)).
Proof.
  intros env self df Hdt Hlevel Hcol.
  destruct (get_level_values_named _ _ Hlevel) as [(d & Hd) | Hd]; eexists;
    unfold Variant2.transform; simpl; rewrite Hdt; simpl;
    unfold Variant2.coerced, Variant2.resampled, Variant2.aggregated, call,
      bind; simpl; unfold reset_index; rewrite Hd.
  - rewrite Hcol. reflexivity.
  - reflexivity.
Qed.

Lemma transform2_key_level_and_column_witness :
  exists msg,
    Variant2.transform (Reference.engine true)
      (Variant2.init None None None None None)
      (PyFrame (mkFrame Reference.ward_index
                        [ ("stay_id", [Some 1%Q; Some 1%Q; Some 2%Q]) ]))
    = mkRun [PandasCall "reset_index"] (inl (ValueError msg)).
Proof.
  apply (transform2_key_level_and_column (Reference.engine true)
           (Variant2.init None None None None None)
           (mkFrame Reference.ward_index
                    [ ("stay_id", [Some 1%Q; Some 1%Q; Some 2%Q]) ])).
  - reflexivity.
  - simpl. auto.
  - reflexivity.
Defined.

(** X3: variant 1 looks the grouping key up among the columns and the index
    levels. On a dataframe with a datetime index, a key found in neither
    makes [groupby] raise a [KeyError], and a key found in both makes it
    raise a [ValueError]; in both cases nothing is logged and nothing is
    resampled. *)
Theorem transform1_key_lookup_fails :
  forall env self df,
    index_is_datetime64 (index df) = true ->
    (has_column df (Variant1.groupby self) = false ->
     ~ In (Some (Variant1.groupby self)) (index_names df) ->
     Variant1.transform env self (PyFrame df)
     = mkRun [PandasCall "groupby"] (inl (KeyError (Variant1.groupby self))))
    /\ (has_column df (Variant1.groupby self) = true ->
        In (Some (Variant1.groupby self)) (index_names df) ->
        exists msg,
          Variant1.transform env self (PyFrame df)
          = mkRun [PandasCall "groupby"] (inl (ValueError msg))).
Proof.
  intros env self df Hix. split.
  - intros Hcol Hlevel.
    unfold Variant1.transform. simpl. rewrite Hix. simpl.
    unfold Variant1.resampled, call, bind. simpl. unfold Pandas.groupby.
    rewrite (has_column_false _ _ Hcol), (is_level_reference_false _ _ Hlevel).
    reflexivity.
  - intros Hcol Hlevel.
    apply has_column_In in Hcol.
    destruct (getitem_In _ _ Hcol) as (vs & Hvs).
    apply is_level_reference_In in Hlevel.
    eexists.
    unfold Variant1.transform. simpl. rewrite Hix. simpl.
    unfold Variant1.resampled, call, bind. simpl. unfold Pandas.groupby.
    rewrite Hvs, Hlevel. reflexivity.
Qed.

Lemma transform1_key_lookup_fails_witness :
  Variant1.transform (Reference.engine true)
    (Variant1.init None None (Some "subject_id") None)
    (PyFrame Reference.ward_flat)
  = mkRun [PandasCall "groupby"] (inl (KeyError "subject_id"))
  /\ exists msg,
      Variant1.transform (Reference.engine true)
        (Variant1.init None None None None)
        (PyFrame (mkFrame [ mkLevel (Some "stay_id") (Datetimes [0; 60]) ]
                          [ ("stay_id", [Some 1%Q; Some 2%Q]) ]))
      = mkRun [PandasCall "groupby"] (inl (ValueError msg)).
Proof.
  split.
  - apply (transform1_key_lookup_fails (Reference.engine true)
             (Variant1.init None None (Some "subject_id") None)
             Reference.ward_flat).
    + reflexivity.
    + reflexivity.
    + simpl. intuition discriminate.
  - apply (transform1_key_lookup_fails (Reference.engine true)
             (Variant1.init None None None None)
             (mkFrame [ mkLevel (Some "stay_id") (Datetimes [0; 60]) ]
                      [ ("stay_id", [Some 1%Q; Some 2%Q]) ])).
    + reflexivity.
    + reflexivity.
    + simpl. auto.
Defined.

(** *** The runs of the two chains, step by step *)

Lemma bind_call {A B} (op : string) (r : Exn + A) (f : A -> Run B) :
  bind (call op r) f
  = match r with
    | inl e => mkRun [PandasCall op] (inl e)
    | inr a => mkRun (PandasCall op :: trace (f a)) (outcome (f a))
    end.
Proof. destruct r; reflexivity. Qed.

Lemma bind_run {A B} (t : list Event) (o : Exn + A) (f : A -> Run B) :
  bind (mkRun t o) f
  = match o with
    | inl e => mkRun t (inl e)
    | inr a => mkRun (t ++ trace (f a)) (outcome (f a))
    end.
Proof. destruct o; reflexivity. Qed.

Lemma resampled1_run env self df gb :
  Pandas.groupby df (Variant1.groupby self) = inr gb ->
  Variant1.resampled env self df
  = match resample env gb (Variant1.frequency self) with
    | inl e => mkRun [PandasCall "groupby"; PandasCall "resample"] (inl e)
    | inr rs =>
        mkRun [PandasCall "groupby"; PandasCall "resample"; PandasCall "agg"]
              (agg env rs (Variant1.method self))
    end.
Proof.
  intros Hgb. unfold Variant1.resampled.
  rewrite bind_call, Hgb, bind_call.
  destruct (resample env gb (Variant1.frequency self)); reflexivity.
Qed.

Lemma aggregated2_run env self df flat gb :
  reset_index df (Variant2.groupby self) = inr flat ->
  Pandas.groupby flat (Variant2.groupby self) = inr gb ->
  Variant2.aggregated env self df
  = match resample env gb (Variant2.frequency self) with
    | inl e =>
        mkRun [PandasCall "reset_index"; PandasCall "groupby";
               PandasCall "resample"] (inl e)
    | inr rs =>
        mkRun [PandasCall "reset_index"; PandasCall "groupby";
               PandasCall "resample"; PandasCall "agg"]
              (agg env rs (Variant2.method self))
    end.
Proof.
  intros Hflat Hgb. unfold Variant2.aggregated.
  rewrite bind_call, Hflat, bind_call, Hgb, bind_call.
  destruct (resample env gb (Variant2.frequency self)); reflexivity.
Qed.

Lemma transform1_after_check env self df :
  index_is_datetime64 (index df) = true ->
  Variant1.transform env self (PyFrame df)
  = (r <- Variant1.resampled env self df ;;
     fill_default (Variant1.default_value self) r).
Proof.
  intros Hix. unfold Variant1.transform. simpl. now rewrite Hix.
Qed.

Lemma transform2_after_check env self df :
  Variant2.any_level_is_datetime64 df = inr true ->
  Variant2.transform env self (PyFrame df)
  = (r <- Variant2.coerced env self df ;;
     fill_default (Variant2.default_value self) r).
Proof.
  intros Hix. unfold Variant2.transform. simpl. now rewrite Hix.
Qed.

(** An exception of the chain of variant 2 is the exception of [transform]. *)
Lemma transform2_chain_raises env self df t e :
  Variant2.any_level_is_datetime64 df = inr true ->
  Variant2.aggregated env self df = mkRun t (inl e) ->
  Variant2.transform env self (PyFrame df) = mkRun t (inl e).
Proof.
  intros Hix Ha. rewrite (transform2_after_check env self df Hix).
  unfold Variant2.coerced, Variant2.resampled. rewrite Ha. reflexivity.
Qed.

Lemma transform1_chain_raises env self df t e :
  index_is_datetime64 (index df) = true ->
  Variant1.resampled env self df = mkRun t (inl e) ->
  Variant1.transform env self (PyFrame df) = mkRun t (inl e).
Proof.
  intros Hix Ha. rewrite (transform1_after_check env self df Hix).
  rewrite Ha. reflexivity.
Qed.

Lemma groupby_column (df : DataFrame) (key : string) :
  has_column df key = true ->
  ~ In (Some key) (index_names df) ->
  exists vs, getitem (columns df) key = Some vs
             /\ Pandas.groupby df key = inr (mkGroupBy df key vs true).
Proof.
  intros Hcol Hlevel. apply has_column_In in Hcol.
  destruct (getitem_In _ _ Hcol) as (vs & Hvs).
  exists vs. split; [exact Hvs |].
  unfold Pandas.groupby.
  now rewrite Hvs, (is_level_reference_false _ _ Hlevel).
Qed.

(** The frame [reset_index] hands to [groupby] in variant 2. *)
Lemma reset_then_groupby (df : DataFrame) (key : string) :
  NoDup (index_names df) ->
  In (Some key) (index_names df) ->
  has_column df key = false ->
  exists d flat,
    get_level_values (index df) (Some key) = inr d
    /\ reset_index df key = inr flat
    /\ index flat = match remove_level (index df) key with
                    | [] => [range_index (nrows df)]
                    | ix => ix
                    end
    /\ columns flat = (key, level_cells d) :: columns df
    /\ Pandas.groupby flat key = inr (mkGroupBy flat key (level_cells d) true).
Proof.
  intros Hnd Hlevel Hcol.
  destruct (get_level_values_present _ _ Hnd Hlevel) as (d & Hd).
  eexists d, _. split; [exact Hd |]. split.
  - unfold reset_index. rewrite Hd, Hcol. reflexivity.
  - split; [reflexivity |]. split; [reflexivity |].
    unfold Pandas.groupby. simpl. rewrite String.eqb_refl.
    rewrite is_level_reference_false; [reflexivity |].
    unfold index_names. simpl. intros Hin.
    apply in_map_iff in Hin. destruct Hin as (l & Hname & Hl).
    destruct (remove_level (index df) key) as [|x r] eqn:E.
    + destruct Hl as [<- | []]. discriminate Hname.
    + apply (remove_level_name (index df) key l Hnd); [| exact Hname].
      now rewrite E.
Qed.

Lemma resample_unknown_frequency env gb freq :
  to_offset env freq = None ->
  resample env gb freq = inl (ValueError "Invalid frequency").
Proof. intros H. unfold resample. now rewrite H. Qed.

Lemma resample_datetime env gb freq w :
  to_offset env freq = Some w ->
  index_is_datetime64 (index (gb_frame gb)) = true ->
  exists l ts,
    index (gb_frame gb) = [l] /\ level_data l = Datetimes ts
    /\ resample env gb freq = inr (mkResampler gb (Z.pos w) (level_name l) ts).
Proof.
  intros Hw Hix. apply index_is_datetime64_single in Hix.
  destruct Hix as (l & Hl & Hdt).
  destruct (level_data l) as [ts | ks] eqn:Hdata; [| discriminate].
  exists l, ts. split; [exact Hl |]. split; [exact Hdata |].
  unfold resample. now rewrite Hw, Hl, Hdata.
Qed.

Lemma resample_not_datetime env gb freq w :
  to_offset env freq = Some w ->
  index_is_datetime64 (index (gb_frame gb)) = false ->
  resample env gb freq = inl (TypeError "Only valid with DatetimeIndex").
Proof.
  intros Hw Hix. unfold resample. rewrite Hw.
  destruct (index (gb_frame gb)) as [|l [|l' r]]; try reflexivity.
  simpl in Hix. destruct (level_data l); [discriminate | reflexivity].
Qed.

Lemma agg_unknown_name env rs n :
  named_agg env n = None ->
  agg env rs (OneAgg (AggName n))
  = inl (AttributeError (not_a_valid_function n)).
Proof. intros H. unfold agg. simpl. now rewrite H. Qed.

(** X4: a frequency string the engine does not know makes [transform]
    raise a [ValueError] at [resample], in both variants, once the checks
    have passed and the rows are grouped; nothing is logged, and the error
    policy of variant 2 has no part in it. *)
Theorem unknown_frequency_raises :
  forall env,
    (forall self df,
        index_is_datetime64 (index df) = true ->
        has_column df (Variant1.groupby self) = true ->
        ~ In (Some (Variant1.groupby self)) (index_names df) ->
        to_offset env (Variant1.frequency self) = None ->
        exists msg,
          Variant1.transform env self (PyFrame df)
          = mkRun [PandasCall "groupby"; PandasCall "resample"]
                  (inl (ValueError msg)))
    /\ (forall self df,
           NoDup (index_names df) ->
           Variant2.any_level_is_datetime64 df = inr true ->
           In (Some (Variant2.groupby self)) (index_names df) ->
           has_column df (Variant2.groupby self) = false ->
           to_offset env (Variant2.frequency self) = None ->
           exists msg,
             Variant2.transform env self (PyFrame df)
             = mkRun [PandasCall "reset_index"; PandasCall "groupby";
                      PandasCall "resample"]
                     (inl (ValueError msg))).
Proof.
  intros env. split.
  - intros self df Hix Hcol Hlevel Hfreq.
    destruct (groupby_column df _ Hcol Hlevel) as (vs & _ & Hgb).
    eexists. apply transform1_chain_raises; [exact Hix |].
    rewrite (resampled1_run env self df _ Hgb).
    now rewrite (resample_unknown_frequency env _ _ Hfreq).
  - intros self df Hnd Hdt Hlevel Hcol Hfreq.
    destruct (reset_then_groupby df _ Hnd Hlevel Hcol)
      as (d & flat & _ & Hflat & _ & _ & Hgb).
    eexists. apply transform2_chain_raises; [exact Hdt |].
    rewrite (aggregated2_run env self df _ _ Hflat Hgb).
    now rewrite (resample_unknown_frequency env _ _ Hfreq).
Qed.

Lemma unknown_frequency_raises_witness :
  (exists msg,
      Variant1.transform (Reference.engine true)
        (Variant1.init (Some "hourly") None None None)
        (PyFrame Reference.ward_flat)
      = mkRun [PandasCall "groupby"; PandasCall "resample"]
              (inl (ValueError msg)))
  /\ (exists msg,
         Variant2.transform (Reference.engine true)
           (Variant2.init (Some "hourly") None None None (Some "ignore"))
           (PyFrame Reference.ward)
         = mkRun [PandasCall "reset_index"; PandasCall "groupby";
                  PandasCall "resample"]
                 (inl (ValueError msg))).
Proof.
  destruct (unknown_frequency_raises (Reference.engine true)) as [H1 H2].
  split.
  - apply (H1 (Variant1.init (Some "hourly") None None None)
              Reference.ward_flat).
    + reflexivity.
    + reflexivity.
    + simpl. intuition discriminate.
    + reflexivity.
  - apply (H2 (Variant2.init (Some "hourly") None None None (Some "ignore"))
              Reference.ward).
    + prove_distinct.
    + reflexivity.
    + simpl. auto.
    + reflexivity.
    + reflexivity.
Defined.

(** X5: a method given as the name of a reduction the engine does not
    know makes [transform] raise an [AttributeError], in both variants,
    after grouping and resampling and before any table is built. *)
Theorem unknown_method_raises :
  forall env n,
    named_agg env n = None ->
    (forall self df,
        Variant1.method self = OneAgg (AggName n) ->
        index_is_datetime64 (index df) = true ->
        has_column df (Variant1.groupby self) = true ->
        ~ In (Some (Variant1.groupby self)) (index_names df) ->
        to_offset env (Variant1.frequency self) <> None ->
        exists msg,
          Variant1.transform env self (PyFrame df)
          = mkRun [PandasCall "groupby"; PandasCall "resample";
                   PandasCall "agg"]
                  (inl (AttributeError msg)))
    /\ (forall self df,
           Variant2.method self = OneAgg (AggName n) ->
           NoDup (index_names df) ->
           In (Some (Variant2.groupby self)) (index_names df) ->
           has_column df (Variant2.groupby self) = false ->
           index_is_datetime64
             (remove_level (index df) (Variant2.groupby self)) = true ->
           to_offset env (Variant2.frequency self) <> None ->
           exists msg,
             Variant2.transform env self (PyFrame df)
             = mkRun [PandasCall "reset_index"; PandasCall "groupby";
                      PandasCall "resample"; PandasCall "agg"]
                     (inl (AttributeError msg))).
Proof.
  intros env n Hn. split.
  - intros self df Hm Hix Hcol Hlevel Hfreq.
    destruct (to_offset env (Variant1.frequency self)) as [w|] eqn:Hw;
      [| congruence].
    destruct (groupby_column df _ Hcol Hlevel) as (vs & _ & Hgb).
    destruct (resample_datetime env (mkGroupBy df (Variant1.groupby self) vs true)
                _ w Hw Hix) as (l & ts & _ & _ & Hrs).
    eexists. apply transform1_chain_raises; [exact Hix |].
    rewrite (resampled1_run env self df _ Hgb), Hrs, Hm.
    now rewrite (agg_unknown_name env _ n Hn).
  - intros self df Hm Hnd Hlevel Hcol Hix Hfreq.
    destruct (to_offset env (Variant2.frequency self)) as [w|] eqn:Hw;
      [| congruence].
    destruct (reset_then_groupby df _ Hnd Hlevel Hcol)
      as (d & flat & _ & Hflat & Hindex & _ & Hgb).
    pose proof Hix as Hsingle. apply index_is_datetime64_single in Hsingle.
    destruct Hsingle as (l & Hrem & Hdt).
    assert (Hflat_ix : index_is_datetime64 (index flat) = true).
    { rewrite Hindex, Hrem. exact Hdt. }
    destruct (resample_datetime env
                (mkGroupBy flat (Variant2.groupby self) (level_cells d) true)
                _ w Hw Hflat_ix) as (l' & ts & _ & _ & Hrs).
    eexists. apply transform2_chain_raises.
    + apply (some_datetime_level df l Hnd); [| exact Hdt].
      apply (remove_level_In _ (Variant2.groupby self)). rewrite Hrem.
      now left.
    + rewrite (aggregated2_run env self df _ _ Hflat Hgb), Hrs, Hm.
      now rewrite (agg_unknown_name env _ n Hn).
Qed.

Lemma unknown_method_raises_witness :
  (exists msg,
      Variant1.transform (Reference.engine true)
        (Variant1.init None (Some (OneAgg (AggName "mode"))) None None)
        (PyFrame Reference.ward_flat)
      = mkRun [PandasCall "groupby"; PandasCall "resample"; PandasCall "agg"]
              (inl (AttributeError msg)))
  /\ (exists msg,
         Variant2.transform (Reference.engine true)
           (Variant2.init None None (Some (OneAgg (AggName "mode"))) None None)
           (PyFrame Reference.ward)
         = mkRun [PandasCall "reset_index"; PandasCall "groupby";
                  PandasCall "resample"; PandasCall "agg"]
                 (inl (AttributeError msg))).
Proof.
  destruct (unknown_method_raises (Reference.engine true) "mode" eq_refl)
    as [H1 H2].
  split.
  - apply (H1 (Variant1.init None (Some (OneAgg (AggName "mode"))) None None)
              Reference.ward_flat).
    + reflexivity.
    + reflexivity.
    + reflexivity.
    + simpl. intuition discriminate.
    + simpl. discriminate.
  - apply (H2 (Variant2.init None None (Some (OneAgg (AggName "mode")))
                 None None) Reference.ward).
    + reflexivity.
    + prove_distinct.
    + simpl. auto.
    + reflexivity.
    + reflexivity.
    + simpl. discriminate.
Defined.

(** X6: passing the check of variant 2 is not enough to be resampled. When
    the index levels left after the grouping key has been moved out are
    not exactly one datetime-typed level (the key was the only level, or
    three levels were given, or the datetime level was the key itself),
    [resample] raises a [TypeError]; nothing is logged. *)
Theorem transform2_needs_one_datetime_level_besides_key :
  forall env self df,
    NoDup (index_names df) ->
    Variant2.any_level_is_datetime64 df = inr true ->
    In (Some (Variant2.groupby self)) (index_names df) ->
    has_column df (Variant2.groupby self) = false ->
    to_offset env (Variant2.frequency self) <> None ->
    index_is_datetime64 (remove_level (index df) (Variant2.groupby self))
    = false ->
    exists msg,
      Variant2.transform env self (PyFrame df)
      = mkRun [PandasCall "reset_index"; PandasCall "groupby";
               PandasCall "resample"]
              (inl (TypeError msg)).
Proof.
  intros env self df Hnd Hdt Hlevel Hcol Hfreq Hix.
  destruct (to_offset env (Variant2.frequency self)) as [w|] eqn:Hw;
    [| congruence].
  destruct (reset_then_groupby df _ Hnd Hlevel Hcol)
    as (d & flat & _ & Hflat & Hindex & _ & Hgb).
  assert (Hflat_ix : index_is_datetime64 (index flat) = false).
  { rewrite Hindex.
    destruct (remove_level (index df) (Variant2.groupby self)) as [|x r];
      [reflexivity | exact Hix]. }
  eexists. apply transform2_chain_raises; [exact Hdt |].
  rewrite (aggregated2_run env self df _ _ Hflat Hgb).
  now rewrite (resample_not_datetime env
                 (mkGroupBy flat (Variant2.groupby self) (level_cells d) true)
                 _ w Hw Hflat_ix).
Qed.

(** A datetime index named after the grouping key passes the check and
    then fails in [resample]. *)
Lemma transform2_needs_one_datetime_level_besides_key_witness :
  exists msg,
    Variant2.transform (Reference.engine true)
      (Variant2.init None None None None None)
      (PyFrame (mkFrame [ mkLevel (Some "stay_id") (Datetimes [0; 60]) ]
                        [ ("hr", [Some 10%Q; Some 20%Q]) ]))
    = mkRun [PandasCall "reset_index"; PandasCall "groupby";
             PandasCall "resample"]
            (inl (TypeError msg)).
Proof.
  apply (transform2_needs_one_datetime_level_besides_key
           (Reference.engine true) (Variant2.init None None None None None)
           (mkFrame [ mkLevel (Some "stay_id") (Datetimes [0; 60]) ]
                    [ ("hr", [Some 10%Q; Some 20%Q]) ])).
  - prove_distinct.
  - reflexivity.
  - simpl. auto.
  - reflexivity.
  - simpl. discriminate.
  - reflexivity.
Defined.

(** ** What the returned table looks like *)

Lemma zero_cell_not_zero (c : Cell) : is_zero (zero_cell c) = false.
Proof.
  unfold zero_cell. destruct (is_zero c) eqn:E; [reflexivity | exact E].
Qed.

(** X7: the table variant 2 returns on a valid input holds no number equal
    to zero, unless the default value itself is a number equal to zero: a
    zero can only be a filled cell. *)
Theorem variant2_returns_no_zero :
  forall env self df,
    valid_input2 env self df ->
    exists out,
      outcome (Variant2.transform env self (PyFrame df)) = inr (PyFrame out)
      /\ forall c i q,
           cell out c i = Some (Some q) ->
           (q == 0)%Q ->
           exists v, Variant2.default_value self = Some (Some v) /\ (v == 0)%Q.
Proof.
  intros env self df Hv.
  destruct (transform2_ok env self df Hv) as (a & _ & _ & Hout).
  eexists. split; [exact Hout |].
  intros c i q Hcell Hz.
  assert (Hkept : forall y, zero_cell y = Some q -> False).
  { intros y Hy. pose proof (zero_cell_not_zero y) as Hn.
    rewrite Hy in Hn. apply is_zero_Some in Hz. congruence. }
  destruct (Variant2.default_value self) as [dv|]; simpl in Hcell.
  - rewrite cell_fillna, cell_sweep in Hcell.
    destruct (cell (drop a (Variant2.groupby self)) c i) as [y|];
      simpl in Hcell; [| discriminate].
    inversion Hcell as [Hx]. clear Hcell.
    destruct (zero_cell y) as [q'|] eqn:E; simpl in Hx.
    + inversion Hx. subst q'. destruct (Hkept y E).
    + subst dv. exists q. split; [reflexivity | exact Hz].
  - rewrite cell_sweep in Hcell.
    destruct (cell (drop a (Variant2.groupby self)) c i) as [y|];
      simpl in Hcell; [| discriminate].
    inversion Hcell as [Hx]. destruct (Hkept y Hx).
Qed.

Lemma variant2_returns_no_zero_witness :
  exists out,
    outcome (Variant2.transform (Reference.engine true)
               (Variant2.init None None None None None)
               (PyFrame Reference.ward))
    = inr (PyFrame out)
    /\ forall c i q,
         cell out c i = Some (Some q) ->
         (q == 0)%Q ->
         exists v, None = Some (Some v) /\ (v == 0)%Q.
Proof.
  apply (variant2_returns_no_zero (Reference.engine true)
           (Variant2.init None None None None None) Reference.ward).
  apply ward_valid; reflexivity.
Defined.

(** X8: unless [float("nan")] is passed as the default value, the table
    variant 1's [transform] returns on a valid input has no missing cell,
    whatever else the constructor was given: it never leaves
    [default_value] null, so the branch of [transform] that returns the
    table unfilled is not taken. *)
Theorem variant1_constructed_never_returns_missing :
  forall env f m g d df,
    d <> Some NA ->
    valid_input1 env (Variant1.init f m g d) df ->
    exists v out,
      Variant1.default_value (Variant1.init f m g d) = Some (Some v)
      /\ outcome (Variant1.transform env (Variant1.init f m g d) (PyFrame df))
         = inr (PyFrame out)
      /\ forall c i x, cell out c i = Some x -> x <> NA.
Proof.
  intros env f m g d df Hd Hv.
  destruct (transform1_ok env _ df Hv) as (base & _ & Hout).
  assert (Hnum : exists v, Variant1.default_value (Variant1.init f m g d)
                           = Some (Some v)).
  { destruct d as [[v|]|]; simpl.
    - now exists v.
    - exfalso. now apply Hd.
    - now exists 0%Q. }
  destruct Hnum as (v & Hnum). rewrite Hnum in Hout. simpl in Hout.
  exists v. eexists. split; [exact Hnum |]. split; [exact Hout |].
  apply (filled_none_missing _ _ _ (fillna_filled base v)).
Qed.

Lemma variant1_constructed_never_returns_missing_witness :
  exists v out,
    Variant1.default_value (Variant1.init None None None None) = Some (Some v)
    /\ outcome (Variant1.transform (Reference.engine true)
                  (Variant1.init None None None None)
                  (PyFrame Reference.ward_flat))
       = inr (PyFrame out)
    /\ forall c i x, cell out c i = Some x -> x <> NA.
Proof.
  apply (variant1_constructed_never_returns_missing (Reference.engine true)
           None None None None Reference.ward_flat).
  - discriminate.
  - apply ward_flat_valid; reflexivity.
Defined.

(** *** The complete runs on valid inputs *)

Lemma run_eta {A} (r : Run A) : r = mkRun (trace r) (outcome r).
Proof. destruct r; reflexivity. Qed.

Lemma fill_default_run d base :
  fill_default d base
  = mkRun (match d with Some _ => [PandasCall "fillna"] | None => [] end)
          (inr (PyFrame (apply_default d base))).
Proof. destruct d; reflexivity. Qed.

Lemma zero_to_na_trace (ls : list string) :
  forall df,
    trace (Variant2.zero_to_na df ls)
    = repeat (PandasCall "loc.__setitem__") (List.length ls).
Proof.
  induction ls as [|c ls IH]; intros df; [reflexivity |].
  cbn [Variant2.zero_to_na]. rewrite bind_call. simpl. now rewrite IH.
Qed.

Lemma zero_to_na_run (df : DataFrame) :
  NoDup (column_names df) ->
  Variant2.zero_to_na df (column_names df)
  = mkRun (repeat (PandasCall "loc.__setitem__")
                  (List.length (column_names df)))
          (inr (sweep df)).
Proof.
  intros Hnd. rewrite (run_eta (Variant2.zero_to_na df (column_names df))).
  now rewrite zero_to_na_trace, (zero_to_na_sweep df Hnd).
Qed.

Lemma resampled1_valid_run env self df :
  valid_input1 env self df ->
  exists vs l ts w p,
    getitem (columns df) (Variant1.groupby self) = Some vs
    /\ index df = [l]
    /\ level_data l = Datetimes ts
    /\ List.length vs = List.length ts
    /\ to_offset env (Variant1.frequency self) = Some w
    /\ Variant1.resampled env self df
       = mkRun [PandasCall "groupby"; PandasCall "resample"; PandasCall "agg"]
               (inr (agg_frame
                       (mkResampler
                          (mkGroupBy df (Variant1.groupby self) vs true)
                          (Z.pos w) (level_name l) ts) p))
    /\ NoDup (column_names
                (agg_frame
                   (mkResampler
                      (mkGroupBy df (Variant1.groupby self) vs true)
                      (Z.pos w) (level_name l) ts) p)).
Proof.
  intros Hv. pose proof Hv as [Hwf Hix Hkc Hkl Hfreq Hm].
  destruct (groupby_column df _ Hkc Hkl) as (vs & Hvs & Hgb).
  destruct (to_offset env (Variant1.frequency self)) as [w|] eqn:Hw;
    [| congruence].
  destruct (resample_datetime env
              (mkGroupBy df (Variant1.groupby self) vs true) _ w Hw Hix)
    as (l & ts & Hl & Hdata & Hrs).
  simpl in Hl.
  destruct (agg_ok env (mkResampler
                          (mkGroupBy df (Variant1.groupby self) vs true)
                          (Z.pos w) (level_name l) ts)
                   (Variant1.method self)) as (p & Hp & Hn);
    [reflexivity | apply (wf_column_names df Hwf) | exact Hm |].
  exists vs, l, ts, w, p.
  split; [exact Hvs |]. split; [exact Hl |]. split; [exact Hdata |].
  split; [| split; [reflexivity |]; split; [| exact Hn]].
  - pose proof (wf_columns df Hwf) as Hc. rewrite Forall_forall in Hc.
    specialize (Hc _ (getitem_Some_In _ _ _ Hvs)). simpl in Hc.
    rewrite Hc. unfold nrows. rewrite Hl. unfold level_length.
    now rewrite Hdata.
  - rewrite (resampled1_run env self df _ Hgb), Hrs, Hp. reflexivity.
Qed.

Lemma aggregated2_valid_run env self df :
  valid_input2 env self df ->
  exists d l ts w p,
    get_level_values (index df) (Some (Variant2.groupby self)) = inr d
    /\ remove_level (index df) (Variant2.groupby self) = [l]
    /\ level_data l = Datetimes ts
    /\ level_name l <> Some (Variant2.groupby self)
    /\ List.length (level_cells d) = List.length ts
    /\ to_offset env (Variant2.frequency self) = Some w
    /\ Variant2.aggregated env self df
       = mkRun [PandasCall "reset_index"; PandasCall "groupby";
                PandasCall "resample"; PandasCall "agg"]
               (inr (agg_frame
                       (mkResampler
                          (mkGroupBy
                             (mkFrame [l] ((Variant2.groupby self,
                                            level_cells d) :: columns df))
                             (Variant2.groupby self) (level_cells d) true)
                          (Z.pos w) (level_name l) ts) p))
    /\ NoDup (column_names
                (agg_frame
                   (mkResampler
                      (mkGroupBy
                         (mkFrame [l] ((Variant2.groupby self,
                                        level_cells d) :: columns df))
                         (Variant2.groupby self) (level_cells d) true)
                      (Z.pos w) (level_name l) ts) p)).
Proof.
  intros Hv. pose proof Hv as [Hwf Hkl Hkc (l & Hrem & Hdt) Hfreq Hm].
  set (key := Variant2.groupby self) in *.
  destruct (reset_then_groupby df key (wf_index_names df Hwf) Hkl Hkc)
    as (d & flat & Hd & Hflat & Hindex & Hcols & Hgb).
  rewrite Hrem in Hindex.
  assert (Eflat : flat = mkFrame [l] ((key, level_cells d) :: columns df)).
  { destruct flat as [ix cols]. simpl in Hindex, Hcols. now subst. }
  subst flat.
  destruct (level_data l) as [ts | ks] eqn:Hdata; [| discriminate].
  destruct (to_offset env (Variant2.frequency self)) as [w|] eqn:Hw;
    [| congruence].
  assert (Hl_in : In l (index df)).
  { apply (remove_level_In _ key). rewrite Hrem. now left. }
  assert (Hl_name : level_name l <> Some key).
  { apply (remove_level_name (index df) key).
    - apply (wf_index_names df Hwf).
    - rewrite Hrem. now left. }
  pose (gb := mkGroupBy (mkFrame [l] ((key, level_cells d) :: columns df))
                        key (level_cells d) true).
  pose (rs := mkResampler gb (Z.pos w) (level_name l) ts).
  assert (Hnd : NoDup (column_names (gb_frame gb))).
  { unfold column_names. simpl. constructor.
    - intros Hin. apply has_column_In in Hin. congruence.
    - apply (wf_column_names df Hwf). }
  destruct (agg_ok env rs (Variant2.method self)) as (p & Hp & Hn);
    [reflexivity | exact Hnd | exact Hm |].
  assert (Hrs : resample env gb (Variant2.frequency self) = inr rs).
  { unfold resample. rewrite Hw. simpl. now rewrite Hdata. }
  exists d, l, ts, w, p.
  split; [exact Hd |]. split; [exact Hrem |]. split; [exact Hdata |].
  split; [exact Hl_name |].
  split; [| split; [reflexivity |]; split; [| exact Hn]].
  - apply get_level_values_In in Hd. destruct Hd as (lk & Hlk & _ & <-).
    rewrite level_cells_length.
    pose proof (wf_levels df Hwf) as Hlv. rewrite Forall_forall in Hlv.
    rewrite (Hlv _ Hlk), <- (Hlv _ Hl_in). unfold level_length.
    now rewrite Hdata.
  - rewrite (aggregated2_run env self df _ _ Hflat Hgb).
    fold gb. rewrite Hrs, Hp. reflexivity.
Qed.

Lemma transform2_run env self df a :
  Variant2.any_level_is_datetime64 df = inr true ->
  Variant2.aggregated env self df
  = mkRun [PandasCall "reset_index"; PandasCall "groupby";
           PandasCall "resample"; PandasCall "agg"] (inr a) ->
  NoDup (column_names a) ->
  Variant2.transform env self (PyFrame df)
  = mkRun ([PandasCall "reset_index"; PandasCall "groupby";
            PandasCall "resample"; PandasCall "agg"; PandasCall "drop"]
           ++ repeat (PandasCall "loc.__setitem__")
                     (List.length
                        (column_names (drop a (Variant2.groupby self))))
           ++ match Variant2.default_value self with
              | Some _ => [PandasCall "fillna"]
              | None => []
              end)
          (inr (PyFrame (apply_default (Variant2.default_value self)
                           (sweep (drop a (Variant2.groupby self)))))).
Proof.
  intros Hix Ha Hnd. rewrite (transform2_after_check env self df Hix).
  unfold Variant2.coerced, Variant2.resampled. rewrite Ha.
  rewrite bind_run. cbn [trace outcome call bind emit app].
  rewrite (zero_to_na_run _ (drop_NoDup a _ Hnd)). cbn [trace outcome].
  rewrite bind_run, fill_default_run. cbn [trace outcome app].
  reflexivity.
Qed.

Lemma column_names_apply_default d base :
  column_names (apply_default d base) = column_names base.
Proof. destruct d; [apply column_names_fillna | reflexivity]. Qed.

(** X9: on a valid input nothing is logged and the engine is called in
    program order: variant 1 calls [groupby], [resample], [agg], variant 2
    calls [reset_index], [groupby], [resample], [agg], [drop] and then
    assigns through [loc] once for every column of the table it returns;
    [fillna] follows exactly when a default value is set. *)
Theorem valid_run_calls_the_engine_in_order :
  forall env,
    (forall self df,
        valid_input1 env self df ->
        trace (Variant1.transform env self (PyFrame df))
        = [PandasCall "groupby"; PandasCall "resample"; PandasCall "agg"]
          ++ match Variant1.default_value self with
             | Some _ => [PandasCall "fillna"]
             | None => []
             end)
    /\ (forall self df,
           valid_input2 env self df ->
           exists out,
             outcome (Variant2.transform env self (PyFrame df))
             = inr (PyFrame out)
             /\ trace (Variant2.transform env self (PyFrame df))
                = [PandasCall "reset_index"; PandasCall "groupby";
                   PandasCall "resample"; PandasCall "agg"; PandasCall "drop"]
                  ++ repeat (PandasCall "loc.__setitem__")
                            (List.length (column_names out))
                  ++ match Variant2.default_value self with
                     | Some _ => [PandasCall "fillna"]
                     | None => []
                     end).
Proof.
  intros env. split.
  - intros self df Hv.
    destruct (resampled1_valid_run env self df Hv)
      as (vs & l & ts & w & p & _ & _ & _ & _ & _ & Hrun & _).
    rewrite (transform1_after_check env self df (v1_index _ _ _ Hv)), Hrun.
    rewrite bind_run, fill_default_run. reflexivity.
  - intros self df Hv.
    destruct (aggregated2_valid_run env self df Hv)
      as (d & l & ts & w & p & _ & _ & _ & _ & _ & _ & Hrun & Hnd).
    rewrite (transform2_run env self df _ (valid_input2_passes env self df Hv)
               Hrun Hnd).
    eexists. split; [reflexivity |]. cbn [trace].
    now rewrite column_names_apply_default, column_names_sweep.
Qed.

Lemma valid_run_calls_the_engine_in_order_witness :
  trace (Variant1.transform (Reference.engine true)
           (Variant1.init None None None None) (PyFrame Reference.ward_flat))
  = [PandasCall "groupby"; PandasCall "resample"; PandasCall "agg";
     PandasCall "fillna"]
  /\ exists out,
      outcome (Variant2.transform (Reference.engine true)
                 (Variant2.init None None None None None)
                 (PyFrame Reference.ward))
      = inr (PyFrame out)
      /\ trace (Variant2.transform (Reference.engine true)
                  (Variant2.init None None None None None)
                  (PyFrame Reference.ward))
         = [PandasCall "reset_index"; PandasCall "groupby";
            PandasCall "resample"; PandasCall "agg"; PandasCall "drop"]
           ++ repeat (PandasCall "loc.__setitem__")
                     (List.length (column_names out))
           ++ [].
Proof.
  destruct (valid_run_calls_the_engine_in_order (Reference.engine true))
    as [H1 H2].
  split.
  - apply (H1 (Variant1.init None None None None) Reference.ward_flat).
    apply ward_flat_valid; reflexivity.
  - apply (H2 (Variant2.init None None None None None) Reference.ward).
    apply ward_valid; reflexivity.
Defined.

(** *** Shape *)

Lemma agg_frame_well_formed rs p :
  rs_time_name rs <> Some (gb_key (rs_groupby rs)) ->
  NoDup (column_names (agg_frame rs p)) ->
  well_formed (agg_frame rs p).
Proof.
  intros Hname Hnd. constructor.
  - discriminate.
  - unfold agg_frame, nrows, level_length. simpl.
    repeat constructor; simpl; now rewrite !length_map.
  - unfold agg_frame, nrows, level_length. simpl.
    apply Forall_forall. intros c Hin. apply in_map_iff in Hin.
    destruct Hin as (x & <- & _). simpl. now rewrite !length_map.
  - unfold index_names, agg_frame. simpl. constructor.
    + intros [H | []]. exact (Hname H).
    + constructor; [intros [] | constructor].
  - exact Hnd.
Qed.

Lemma well_formed_cells (f : Cell -> Cell) (df : DataFrame) :
  well_formed df ->
  well_formed (mkFrame (index df)
                 (map (fun c => (fst c, map f (snd c))) (columns df))).
Proof.
  intros [Hix Hlv Hcols Hin Hcn]. constructor; simpl.
  - exact Hix.
  - exact Hlv.
  - apply Forall_forall. intros c Hc. apply in_map_iff in Hc.
    destruct Hc as (x & <- & Hx). simpl. rewrite length_map.
    rewrite Forall_forall in Hcols. apply (Hcols x Hx).
  - exact Hin.
  - unfold column_names. simpl. rewrite map_map. exact Hcn.
Qed.

Lemma well_formed_drop (df : DataFrame) (key : string) :
  well_formed df -> well_formed (drop df key).
Proof.
  intros [Hix Hlv Hcols Hin Hcn]. constructor; simpl.
  - exact Hix.
  - exact Hlv.
  - apply Forall_forall. intros c Hc. apply filter_In in Hc.
    rewrite Forall_forall in Hcols. apply (Hcols c (proj1 Hc)).
  - exact Hin.
  - now apply drop_NoDup.
Qed.

Lemma well_formed_apply_default d (df : DataFrame) :
  well_formed df -> well_formed (apply_default d df).
Proof.
  intros H. destruct d as [v|]; [| exact H].
  apply (well_formed_cells (fill v) df H).
Qed.

Lemma well_formed_sweep (df : DataFrame) :
  well_formed df -> well_formed (sweep df).
Proof. apply (well_formed_cells zero_cell). Qed.

(** X10: the table returned on a valid input is indexed by two levels, the
    grouping key and the bucket starts, the second carrying the name of the
    input's datetime level. It is well formed: both levels and every
    column have one entry per row and no label is repeated. In variant 2
    the grouping key is not among its columns. *)
Theorem result_is_indexed_by_key_and_bucket :
  forall env,
    (forall self df,
        valid_input1 env self df ->
        exists l out oks obs,
          index df = [l]
          /\ outcome (Variant1.transform env self (PyFrame df))
             = inr (PyFrame out)
          /\ index out = [ mkLevel (Some (Variant1.groupby self)) (Labels oks);
                           mkLevel (level_name l) (Datetimes obs) ]
          /\ well_formed out)
    /\ (forall self df,
           valid_input2 env self df ->
           exists l out oks obs,
             remove_level (index df) (Variant2.groupby self) = [l]
             /\ outcome (Variant2.transform env self (PyFrame df))
                = inr (PyFrame out)
             /\ index out
                = [ mkLevel (Some (Variant2.groupby self)) (Labels oks);
                    mkLevel (level_name l) (Datetimes obs) ]
             /\ well_formed out
             /\ ~ In (Variant2.groupby self) (column_names out)).
Proof.
  intros env. split.
  - intros self df Hv.
    destruct (resampled1_valid_run env self df Hv)
      as (vs & l & ts & w & p & _ & Hl & _ & _ & _ & Hrun & Hnd).
    assert (Hname : level_name l <> Some (Variant1.groupby self)).
    { intros E. apply (v1_key_level _ _ _ Hv). unfold index_names.
      rewrite Hl. simpl. now left. }
    eexists l, _, _, _. split; [exact Hl |]. split; [| split].
    + rewrite (transform1_after_check env self df (v1_index _ _ _ Hv)), Hrun.
      rewrite bind_run, fill_default_run. reflexivity.
    + rewrite index_apply_default. reflexivity.
    + apply well_formed_apply_default.
      apply agg_frame_well_formed; [exact Hname | exact Hnd].
  - intros self df Hv.
    destruct (aggregated2_valid_run env self df Hv)
      as (d & l & ts & w & p & _ & Hrem & _ & Hname & _ & _ & Hrun & Hnd).
    eexists l, _, _, _. split; [exact Hrem |]. split; [| split; [| split]].
    + rewrite (transform2_run env self df _
                 (valid_input2_passes env self df Hv) Hrun Hnd).
      reflexivity.
    + rewrite index_apply_default. reflexivity.
    + apply well_formed_apply_default, well_formed_sweep, well_formed_drop.
      apply agg_frame_well_formed; [exact Hname | exact Hnd].
    + rewrite column_names_apply_default, column_names_sweep.
      apply not_in_dropped.
Qed.

Lemma result_is_indexed_by_key_and_bucket_witness :
  (exists l out oks obs,
      index Reference.ward_flat = [l]
      /\ outcome (Variant1.transform (Reference.engine true)
                    (Variant1.init None None None None)
                    (PyFrame Reference.ward_flat))
         = inr (PyFrame out)
      /\ index out = [ mkLevel (Some "stay_id") (Labels oks);
                       mkLevel (level_name l) (Datetimes obs) ]
      /\ well_formed out)
  /\ (exists l out oks obs,
         remove_level (index Reference.ward) "stay_id" = [l]
         /\ outcome (Variant2.transform (Reference.engine true)
                       (Variant2.init None None None None None)
                       (PyFrame Reference.ward))
            = inr (PyFrame out)
         /\ index out = [ mkLevel (Some "stay_id") (Labels oks);
                          mkLevel (level_name l) (Datetimes obs) ]
         /\ well_formed out
         /\ ~ In "stay_id" (column_names out)).
Proof.
  destruct (result_is_indexed_by_key_and_bucket (Reference.engine true))
    as [H1 H2].
  split.
  - apply (H1 (Variant1.init None None None None) Reference.ward_flat).
    apply ward_flat_valid; reflexivity.
  - apply (H2 (Variant2.init None None None None None) Reference.ward).
    apply ward_valid; reflexivity.
Defined.

(** ** Buckets *)

Lemma select_In_nth {A B} (f : A -> bool) (ks : list A) :
  forall (ts : list B) i k t,
    nth_error ks i = Some k -> nth_error ts i = Some t -> f k = true ->
    In t (select (map f ks) ts).
Proof.
  induction ks as [|x ks IH]; intros [|y ts] [|i] k t Hk Ht Hf;
    simpl in *; try discriminate.
  - inversion Hk. inversion Ht. subst. rewrite Hf. now left.
  - destruct (f x); [right |]; now apply (IH ts i k t).
Qed.

Lemma select_In_inv {A B} (f : A -> bool) (ks : list A) :
  forall (ts : list B) t,
    In t (select (map f ks) ts) ->
    exists i k, nth_error ks i = Some k /\ f k = true
                /\ nth_error ts i = Some t.
Proof.
  induction ks as [|x ks IH]; intros [|y ts] t Hin; simpl in *;
    try contradiction.
  - destruct (f x); contradiction.
  - destruct (f x) eqn:E.
    + destruct Hin as [<- | Hin].
      * exists 0%nat, x. auto.
      * destruct (IH ts t Hin) as (i & k & Hk & Hf & Ht).
        exists (S i), k. auto.
    + destruct (IH ts t Hin) as (i & k & Hk & Hf & Ht).
      exists (S i), k. auto.
Qed.

Lemma fold_min_max_bounds (t : Z) (rest : list Z) (x : Z) :
  In x (t :: rest) ->
  fold_right Z.min t rest <= x <= fold_right Z.max t rest.
Proof.
  induction rest as [|y rest IH]; simpl.
  - intros [<- | []]. lia.
  - intros [<- | [<- | Hin]].
    + assert (H : In t (t :: rest)) by now left.
      specialize (IH H). lia.
    + lia.
    + assert (H : In x (t :: rest)) by now right.
      specialize (IH H). lia.
Qed.

Lemma fold_min_In (t : Z) (rest : list Z) :
  In (fold_right Z.min t rest) (t :: rest).
Proof.
  induction rest as [|y rest IH]; simpl; [now left |].
  destruct (Z.min_spec y (fold_right Z.min t rest)) as [[_ ->] | [_ ->]].
  - right. now left.
  - simpl in IH. destruct IH as [H | H]; [now left | right; now right].
Qed.

Lemma fold_max_In (t : Z) (rest : list Z) :
  In (fold_right Z.max t rest) (t :: rest).
Proof.
  induction rest as [|y rest IH]; simpl; [now left |].
  destruct (Z.max_spec y (fold_right Z.max t rest)) as [[_ ->] | [_ ->]].
  - simpl in IH. destruct IH as [H | H]; [now left | right; now right].
  - right. now left.
Qed.

Lemma bucket_count_eq (w first last origin : Z) :
  0 < w ->
  (last - (last - origin) mod w + w - (first - (first - origin) mod w)) / w
  = (last - origin) / w - (first - origin) / w + 1.
Proof.
  intros Hw.
  rewrite (Z.mod_eq (last - origin) w), (Z.mod_eq (first - origin) w) by lia.
  replace (last - (last - origin - w * ((last - origin) / w)) + w
           - (first - (first - origin - w * ((first - origin) / w))))
    with (((last - origin) / w - (first - origin) / w + 1) * w) by ring.
  apply Z.div_mul. lia.
Qed.

Lemma bucket_labels_In (w : Z) (t0 : Z) (rest : list Z) (b : Z) :
  0 < w ->
  let first := fold_right Z.min t0 rest in
  let last := fold_right Z.max t0 rest in
  let origin := day * (first / day) in
  In b (bucket_labels w (t0 :: rest)) <->
  exists k, 0 <= k <= (last - origin) / w - (first - origin) / w
            /\ b = origin + w * ((first - origin) / w + k).
Proof.
  intros Hw first last origin. unfold bucket_labels.
  fold first. fold last. fold origin. cbv zeta.
  rewrite (bucket_count_eq w first last origin Hw).
  rewrite in_map_iff. split.
  - intros (i & <- & Hi). apply in_seq in Hi. exists (Z.of_nat i). split.
    + lia.
    + rewrite (Z.mod_eq (first - origin) w) by lia. ring.
  - intros (k & Hk & ->). exists (Z.to_nat k). split.
    + rewrite Z2Nat.id by lia.
      rewrite (Z.mod_eq (first - origin) w) by lia. ring.
    + apply in_seq. lia.
Qed.

Lemma bucket_cover (w : Z) (ts : list Z) (t : Z) :
  0 < w -> In t ts ->
  exists b, In b (bucket_labels w ts) /\ b <= t < b + w.
Proof.
  intros Hw Hin. destruct ts as [|t0 rest]; [contradiction |].
  pose proof (fold_min_max_bounds t0 rest t Hin) as [Hlo Hhi].
  set (first := fold_right Z.min t0 rest) in *.
  set (last := fold_right Z.max t0 rest) in *.
  set (origin := day * (first / day)).
  exists (origin + w * ((t - origin) / w)). split.
  - apply (bucket_labels_In w t0 rest _ Hw). fold first last origin.
    exists ((t - origin) / w - (first - origin) / w). split.
    + pose proof (Z.div_le_mono (first - origin) (t - origin) w Hw).
      pose proof (Z.div_le_mono (t - origin) (last - origin) w Hw).
      lia.
    + f_equal. f_equal. ring.
  - pose proof (Z.mod_pos_bound (t - origin) w Hw) as Hmod.
    rewrite (Z.mod_eq (t - origin) w) in Hmod by lia. lia.
Qed.

Lemma bucket_tight (w : Z) (ts : list Z) (b : Z) :
  0 < w -> In b (bucket_labels w ts) ->
  exists t1 t2, In t1 ts /\ t1 < b + w /\ In t2 ts /\ b <= t2.
Proof.
  intros Hw Hin. destruct ts as [|t0 rest]; [contradiction |].
  apply (bucket_labels_In w t0 rest b Hw) in Hin.
  set (first := fold_right Z.min t0 rest) in *.
  set (last := fold_right Z.max t0 rest) in *.
  set (origin := day * (first / day)) in *.
  destruct Hin as (k & Hk & ->).
  exists first, last.
  split; [apply fold_min_In |]. split; [| split; [apply fold_max_In |]].
  - pose proof (Z.mod_pos_bound (first - origin) w Hw) as Hmod.
    rewrite (Z.mod_eq (first - origin) w) in Hmod by lia. nia.
  - pose proof (Z.mod_pos_bound (last - origin) w Hw) as Hmod.
    rewrite (Z.mod_eq (last - origin) w) in Hmod by lia. nia.
Qed.

Lemma grid_cover (w : Z) (keys : list Cell) (times : list Z) :
  0 < w ->
  forall i q t,
    nth_error keys i = Some (Some q) -> nth_error times i = Some t ->
    exists g b, In (g, b) (grid w keys times) /\ (g == q)%Q /\ b <= t < b + w.
Proof.
  intros Hw i q t Hk Ht.
  assert (Hsel : In t (select (map (is_key (Qred q)) keys) times)).
  { apply (select_In_nth _ keys times i (Some q) t Hk Ht), is_key_Qred. }
  destruct (bucket_cover w _ t Hw Hsel) as (b & Hb & Hbt).
  exists (Qred q), b. split; [| split; [apply Qred_correct | exact Hbt]].
  unfold grid. apply in_flat_map. exists (Qred q). split.
  - apply group_keys_In. exists q. split; [| reflexivity].
    now apply (nth_error_In keys i).
  - now apply in_map.
Qed.

Lemma grid_tight (w : Z) (keys : list Cell) (times : list Z) g b :
  0 < w -> In (g, b) (grid w keys times) ->
  exists i1 q1 t1 i2 q2 t2,
    nth_error keys i1 = Some (Some q1) /\ (q1 == g)%Q
    /\ nth_error times i1 = Some t1 /\ t1 < b + w
    /\ nth_error keys i2 = Some (Some q2) /\ (q2 == g)%Q
    /\ nth_error times i2 = Some t2 /\ b <= t2.
Proof.
  intros Hw Hin. unfold grid in Hin. apply in_flat_map in Hin.
  destruct Hin as (g0 & _ & Hb). apply in_map_iff in Hb.
  destruct Hb as (b0 & Heq & Hb). inversion Heq. subst g0 b0.
  destruct (bucket_tight w _ b Hw Hb) as (t1 & t2 & H1 & Hlt & H2 & Hle).
  destruct (select_In_inv _ keys times t1 H1) as (i1 & k1 & Hk1 & Hf1 & Ht1).
  destruct (select_In_inv _ keys times t2 H2) as (i2 & k2 & Hk2 & Hf2 & Ht2).
  destruct k1 as [q1|]; [| discriminate]. destruct k2 as [q2|]; [| discriminate].
  simpl in Hf1, Hf2. apply Qeq_bool_iff in Hf1. apply Qeq_bool_iff in Hf2.
  exists i1, q1, t1, i2, q2, t2. repeat split; assumption.
Qed.

Lemma rows_nth (rows : list (Q * Z)) j g b :
  nth_error (map (fun r => Some (fst r)) rows) j = Some (Some g) ->
  nth_error (map snd rows) j = Some b ->
  In (g, b) rows.
Proof.
  rewrite !nth_error_map.
  destruct (nth_error rows j) as [[g' b']|] eqn:E; simpl; [| discriminate].
  intros Hg Hb. inversion Hg. inversion Hb. subst.
  now apply (nth_error_In rows j).
Qed.

Lemma rows_In (rows : list (Q * Z)) g b :
  In (g, b) rows ->
  exists j, nth_error (map (fun r => Some (fst r)) rows) j = Some (Some g)
            /\ nth_error (map snd rows) j = Some b.
Proof.
  intros Hin. apply In_nth_error in Hin. destruct Hin as (j & Hj).
  exists j. rewrite !nth_error_map, Hj. split; reflexivity.
Qed.

Lemma agg_frame_grid rs p :
  0 < rs_width rs ->
  exists oks obs,
    index (agg_frame rs p)
    = [ mkLevel (Some (gb_key (rs_groupby rs))) (Labels oks);
        mkLevel (rs_time_name rs) (Datetimes obs) ]
    /\ covers (rs_width rs) (gb_keys (rs_groupby rs)) (rs_times rs) oks obs
    /\ spanned (rs_width rs) (gb_keys (rs_groupby rs)) (rs_times rs) oks obs.
Proof.
  intros Hw. eexists. eexists. split; [reflexivity |]. split.
  - intros i q t Hk Ht.
    destruct (grid_cover _ _ _ Hw i q t Hk Ht) as (g & b & Hin & Hg & Hb).
    destruct (rows_In _ g b Hin) as (j & Hj1 & Hj2).
    exists j, g, b. auto.
  - intros j g b Hj1 Hj2.
    apply (grid_tight _ _ _ g b Hw). now apply (rows_nth _ j).
Qed.

(** X11: on a valid input the rows of the result run, for each group,
    from the bucket of its first observation to the bucket of its last.
    Every input row with a key present lies in the bucket of some row of
    the result with that key, a left-closed interval as wide as the
    frequency; and every row of the result has an observation of its group
    that is not after its bucket and one that is not before it. *)
Theorem buckets_span_the_observations :
  forall env,
    (forall self df,
        valid_input1 env self df ->
        exists keys l times w out oks obs,
          getitem (columns df) (Variant1.groupby self) = Some keys
          /\ index df = [l]
          /\ level_data l = Datetimes times
          /\ to_offset env (Variant1.frequency self) = Some w
          /\ outcome (Variant1.transform env self (PyFrame df))
             = inr (PyFrame out)
          /\ index out = [ mkLevel (Some (Variant1.groupby self)) (Labels oks);
                           mkLevel (level_name l) (Datetimes obs) ]
          /\ covers (Z.pos w) keys times oks obs
          /\ spanned (Z.pos w) keys times oks obs)
    /\ (forall self df,
           valid_input2 env self df ->
           exists d l times w out oks obs,
             get_level_values (index df) (Some (Variant2.groupby self))
             = inr d
             /\ remove_level (index df) (Variant2.groupby self) = [l]
             /\ level_data l = Datetimes times
             /\ to_offset env (Variant2.frequency self) = Some w
             /\ outcome (Variant2.transform env self (PyFrame df))
                = inr (PyFrame out)
             /\ index out
                = [ mkLevel (Some (Variant2.groupby self)) (Labels oks);
                    mkLevel (level_name l) (Datetimes obs) ]
             /\ covers (Z.pos w) (level_cells d) times oks obs
             /\ spanned (Z.pos w) (level_cells d) times oks obs).
Proof.
  intros env. split.
  - intros self df Hv.
    destruct (resampled1_valid_run env self df Hv)
      as (vs & l & ts & w & p & Hvs & Hl & Hdata & _ & Hw & Hrun & _).
    destruct (agg_frame_grid
                (mkResampler (mkGroupBy df (Variant1.groupby self) vs true)
                             (Z.pos w) (level_name l) ts) p)
      as (oks & obs & Hindex & Hcov & Hspan); [reflexivity |].
    exists vs, l, ts, w. eexists. exists oks, obs.
    split; [exact Hvs |]. split; [exact Hl |]. split; [exact Hdata |].
    split; [exact Hw |]. split; [| split; [| split]].
    + rewrite (transform1_after_check env self df (v1_index _ _ _ Hv)), Hrun.
      rewrite bind_run, fill_default_run. reflexivity.
    + rewrite index_apply_default. exact Hindex.
    + exact Hcov.
    + exact Hspan.
  - intros self df Hv.
    destruct (aggregated2_valid_run env self df Hv)
      as (d & l & ts & w & p & Hd & Hrem & Hdata & _ & _ & Hw & Hrun & Hnd).
    destruct (agg_frame_grid
                (mkResampler
                   (mkGroupBy
                      (mkFrame [l] ((Variant2.groupby self, level_cells d)
                                      :: columns df))
                      (Variant2.groupby self) (level_cells d) true)
                   (Z.pos w) (level_name l) ts) p)
      as (oks & obs & Hindex & Hcov & Hspan); [reflexivity |].
    exists d, l, ts, w. eexists. exists oks, obs.
    split; [exact Hd |]. split; [exact Hrem |]. split; [exact Hdata |].
    split; [exact Hw |]. split; [| split; [| split]].
    + rewrite (transform2_run env self df _
                 (valid_input2_passes env self df Hv) Hrun Hnd).
      reflexivity.
    + rewrite index_apply_default. exact Hindex.
    + exact Hcov.
    + exact Hspan.
Qed.

Lemma buckets_span_the_observations_witness :
  (exists keys l times w out oks obs,
      getitem (columns Reference.ward_flat) "stay_id" = Some keys
      /\ index Reference.ward_flat = [l]
      /\ level_data l = Datetimes times
      /\ to_offset (Reference.engine true) "1H" = Some w
      /\ outcome (Variant1.transform (Reference.engine true)
                    (Variant1.init None None None None)
                    (PyFrame Reference.ward_flat))
         = inr (PyFrame out)
      /\ index out = [ mkLevel (Some "stay_id") (Labels oks);
                       mkLevel (level_name l) (Datetimes obs) ]
      /\ covers (Z.pos w) keys times oks obs
      /\ spanned (Z.pos w) keys times oks obs)
  /\ (exists d l times w out oks obs,
         get_level_values (index Reference.ward) (Some "stay_id") = inr d
         /\ remove_level (index Reference.ward) "stay_id" = [l]
         /\ level_data l = Datetimes times
         /\ to_offset (Reference.engine true) "1H" = Some w
         /\ outcome (Variant2.transform (Reference.engine true)
                       (Variant2.init None None None None None)
                       (PyFrame Reference.ward))
            = inr (PyFrame out)
         /\ index out = [ mkLevel (Some "stay_id") (Labels oks);
                          mkLevel (level_name l) (Datetimes obs) ]
         /\ covers (Z.pos w) (level_cells d) times oks obs
         /\ spanned (Z.pos w) (level_cells d) times oks obs).
Proof.
  destruct (buckets_span_the_observations (Reference.engine true))
    as [H1 H2].
  split.
  - apply (H1 (Variant1.init None None None None) Reference.ward_flat).
    apply ward_flat_valid; reflexivity.
  - apply (H2 (Variant2.init None None None None None) Reference.ward).
    apply ward_valid; reflexivity.
Defined.

(** ** The two variants side by side *)

Lemma aggregated2_is_resampled1 env self df :
  Variant2.aggregated env self df
  = (flat <- call "reset_index" (reset_index df (Variant2.groupby self)) ;;
     Variant1.resampled env (as_variant1 self) flat).
Proof. reflexivity. Qed.

Lemma reset_frame_valid env self df d l ts :
  valid_input2 env self df ->
  get_level_values (index df) (Some (Variant2.groupby self)) = inr d ->
  remove_level (index df) (Variant2.groupby self) = [l] ->
  level_data l = Datetimes ts ->
  valid_input1 env (as_variant1 self)
    (mkFrame [l] ((Variant2.groupby self, level_cells d) :: columns df)).
Proof.
  intros [Hwf Hkl Hkc _ Hfreq Hm] Hd Hrem Hdata.
  set (key := Variant2.groupby self) in *.
  assert (Hl_in : In l (index df)).
  { apply (remove_level_In _ key). rewrite Hrem. now left. }
  assert (Hl_name : level_name l <> Some key).
  { apply (remove_level_name (index df) key).
    - apply (wf_index_names df Hwf).
    - rewrite Hrem. now left. }
  pose proof (wf_levels df Hwf) as Hlv. rewrite Forall_forall in Hlv.
  constructor; simpl.
  - constructor; simpl.
    + discriminate.
    + repeat constructor.
    + constructor.
      * simpl. unfold nrows. simpl.
        apply get_level_values_In in Hd. destruct Hd as (lk & Hlk & _ & <-).
        rewrite level_cells_length. now rewrite (Hlv _ Hlk), (Hlv _ Hl_in).
      * pose proof (wf_columns df Hwf) as Hc.
        unfold nrows. simpl. rewrite (Hlv _ Hl_in).
        exact Hc.
    + unfold index_names. simpl. repeat constructor. intros [].
    + unfold column_names. simpl. constructor.
      * intros Hin. apply has_column_In in Hin. fold key in Hin. congruence.
      * apply (wf_column_names df Hwf).
  - now rewrite Hdata.
  - unfold has_column, column_names. simpl. fold key.
    now rewrite String.eqb_refl.
  - unfold index_names. simpl. intros [H | []]. exact (Hl_name H).
  - exact Hfreq.
  - exact Hm.
Qed.

(** X12: variant 2 is variant 1 behind [reset_index]. On a valid input of
    variant 2 the frame [X.reset_index(key)] is a valid input of variant 1
    under the same frequency, method, key and default value; the table
    variant 1 builds from it before its fill is the table variant 2
    aggregates, and variant 2 returns that table without the key column,
    with its zeros made missing, then filled. *)
Theorem variant2_is_variant1_after_reset_index :
  forall env self df,
    valid_input2 env self df ->
    exists flat a,
      reset_index df (Variant2.groupby self) = inr flat
      /\ valid_input1 env (as_variant1 self) flat
      /\ outcome (Variant1.resampled env (as_variant1 self) flat) = inr a
      /\ outcome (Variant1.transform env (as_variant1 self) (PyFrame flat))
         = inr (PyFrame (apply_default (Variant2.default_value self) a))
      /\ outcome (Variant2.transform env self (PyFrame df))
         = inr (PyFrame (apply_default (Variant2.default_value self)
                           (sweep (drop a (Variant2.groupby self))))).
Proof.
  intros env self df Hv.
  destruct (aggregated2_valid_run env self df Hv)
    as (d & l & ts & w & p & Hd & Hrem & Hdata & _ & _ & _ & Hrun & Hnd).
  pose proof (reset_frame_valid env self df d l ts Hv Hd Hrem Hdata) as Hv1.
  assert (Hflat : reset_index df (Variant2.groupby self)
                  = inr (mkFrame [l] ((Variant2.groupby self, level_cells d)
                                        :: columns df))).
  { unfold reset_index.
    rewrite Hd, (v2_key_column _ _ _ Hv), Hrem. reflexivity. }
  eexists. eexists. split; [exact Hflat |]. split; [exact Hv1 |].
  assert (Ha : outcome (Variant1.resampled env (as_variant1 self)
                          (mkFrame [l] ((Variant2.groupby self, level_cells d)
                                          :: columns df)))
               = outcome (Variant2.aggregated env self df)).
  { rewrite aggregated2_is_resampled1, bind_call, Hflat. reflexivity. }
  rewrite Hrun in Ha. cbn [outcome] in Ha.
  split; [exact Ha |]. split.
  - apply (transform1_outcome env (as_variant1 self) _ _
             (v1_index _ _ _ Hv1) Ha).
  - rewrite (transform2_run env self df _
               (valid_input2_passes env self df Hv) Hrun Hnd).
    reflexivity.
Qed.

Lemma variant2_is_variant1_after_reset_index_witness :
  exists flat a,
    reset_index Reference.ward "stay_id" = inr flat
    /\ valid_input1 (Reference.engine true)
         (as_variant1 (Variant2.init None None None (Some (Some 7%Q)) None)) flat
    /\ outcome (Variant1.resampled (Reference.engine true)
                  (as_variant1 (Variant2.init None None None (Some (Some 7%Q)) None))
                  flat)
       = inr a
    /\ outcome (Variant1.transform (Reference.engine true)
                  (as_variant1 (Variant2.init None None None (Some (Some 7%Q)) None))
                  (PyFrame flat))
       = inr (PyFrame (apply_default (Some (Some 7%Q)) a))
    /\ outcome (Variant2.transform (Reference.engine true)
                  (Variant2.init None None None (Some (Some 7%Q)) None)
                  (PyFrame Reference.ward))
       = inr (PyFrame (apply_default (Some (Some 7%Q)) (sweep (drop a "stay_id")))).
Proof.
  apply (variant2_is_variant1_after_reset_index (Reference.engine true)
           (Variant2.init None None None (Some (Some 7%Q)) None) Reference.ward).
  apply ward_valid; reflexivity.
Defined.

(** ** Transforming a result again *)

Lemma plan_dict_names env cols d :
  forall p, plan_dict env cols d = inr p ->
            map (fun c => fst (fst c)) p = map fst d.
Proof.
  induction d as [|[c a] d IH]; simpl; intros p H.
  - inversion H. reflexivity.
  - destruct (getitem cols c) as [vs|]; [| discriminate].
    destruct (resolve_agg env a) as [e | f]; [discriminate |].
    destruct (plan_dict env cols d) as [e | p']; [discriminate |].
    inversion H. simpl. now rewrite (IH p' eq_refl).
Qed.

Lemma agg_names env rs m a :
  agg env rs m = inr a ->
  column_names a
  = match m with
    | OneAgg _ => map fst (value_columns env (rs_groupby rs))
    | PerColumn d => map fst d
    end.
Proof.
  unfold agg. destruct (plan env _ m) as [e | p] eqn:Hp; [discriminate |].
  intros H. inversion H. unfold column_names, agg_frame. simpl.
  rewrite map_map. simpl. destruct m as [a0 | d]; simpl in Hp.
  - destruct (resolve_agg env a0) as [e | f]; [discriminate |].
    inversion Hp. now rewrite map_map.
  - now apply (plan_dict_names env (value_columns env (rs_groupby rs)) d).
Qed.

Lemma aggregated2_valid_names env self df a :
  valid_input2 env self df ->
  outcome (Variant2.aggregated env self df) = inr a ->
  column_names a
  = match Variant2.method self with
    | OneAgg _ =>
        reduced_names env (Variant2.groupby self)
          (Variant2.groupby self :: column_names df)
    | PerColumn d => map fst d
    end.
Proof.
  intros Hv Ha. pose proof Hv as [Hwf Hkl Hkc (l & Hrem & Hdt) Hfreq Hm].
  set (key := Variant2.groupby self) in *.
  destruct (reset_then_groupby df key (wf_index_names df Hwf) Hkl Hkc)
    as (d & flat & Hd & Hflat & Hindex & Hcols & Hgb).
  rewrite Hrem in Hindex.
  destruct (to_offset env (Variant2.frequency self)) as [w|] eqn:Hw;
    [| congruence].
  destruct (resample_datetime env (mkGroupBy flat key (level_cells d) true)
              (Variant2.frequency self) w Hw) as (l' & ts & _ & _ & Hrs).
  { simpl. rewrite Hindex. exact Hdt. }
  rewrite (aggregated2_run env self df _ _ Hflat Hgb), Hrs in Ha.
  cbn [outcome] in Ha. rewrite (agg_names env _ _ a Ha).
  destruct (Variant2.method self); [| reflexivity].
  cbn [rs_groupby].
  rewrite (value_columns_names env
             (mkGroupBy flat key (level_cells d) true) eq_refl).
  simpl. unfold column_names. now rewrite Hcols.
Qed.

Lemma in_filter_neq (names : list string) (key c : string) :
  In c names -> c <> key ->
  In c (filter (fun n => negb (String.eqb n key)) names).
Proof.
  intros Hin Hc. apply filter_In. split; [exact Hin |].
  apply negb_true_iff. now apply String.eqb_neq.
Qed.

(** The table variant 2 returns on a valid input: its index, and that it
    is a valid input again. *)
Lemma variant2_result env self df :
  valid_input2 env self df ->
  exists d l ts w out,
    get_level_values (index df) (Some (Variant2.groupby self)) = inr d
    /\ remove_level (index df) (Variant2.groupby self) = [l]
    /\ level_data l = Datetimes ts
    /\ List.length (level_cells d) = List.length ts
    /\ to_offset env (Variant2.frequency self) = Some w
    /\ outcome (Variant2.transform env self (PyFrame df)) = inr (PyFrame out)
    /\ index out
       = [ mkLevel (Some (Variant2.groupby self))
                   (Labels (map (fun r => Some (fst r))
                                (grid (Z.pos w) (level_cells d) ts)));
           mkLevel (level_name l)
                   (Datetimes (map snd (grid (Z.pos w) (level_cells d) ts))) ]
    /\ valid_input2 env self out.
Proof.
  intros Hv.
  destruct (aggregated2_valid_run env self df Hv)
    as (d & l & ts & w & p & Hd & Hrem & Hdata & Hname & Hlen & Hw & Hrun & Hnd).
  set (key := Variant2.groupby self) in *.
  set (rs := mkResampler
               (mkGroupBy (mkFrame [l] ((key, level_cells d) :: columns df))
                          key (level_cells d) true)
               (Z.pos w) (level_name l) ts) in *.
  assert (Hnames : column_names (agg_frame rs p)
                   = match Variant2.method self with
                     | OneAgg _ =>
                         reduced_names env key (key :: column_names df)
                     | PerColumn d => map fst d
                     end).
  { apply (aggregated2_valid_names env self df _ Hv). now rewrite Hrun. }
  exists d, l, ts, w.
  exists (apply_default (Variant2.default_value self)
            (sweep (drop (agg_frame rs p) key))).
  split; [exact Hd |]. split; [exact Hrem |]. split; [exact Hdata |].
  split; [exact Hlen |]. split; [exact Hw |]. split; [| split].
  - rewrite (transform2_run env self df _
               (valid_input2_passes env self df Hv) Hrun Hnd).
    reflexivity.
  - rewrite index_apply_default. reflexivity.
  - set (out := apply_default (Variant2.default_value self)
                  (sweep (drop (agg_frame rs p) key))).
    assert (Hout_names : column_names out
                         = filter (fun n => negb (String.eqb n key))
                                  (column_names (agg_frame rs p))).
    { unfold out.
      now rewrite column_names_apply_default, column_names_sweep,
        column_names_drop. }
    assert (Hout_index : index out = index (agg_frame rs p)).
    { unfold out. now rewrite index_apply_default. }
    constructor; fold key.
    + apply well_formed_apply_default, well_formed_sweep, well_formed_drop.
      apply agg_frame_well_formed; [exact Hname | exact Hnd].
    + unfold index_names. rewrite Hout_index. simpl. now left.
    + destruct (has_column out key) eqn:E; [| reflexivity].
      apply has_column_In in E. rewrite Hout_names in E.
      apply filter_In in E. destruct E as [_ E].
      now rewrite String.eqb_refl in E.
    + rewrite Hout_index. simpl. rewrite String.eqb_refl.
      eexists. split; reflexivity.
    + rewrite Hw. discriminate.
    + pose proof (v2_method _ _ _ Hv) as Hm. fold key in Hm.
      destruct (Variant2.method self) as [a0 | d'] eqn:Em; [exact Hm |].
      destruct Hm as [Hd' Hall]. split; [exact Hd' |].
      rewrite Hout_names, Hnames.
      rewrite Forall_forall in Hall. apply Forall_forall.
      intros [c a0] Hin. specialize (Hall _ Hin). simpl in Hall |- *.
      destruct Hall as [Hc Hknown]. split; [| exact Hknown].
      assert (Hc_in : In c (map fst d')).
      { change c with (fst (c, a0)). now apply in_map. }
      unfold reduced_names in Hc |- *.
      destruct (include_groups env).
      * destruct (String.eqb c key) eqn:E.
        -- apply String.eqb_eq in E. subst c. now left.
        -- right. apply in_filter_neq; [exact Hc_in |].
           now apply String.eqb_neq.
      * apply filter_In in Hc. destruct Hc as [_ Hc].
        apply negb_true_iff, String.eqb_neq in Hc.
        apply in_filter_neq; [| exact Hc].
        right. now apply in_filter_neq.
Qed.

(** X13: what a second [transform] does to a result. The table variant 2
    returns on a valid input is again a valid input for the same
    transformer, so it can be resampled once more. The table variant 1
    returns has a two-level index, which variant 1's own check rejects: a
    second [transform] logs the datetime-index error and hands the table
    back unchanged. *)
Theorem transforming_a_result_again :
  forall env,
    (forall self df,
        valid_input1 env self df ->
        exists out,
          outcome (Variant1.transform env self (PyFrame df))
          = inr (PyFrame out)
          /\ Variant1.transform env self (PyFrame out)
             = mkRun [LoggerError no_datetime_index] (inr (PyFrame out)))
    /\ (forall self df,
           valid_input2 env self df ->
           exists out,
             outcome (Variant2.transform env self (PyFrame df))
             = inr (PyFrame out)
             /\ valid_input2 env self out).
Proof.
  intros env. split.
  - intros self df Hv.
    destruct (resampled1_valid_run env self df Hv)
      as (vs & l & ts & w & p & _ & _ & _ & _ & _ & Hrun & _).
    eexists. split.
    + rewrite (transform1_after_check env self df (v1_index _ _ _ Hv)), Hrun.
      rewrite bind_run, fill_default_run. reflexivity.
    + unfold Variant1.transform. cbn [as_DataFrame].
      rewrite index_apply_default. reflexivity.
  - intros self df Hv.
    destruct (variant2_result env self df Hv)
      as (d & l & ts & w & out & _ & _ & _ & _ & _ & Hout & _ & Hvalid).
    exists out. split; [exact Hout | exact Hvalid].
Qed.

Lemma transforming_a_result_again_witness :
  (exists out,
      outcome (Variant1.transform (Reference.engine true)
                 (Variant1.init None None None None)
                 (PyFrame Reference.ward_flat))
      = inr (PyFrame out)
      /\ Variant1.transform (Reference.engine true)
           (Variant1.init None None None None) (PyFrame out)
         = mkRun [LoggerError no_datetime_index] (inr (PyFrame out)))
  /\ (exists out,
         outcome (Variant2.transform (Reference.engine true)
                    (Variant2.init None None None None None)
                    (PyFrame Reference.ward))
         = inr (PyFrame out)
         /\ valid_input2 (Reference.engine true)
              (Variant2.init None None None None None) out).
Proof.
  destruct (transforming_a_result_again (Reference.engine true)) as [H1 H2].
  split.
  - apply (H1 (Variant1.init None None None None) Reference.ward_flat).
    apply ward_flat_valid; reflexivity.
  - apply (H2 (Variant2.init None None None None None) Reference.ward).
    apply ward_valid; reflexivity.
Defined.

(** ** Resampling a resampled table *)

Lemma Qle_bool_total (a b : Q) : Qle_bool a b = false -> Qle_bool b a = true.
Proof.
  intros H. apply Qle_bool_iff. apply Qlt_le_weak. apply Qnot_le_lt.
  intros Hle. apply Qle_bool_iff in Hle. congruence.
Qed.

Lemma insert_sorted_HdRel (x q : Q) (l : list Q) :
  Qle_bool x q = true ->
  HdRel (fun a b => Qle_bool a b = true) x l ->
  HdRel (fun a b => Qle_bool a b = true) x (insert_sorted q l).
Proof.
  intros Hxq Hhd. destruct l as [|y l]; simpl.
  - now constructor.
  - destruct (Qle_bool q y); constructor; [exact Hxq |].
    now inversion Hhd.
Qed.

Lemma insert_sorted_Sorted (q : Q) (l : list Q) :
  Sorted (fun a b => Qle_bool a b = true) l ->
  Sorted (fun a b => Qle_bool a b = true) (insert_sorted q l).
Proof.
  induction l as [|y l IH]; simpl; intros Hs.
  - repeat constructor.
  - destruct (Qle_bool q y) eqn:E.
    + constructor; [exact Hs | now constructor].
    + inversion Hs as [|? ? Hl Hhd]; subst.
      constructor; [now apply IH |].
      apply insert_sorted_HdRel; [now apply Qle_bool_total | exact Hhd].
Qed.

Lemma sort_keys_Sorted (l : list Q) :
  Sorted (fun a b => Qle_bool a b = true) (sort_keys l).
Proof.
  induction l as [|x l IH]; simpl; [constructor |].
  now apply insert_sorted_Sorted.
Qed.

Lemma sort_keys_id (l : list Q) :
  Sorted (fun a b => Qle_bool a b = true) l -> sort_keys l = l.
Proof.
  induction l as [|x l IH]; simpl; [reflexivity |].
  intros Hs. inversion Hs as [|? ? Hl Hhd]; subst.
  rewrite (IH Hl). destruct l as [|y l]; [reflexivity |].
  simpl. inversion Hhd as [|? ? Hxy]; subst. now rewrite Hxy.
Qed.

Lemma insert_sorted_NoDup (q : Q) (l : list Q) :
  ~ In q l -> NoDup l -> NoDup (insert_sorted q l).
Proof.
  induction l as [|y l IH]; simpl; intros Hq Hnd.
  - repeat constructor. intros [].
  - destruct (Qle_bool q y).
    + constructor; [exact Hq | exact Hnd].
    + inversion Hnd as [|? ? Hy Hl]; subst. constructor.
      * rewrite insert_sorted_In. intros [-> | H]; [apply Hq; now left |].
        contradiction.
      * apply IH; [| exact Hl]. intros H. apply Hq. now right.
Qed.

Lemma sort_keys_NoDup (l : list Q) : NoDup l -> NoDup (sort_keys l).
Proof.
  induction l as [|x l IH]; simpl; intros Hnd; [constructor |].
  inversion Hnd as [|? ? Hx Hl]; subst.
  apply insert_sorted_NoDup; [| now apply IH].
  now rewrite sort_keys_In.
Qed.

Lemma group_keys_NoDup (ks : list Cell) : NoDup (group_keys ks).
Proof. apply sort_keys_NoDup, NoDup_nodup. Qed.

Lemma group_keys_reduced (ks : list Cell) (g : Q) :
  In g (group_keys ks) -> Qred g = g.
Proof.
  intros H. apply group_keys_In in H. destruct H as (q & _ & ->).
  apply Qred_involutive.
Qed.

Lemma Qeq_bool_reduced (a b : Q) :
  Qred a = a -> Qred b = b -> Qeq_bool a b = true -> a = b.
Proof.
  intros Ha Hb H. apply Qeq_bool_iff in H.
  rewrite <- Ha, <- Hb. now apply Qred_complete.
Qed.

Lemma present_app (l1 l2 : list Cell) :
  present (l1 ++ l2) = present l1 ++ present l2.
Proof.
  induction l1 as [|[q|] l1 IH]; simpl; [reflexivity | | exact IH].
  now rewrite IH.
Qed.

Lemma present_block (g : Q) (bs : list Z) :
  Qred g = g ->
  present (map (fun r : Q * Z => Some (fst r)) (map (pair g) bs))
  = map (fun _ => g) bs.
Proof.
  intros Hg. induction bs as [|b bs IH]; simpl; [reflexivity |].
  now rewrite Hg, IH.
Qed.

Lemma present_rows (B : Q -> list Z) (G : list Q) :
  (forall g, In g G -> Qred g = g) ->
  present (map (fun r : Q * Z => Some (fst r))
               (flat_map (fun g => map (pair g) (B g)) G))
  = flat_map (fun g => map (fun _ => g) (B g)) G.
Proof.
  induction G as [|g G IH]; intros Hred; simpl; [reflexivity |].
  rewrite map_app, present_app, present_block by (apply Hred; now left).
  rewrite IH; [reflexivity |]. intros g' Hg'. apply Hred. now right.
Qed.

Lemma nodup_block (g : Q) (bs : list Z) (rest : list Q) :
  bs <> [] -> ~ In g rest ->
  nodup Q_eq_dec (map (fun _ => g) bs ++ rest) = g :: nodup Q_eq_dec rest.
Proof.
  intros Hbs Hg. induction bs as [|b bs IH]; [congruence |].
  destruct bs as [|b' bs].
  - simpl. destruct (in_dec Q_eq_dec g rest); [contradiction | reflexivity].
  - change (map (fun _ : Z => g) (b :: b' :: bs) ++ rest)
      with (g :: (map (fun _ : Z => g) (b' :: bs) ++ rest)).
    cbn [nodup].
    destruct (in_dec Q_eq_dec g (map (fun _ : Z => g) (b' :: bs) ++ rest))
      as [_ | Hn].
    + apply IH. discriminate.
    + exfalso. apply Hn. simpl. now left.
Qed.

Lemma nodup_blocks (B : Q -> list Z) (G : list Q) :
  NoDup G -> (forall g, In g G -> B g <> []) ->
  nodup Q_eq_dec (flat_map (fun g => map (fun _ => g) (B g)) G) = G.
Proof.
  induction G as [|g G IH]; intros Hnd Hne; simpl; [reflexivity |].
  inversion Hnd as [|? ? Hg HG]; subst.
  rewrite nodup_block.
  - rewrite IH; [reflexivity | exact HG |].
    intros g' Hg'. apply Hne. now right.
  - apply Hne. now left.
  - intros Hin. apply in_flat_map in Hin. destruct Hin as (g' & Hg' & Hin).
    apply in_map_iff in Hin. destruct Hin as (_ & <- & _). contradiction.
Qed.

Lemma group_has_buckets (w : Z) (keys : list Cell) (times : list Z) (g : Q) :
  0 < w -> List.length keys = List.length times ->
  In g (group_keys keys) ->
  bucket_labels w (select (map (is_key g) keys) times) <> [].
Proof.
  intros Hw Hlen Hg. apply group_keys_In in Hg. destruct Hg as (q & Hin & ->).
  apply bucket_labels_nonempty; [exact Hw |].
  apply select_nonempty; [exact Hlen |].
  exists (Some q). split; [exact Hin | apply is_key_Qred].
Qed.

Lemma group_keys_grid (w : Z) (keys : list Cell) (times : list Z) :
  0 < w -> List.length keys = List.length times ->
  group_keys (map (fun r => Some (fst r)) (grid w keys times))
  = group_keys keys.
Proof.
  intros Hw Hlen. unfold grid.
  unfold group_keys at 1.
  rewrite (present_rows _ (group_keys keys) (group_keys_reduced keys)).
  rewrite nodup_blocks.
  - apply sort_keys_id. apply sort_keys_Sorted.
  - apply group_keys_NoDup.
  - intros g Hg. now apply group_has_buckets.
Qed.

Lemma select_rows (f : Cell -> bool) (rows : list (Q * Z)) :
  select (map f (map (fun r => Some (fst r)) rows)) (map snd rows)
  = map snd (filter (fun r => f (Some (fst r))) rows).
Proof.
  induction rows as [|r rows IH]; simpl; [reflexivity |].
  destruct (f (Some (fst r))); simpl; now rewrite IH.
Qed.

Lemma filter_block_same (g : Q) (bs : list Z) :
  map snd (filter (fun r : Q * Z => is_key g (Some (fst r))) (map (pair g) bs))
  = bs.
Proof.
  induction bs as [|b bs IH]; simpl in *; [reflexivity |].
  assert (Qeq_bool g g = true) as -> by (apply Qeq_bool_iff; reflexivity).
  simpl. now rewrite IH.
Qed.

Lemma filter_block_other (g g' : Q) (bs : list Z) :
  Qeq_bool g' g = false ->
  filter (fun r : Q * Z => is_key g (Some (fst r))) (map (pair g') bs) = [].
Proof.
  intros H. induction bs as [|b bs IH]; simpl in *; [reflexivity |].
  now rewrite H.
Qed.

Lemma select_group (B : Q -> list Z) (G : list Q) (g : Q) :
  NoDup G -> (forall g', In g' G -> Qred g' = g') -> Qred g = g ->
  map snd (filter (fun r : Q * Z => is_key g (Some (fst r)))
                  (flat_map (fun g' => map (pair g') (B g')) G))
  = if in_dec Q_eq_dec g G then B g else [].
Proof.
  intros Hnd Hred Hg. induction G as [|g' G IH]; [reflexivity |].
  cbn [flat_map].
  inversion Hnd as [|? ? Hg' HG]; subst.
  rewrite filter_app, map_app.
  rewrite IH; [| exact HG | intros x Hx; apply Hred; now right].
  destruct (Q_eq_dec g' g) as [-> | Hneq].
  - rewrite filter_block_same.
    destruct (in_dec Q_eq_dec g G) as [Hin | _]; [contradiction |].
    rewrite app_nil_r.
    destruct (in_dec Q_eq_dec g (g :: G)) as [_ | Hn]; [reflexivity |].
    exfalso. apply Hn. now left.
  - rewrite filter_block_other.
    + simpl app.
      destruct (in_dec Q_eq_dec g G) as [Hin | Hn];
        destruct (in_dec Q_eq_dec g (g' :: G)) as [Hin' | Hn'];
        try reflexivity.
      * exfalso. apply Hn'. now right.
      * exfalso. destruct Hin' as [E | Hin']; [now apply Hneq | now apply Hn].
    + destruct (Qeq_bool g' g) eqn:E; [| reflexivity].
      exfalso. apply Hneq.
      apply Qeq_bool_reduced; [apply Hred; now left | exact Hg | exact E].
Qed.

Lemma fold_min_is (t : Z) (rest : list Z) (m : Z) :
  In m (t :: rest) -> (forall x, In x (t :: rest) -> m <= x) ->
  fold_right Z.min t rest = m.
Proof.
  intros Hin Hle.
  pose proof (fold_min_max_bounds t rest m Hin) as [H1 _].
  pose proof (Hle _ (fold_min_In t rest)) as H2. lia.
Qed.

Lemma fold_max_is (t : Z) (rest : list Z) (m : Z) :
  In m (t :: rest) -> (forall x, In x (t :: rest) -> x <= m) ->
  fold_right Z.max t rest = m.
Proof.
  intros Hin Hle.
  pose proof (fold_min_max_bounds t rest m Hin) as [_ H1].
  pose proof (Hle _ (fold_max_In t rest)) as H2. lia.
Qed.

(** The labels of a list whose least and greatest timestamps are known. *)
Lemma bucket_labels_of_bounds (w : Z) (ts : list Z) (lo hi : Z) :
  0 < w ->
  In lo ts -> (forall x, In x ts -> lo <= x) ->
  In hi ts -> (forall x, In x ts -> x <= hi) ->
  bucket_labels w ts
  = map (fun i => day * (lo / day)
                  + w * ((lo - day * (lo / day)) / w + Z.of_nat i))
        (seq 0 (Z.to_nat ((hi - day * (lo / day)) / w
                          - (lo - day * (lo / day)) / w + 1))).
Proof.
  intros Hw Hlo Hlo_le Hhi Hhi_le.
  destruct ts as [|t rest]; [contradiction |].
  unfold bucket_labels.
  rewrite (fold_min_is t rest lo Hlo Hlo_le).
  rewrite (fold_max_is t rest hi Hhi Hhi_le).
  cbv zeta.
  rewrite (bucket_count_eq w lo hi (day * (lo / day)) Hw).
  apply map_ext. intros i.
  rewrite (Z.mod_eq (lo - day * (lo / day)) w) by lia. ring.
Qed.

Lemma bucket_labels_idempotent (w : Z) (ts : list Z) :
  0 < w -> bucket_labels w (bucket_labels w ts) = bucket_labels w ts.
Proof.
  intros Hw. destruct ts as [|t0 rest]; [reflexivity |].
  set (first := fold_right Z.min t0 rest).
  set (last := fold_right Z.max t0 rest).
  set (o := day * (first / day)).
  set (a := (first - o) / w).
  set (c := (last - o) / w - a).
  assert (Hday : 0 < day) by (unfold day; lia).
  assert (Hfl : first <= last).
  { pose proof (fold_min_le_max t0 rest). unfold first, last. lia. }
  assert (Hc : 0 <= c).
  { unfold c, a.
    pose proof (Z.div_le_mono (first - o) (last - o) w Hw). lia. }
  assert (Hrem : 0 <= first - o < day).
  { unfold o. pose proof (Z.mod_pos_bound first day Hday) as H.
    rewrite Z.mod_eq in H by lia. exact H. }
  assert (Ha : 0 <= w * a <= first - o).
  { unfold a. split.
    - apply Z.mul_nonneg_nonneg; [lia |]. apply Z.div_pos; lia.
    - apply Z.mul_div_le. exact Hw. }
  assert (Hmem : forall b, In b (bucket_labels w (t0 :: rest)) <->
                           exists k, 0 <= k <= c /\ b = o + w * (a + k)).
  { intros b. apply (bucket_labels_In w t0 rest b Hw). }
  assert (Hlo : In (o + w * a) (bucket_labels w (t0 :: rest))).
  { apply Hmem. exists 0. split; [lia | f_equal; f_equal; ring]. }
  assert (Hhi : In (o + w * (a + c)) (bucket_labels w (t0 :: rest))).
  { apply Hmem. exists c. split; [lia | reflexivity]. }
  assert (Hdiv : (o + w * a) / day = first / day).
  { symmetry. apply (Z.div_unique (o + w * a) day (first / day) (w * a)).
    - left. lia.
    - unfold o. ring. }
  rewrite (bucket_labels_of_bounds w (bucket_labels w (t0 :: rest))
             (o + w * a) (o + w * (a + c)) Hw Hlo).
  - rewrite Hdiv. fold o.
    replace (o + w * a - o) with (a * w) by ring.
    replace (o + w * (a + c) - o) with ((a + c) * w) by ring.
    rewrite !Z.div_mul by lia.
    rewrite (bucket_labels_of_bounds w (t0 :: rest) first last Hw).
    + fold o. fold a. unfold c. do 3 f_equal. ring.
    + apply fold_min_In.
    + intros x Hx. apply (fold_min_max_bounds t0 rest x Hx).
    + apply fold_max_In.
    + intros x Hx. apply (fold_min_max_bounds t0 rest x Hx).
  - intros x Hx. apply Hmem in Hx. destruct Hx as (k & Hk & ->). nia.
  - exact Hhi.
  - intros x Hx. apply Hmem in Hx. destruct Hx as (k & Hk & ->). nia.
Qed.

Lemma flat_map_ext_In {A B} (f g : A -> list B) (l : list A) :
  (forall a, In a l -> f a = g a) -> flat_map f l = flat_map g l.
Proof.
  induction l as [|a l IH]; intros H; simpl; [reflexivity |].
  rewrite (H a) by now left. rewrite IH; [reflexivity |].
  intros x Hx. apply H. now right.
Qed.

(** The rows of a resampled table, resampled at the same frequency, are
    those rows. *)
Lemma grid_idempotent (w : Z) (keys : list Cell) (times : list Z) :
  0 < w -> List.length keys = List.length times ->
  grid w (map (fun r => Some (fst r)) (grid w keys times))
         (map snd (grid w keys times))
  = grid w keys times.
Proof.
  intros Hw Hlen. unfold grid at 1.
  rewrite (group_keys_grid w keys times Hw Hlen).
  unfold grid at 3. apply flat_map_ext_In. intros g Hg. f_equal.
  rewrite select_rows. unfold grid.
  rewrite (select_group
             (fun g' => bucket_labels w (select (map (is_key g') keys) times))
             (group_keys keys) g (group_keys_NoDup keys)
             (group_keys_reduced keys) (group_keys_reduced keys g Hg)).
  destruct (in_dec Q_eq_dec g (group_keys keys)); [| contradiction].
  now apply bucket_labels_idempotent.
Qed.

(** X14: resampling twice changes no row index. When variant 2 transforms
    a valid input and then, with the same transformer, the table it got,
    the second table has the index of the first: the same keys against the
    same bucket starts, in the same order. *)
Theorem resampling_twice_keeps_the_index :
  forall env self df,
    valid_input2 env self df ->
    exists out out2,
      outcome (Variant2.transform env self (PyFrame df)) = inr (PyFrame out)
      /\ outcome (Variant2.transform env self (PyFrame out))
         = inr (PyFrame out2)
      /\ index out2 = index out.
Proof.
  intros env self df Hv.
  destruct (variant2_result env self df Hv)
    as (d & l & ts & w & out & _ & _ & _ & Hlen & Hw & Hout & Hindex & Hvalid).
  destruct (variant2_result env self out Hvalid)
    as (d' & l' & ts' & w' & out2 & Hd' & Hrem' & Hdata' & _ & Hw' & Hout2
        & Hindex2 & _).
  exists out, out2. split; [exact Hout |]. split; [exact Hout2 |].
  rewrite Hindex2, Hindex.
  pose proof (wf_index_names out (v2_wf env self out Hvalid)) as Hnd.
  unfold index_names in Hnd.
  assert (Hkey : get_level_values (index out) (Some (Variant2.groupby self))
                 = inr (Labels (map (fun r => Some (fst r))
                                    (grid (Z.pos w) (level_cells d) ts)))).
  { rewrite Hindex in Hnd |- *.
    apply (get_level_values_NoDup _ (mkLevel (Some (Variant2.groupby self)) _)
             Hnd).
    now left. }
  rewrite Hkey in Hd'.
  rewrite Hindex in Hrem'. simpl in Hrem'.
  rewrite String.eqb_refl in Hrem'.
  inversion Hd'. subst d'. inversion Hrem'. subst l'.
  simpl in Hdata'. inversion Hdata'. subst ts'.
  rewrite Hw in Hw'. inversion Hw'. subst w'.
  cbn [level_cells level_name].
  now rewrite (grid_idempotent (Z.pos w) (level_cells d) ts eq_refl Hlen).
Qed.

Lemma resampling_twice_keeps_the_index_witness :
  exists out out2,
    outcome (Variant2.transform (Reference.engine true)
               (Variant2.init None None None (Some (Some 7%Q)) None)
               (PyFrame Reference.ward))
    = inr (PyFrame out)
    /\ outcome (Variant2.transform (Reference.engine true)
                  (Variant2.init None None None (Some (Some 7%Q)) None)
                  (PyFrame out))
       = inr (PyFrame out2)
    /\ index out2 = index out.
Proof.
  apply (resampling_twice_keeps_the_index (Reference.engine true)
           (Variant2.init None None None (Some (Some 7%Q)) None) Reference.ward).
  apply ward_valid; reflexivity.
Defined.

(** ** A regular grid *)

Lemma grid_In (w : Z) (keys : list Cell) (times : list Z) (g : Q) (b : Z) :
  In (g, b) (grid w keys times) <->
  In g (group_keys keys)
  /\ In b (bucket_labels w (select (map (is_key g) keys) times)).
Proof.
  unfold grid. rewrite in_flat_map. split.
  - intros (g' & Hg' & Hin). apply in_map_iff in Hin.
    destruct Hin as (b' & Heq & Hb'). inversion Heq. subst. auto.
  - intros (Hg & Hb). exists g. split; [exact Hg | now apply in_map].
Qed.

Lemma bucket_labels_regular (w : Z) (ts : list Z) (b1 b2 : Z) :
  0 < w ->
  In b1 (bucket_labels w ts) -> In b2 (bucket_labels w ts) -> b1 <= b2 ->
  exists n, 0 <= n /\ b2 = b1 + w * n
            /\ forall k, 0 <= k <= n -> In (b1 + w * k) (bucket_labels w ts).
Proof.
  intros Hw H1 H2 Hle. destruct ts as [|t0 rest]; [contradiction |].
  pose proof (bucket_labels_In w t0 rest) as Hmem. cbv zeta in Hmem.
  apply (Hmem b1 Hw) in H1. apply (Hmem b2 Hw) in H2.
  destruct H1 as (k1 & Hk1 & ->). destruct H2 as (k2 & Hk2 & ->).
  exists (k2 - k1). split; [nia |]. split; [ring |].
  intros k Hk. apply (Hmem _ Hw). exists (k1 + k). split; [lia | ring].
Qed.

Lemma agg_frame_gapless rs p :
  0 < rs_width rs ->
  exists oks obs,
    index (agg_frame rs p)
    = [ mkLevel (Some (gb_key (rs_groupby rs))) (Labels oks);
        mkLevel (rs_time_name rs) (Datetimes obs) ]
    /\ gapless (rs_width rs) oks obs.
Proof.
  intros Hw. eexists. eexists. split; [reflexivity |].
  intros j1 j2 g b1 b2 Hg1 Hb1 Hg2 Hb2 Hle.
  pose proof (rows_nth _ j1 g b1 Hg1 Hb1) as H1.
  pose proof (rows_nth _ j2 g b2 Hg2 Hb2) as H2.
  apply grid_In in H1. apply grid_In in H2.
  destruct H1 as [HG H1]. destruct H2 as [_ H2].
  destruct (bucket_labels_regular _ _ b1 b2 Hw H1 H2 Hle)
    as (n & Hn & Heq & Hall).
  exists n. split; [exact Hn |]. split; [exact Heq |].
  intros k Hk. apply rows_In. apply grid_In. split; [exact HG |].
  now apply Hall.
Qed.

(** X15: the result has no gaps. On a valid input, for both variants, any
    two rows of the result with the same key have bucket starts a whole
    number of frequency widths apart, and every bucket start between them
    on that grid is a row of the result with that key as well. *)
Theorem result_has_no_gaps :
  forall env,
    (forall self df,
        valid_input1 env self df ->
        exists l w out oks obs,
          index df = [l]
          /\ to_offset env (Variant1.frequency self) = Some w
          /\ outcome (Variant1.transform env self (PyFrame df))
             = inr (PyFrame out)
          /\ index out = [ mkLevel (Some (Variant1.groupby self)) (Labels oks);
                           mkLevel (level_name l) (Datetimes obs) ]
          /\ gapless (Z.pos w) oks obs)
    /\ (forall self df,
           valid_input2 env self df ->
           exists l w out oks obs,
             remove_level (index df) (Variant2.groupby self) = [l]
             /\ to_offset env (Variant2.frequency self) = Some w
             /\ outcome (Variant2.transform env self (PyFrame df))
                = inr (PyFrame out)
             /\ index out
                = [ mkLevel (Some (Variant2.groupby self)) (Labels oks);
                    mkLevel (level_name l) (Datetimes obs) ]
             /\ gapless (Z.pos w) oks obs).
Proof.
  intros env. split.
  - intros self df Hv.
    destruct (resampled1_valid_run env self df Hv)
      as (vs & l & ts & w & p & _ & Hl & _ & _ & Hw & Hrun & _).
    destruct (agg_frame_gapless
                (mkResampler (mkGroupBy df (Variant1.groupby self) vs true)
                             (Z.pos w) (level_name l) ts) p)
      as (oks & obs & Hindex & Hgap); [reflexivity |].
    exists l, w. eexists. exists oks, obs.
    split; [exact Hl |]. split; [exact Hw |]. split; [| split].
    + rewrite (transform1_after_check env self df (v1_index _ _ _ Hv)), Hrun.
      rewrite bind_run, fill_default_run. reflexivity.
    + rewrite index_apply_default. exact Hindex.
    + exact Hgap.
  - intros self df Hv.
    destruct (aggregated2_valid_run env self df Hv)
      as (d & l & ts & w & p & _ & Hrem & _ & _ & _ & Hw & Hrun & Hnd).
    destruct (agg_frame_gapless
                (mkResampler
                   (mkGroupBy
                      (mkFrame [l] ((Variant2.groupby self, level_cells d)
                                      :: columns df))
                      (Variant2.groupby self) (level_cells d) true)
                   (Z.pos w) (level_name l) ts) p)
      as (oks & obs & Hindex & Hgap); [reflexivity |].
    exists l, w. eexists. exists oks, obs.
    split; [exact Hrem |]. split; [exact Hw |]. split; [| split].
    + rewrite (transform2_run env self df _
                 (valid_input2_passes env self df Hv) Hrun Hnd).
      reflexivity.
    + rewrite index_apply_default. exact Hindex.
    + exact Hgap.
Qed.

Lemma result_has_no_gaps_witness :
  (exists l w out oks obs,
      index Reference.ward_flat = [l]
      /\ to_offset (Reference.engine true) "1H" = Some w
      /\ outcome (Variant1.transform (Reference.engine true)
                    (Variant1.init None None None None)
                    (PyFrame Reference.ward_flat))
         = inr (PyFrame out)
      /\ index out = [ mkLevel (Some "stay_id") (Labels oks);
                       mkLevel (level_name l) (Datetimes obs) ]
      /\ gapless (Z.pos w) oks obs)
  /\ (exists l w out oks obs,
         remove_level (index Reference.ward) "stay_id" = [l]
         /\ to_offset (Reference.engine true) "1H" = Some w
         /\ outcome (Variant2.transform (Reference.engine true)
                       (Variant2.init None None None None None)
                       (PyFrame Reference.ward))
            = inr (PyFrame out)
         /\ index out = [ mkLevel (Some "stay_id") (Labels oks);
                          mkLevel (level_name l) (Datetimes obs) ]
         /\ gapless (Z.pos w) oks obs).
Proof.
  destruct (result_has_no_gaps (Reference.engine true)) as [H1 H2].
  split.
  - apply (H1 (Variant1.init None None None None) Reference.ward_flat).
    apply ward_flat_valid; reflexivity.
  - apply (H2 (Variant2.init None None None None None) Reference.ward).
    apply ward_valid; reflexivity.
Defined.
